(** * Documents-and-editors state tracking of the workbench API layer

    A shallow embedding of
    - [mainThreadDocumentsAndEditors] (snapshot, delta computer, state
      tracker and delta dispatcher, with active-editor tracking),
    - [mainThreadDocumentAndEditorState] (the variant without active-editor
      tracking),
    - [ExtHostEditors] and [ExtHostDocuments] (the accepting side),
    together with the properties the design document states about them.

    JavaScript values are modelled as follows: strings are [string];
    arrays are [list]; [Map<string, V>] and prototype-less objects used as
    dictionaries are [gmap string V]; a variable that may hold [undefined],
    [null] or a string is a [JsId]; thrown errors are an explicit outcome;
    listeners, emitted events and disposals are recorded in explicit
    traces. *)

From Stdlib Require Import ZArith Ascii String.
From stdpp Require Import base decidable option list gmap strings sorting.
From Equations Require Import Equations.

Local Open Scope Z_scope.

(** ** [vs/base/common/strings] *)

Module BaseStrings.

(** Modelled from the spec: [compare] of [vs/base/common/strings] is not
    part of the sources at hand.  The design document calls it the
    "URI string comparison" / "editorId string comparison" ordering; it
    is the three-way comparison of two strings in the lexicographic order
    of their character codes, with results [-1], [0] and [1]. *)
Definition compare (a b : string) : Z :=
  match String.compare a b with
  | Lt => -1
  | Eq => 0
  | Gt => 1
  end.

End BaseStrings.

(** ** [vs/base/common/arrays] *)

Module BaseArrays.

Record DeltaResult (T : Type) := mkDeltaResult {
  removed : list T;
  added : list T;
}.
Arguments mkDeltaResult {T} _ _.
Arguments removed {T} _.
Arguments added {T} _.

Section delta.
Context {T : Type} (compare : T → T → Z).

(** Modelled from the spec: [delta] of [vs/base/common/arrays] is not
    part of the sources at hand.  Section 4.2 of the design document
    describes it: the old and the new sequence are walked with two
    cursors; when [old[i] < new[j]] the old item is removed and [i]
    advances, when [new[j] < old[i]] the new item is added and [j]
    advances, when both compare equal both cursors advance and the
    item is in neither output.  When one sequence is exhausted, what is
    left of the other is removed, respectively added. *)
Fixpoint delta (before : list T) : list T → DeltaResult T :=
  fix walk (after : list T) : DeltaResult T :=
    match before, after with
    | [], _ => mkDeltaResult [] after
    | _, [] => mkDeltaResult before []
    | b :: before', a :: after' =>
        let n := compare b a in
        if n =? 0 then delta before' after'
        else if n <? 0 then
          let r := delta before' after in
          mkDeltaResult (b :: removed r) (added r)
        else
          let r := walk after' in
          mkDeltaResult (removed r) (a :: added r)
    end.

(** Strictly ascending under the comparator: every item compares below
    its successor.  For a transitive comparator this is "sorted and
    duplicate-free". *)
Fixpoint strictlySorted (l : list T) : bool :=
  match l with
  | [] => true
  | x :: l' =>
      match l' with
      | [] => true
      | y :: _ => (compare x y <? 0) && strictlySorted l'
      end
  end.

End delta.

End BaseArrays.

(** ** JavaScript values used by the embedded code *)

(** A variable of TypeScript type [string] that may also hold [undefined]
    or [null] (the compiler does not run with strict null checks). *)
Inductive JsId : Type :=
  | js_undefined
  | js_null
  | js_string (s : string).

#[global] Instance JsId_eq_dec : EqDecision JsId.
Proof. solve_decision. Defined.

(** [a === b] on such values. *)
Definition strictEq (a b : JsId) : bool := bool_decide (a = b).

(** Truthiness: [undefined], [null] and the empty string are falsy. *)
Definition truthy (a : JsId) : bool :=
  match a with
  | js_string s => negb (bool_decide (s = EmptyString))
  | _ => false
  end.

(** [Array.prototype.sort] with a comparator, as a stable insertion sort:
    an item is placed behind the items that do not compare above it. *)
Section ArraySort.
Context {T : Type} (compare : T → T → Z).

Fixpoint sortInsert (x : T) (l : list T) : list T :=
  match l with
  | [] => [x]
  | y :: l' => if 0 <? compare y x then x :: l else y :: sortInsert x l'
  end.

Definition Array_sort (l : list T) : list T :=
  foldr (λ x acc, sortInsert x acc) [] (reverse l).

End ArraySort.

(** ** Collaborator data: models and code editors *)

(** [IModel]: the URI in its string form ([uri.toString()]), and what the
    embedded code reads of a model. *)
Record IModel := mkModel {
  uri : string;
  getVersionId : Z;
  toRawText : string;
  getLanguageId : string;
  isTooLargeForHavingARichMode : bool;
}.

(** A text selection, as four coordinates. *)
Record ISelection := mkSelection {
  selectionStartLineNumber : Z;
  selectionStartColumn : Z;
  positionLineNumber : Z;
  positionColumn : Z;
}.

(** [ICommonCodeEditor]: [editorRef] stands for the identity of the object
    (what [===] compares), [getId] is the editor's id string. *)
Record ICommonCodeEditor := mkEditor {
  editorRef : nat;
  getId : string;
  getModel : option IModel;
  isFocused : bool;
  editorTabSize : Z;
  editorSelections : list ISelection;
}.

Definition sameEditor (a b : ICommonCodeEditor) : bool :=
  bool_decide (editorRef a = editorRef b).

(** The control of a workbench editor: [isCommonCodeEditor] holds of the
    first kind, [isCommonDiffEditor] of the second, neither of the third. *)
Inductive EditorControl : Type :=
  | CodeEditorControl (e : ICommonCodeEditor)
  | DiffEditorControl (getModifiedEditor : ICommonCodeEditor)
  | OtherControl.

Record WorkbenchEditor := mkWorkbenchEditor {
  getControl : EditorControl;
  position : Z;
}.

(** What the services answer at one instant. *)
Record Services := mkServices {
  getModels : list IModel;
  listCodeEditors : list ICommonCodeEditor;
  getActiveEditor : option WorkbenchEditor;
  getVisibleEditors : list WorkbenchEditor;
  isDirty : string → bool;
}.

(** ** Subscriptions ([vs/base/common/event], [vs/base/common/lifecycle]) *)

(** The events the state tracker listens to.  The per-editor events are
    those of one editor object, named by its [editorRef]. *)
Inductive EventSource : Type :=
  | onModelAdded
  | onModelRemoved
  | onCodeEditorAdd
  | onCodeEditorRemove
  | onDidChangeModel (e : nat)
  | onDidFocusEditor (e : nat)
  | onDidBlurEditor (e : nat).

#[global] Instance EventSource_eq_dec : EqDecision EventSource.
Proof. solve_decision. Defined.

(** The listeners registered with the collaborators: each registration
    gets a fresh number. *)
Record ListenerTable := mkListenerTable {
  nextListener : nat;
  liveListeners : list (nat * EventSource);
}.

(** What a subscription hands back: disposing it unregisters these
    listeners. *)
Record IDisposable := mkDisposable {
  unregisters : list nat;
}.

Definition subscribe (src : EventSource) (tbl : ListenerTable)
    : IDisposable * ListenerTable :=
  (mkDisposable [nextListener tbl],
   mkListenerTable (S (nextListener tbl))
                   (liveListeners tbl ++ [(nextListener tbl, src)])).

Definition disposeOne (d : IDisposable) (tbl : ListenerTable) : ListenerTable :=
  mkListenerTable (nextListener tbl)
    (filter (λ l, l.1 ∉ unregisters d) (liveListeners tbl)).

Module Lifecycle.

(** Modelled from the spec: [dispose] of [vs/base/common/lifecycle] is
    not part of the sources at hand.  Applied to an array it disposes
    every element ("releases them deterministically") and answers the
    empty array. *)
Definition dispose (ds : list IDisposable) (tbl : ListenerTable)
    : list IDisposable * ListenerTable :=
  ([], fold_left (λ t d, disposeOne d t) ds tbl).

End Lifecycle.

Module BaseEvent.

(** Modelled from the spec: [any] of [vs/base/common/event] is not part
    of the sources at hand.  Subscribing to the combined event registers
    the listener with each of the events ("per-editor subscribe
    (model-changed, focus-gained, focus-lost)"); the disposable it hands
    back unregisters all of them. *)
Definition any (srcs : list EventSource) (tbl : ListenerTable)
    : IDisposable * ListenerTable :=
  fold_left
    (λ (acc : IDisposable * ListenerTable) src,
       let '(d, t) := subscribe src acc.2 in
       (mkDisposable (unregisters acc.1 ++ unregisters d), t))
    srcs (mkDisposable [], tbl).

End BaseEvent.

(** ** The snapshot, the delta and the state tracker with active-editor
       tracking *)

Module mainThreadDocumentsAndEditors.

Record EditorAndModel := mkEditorAndModel {
  editor : ICommonCodeEditor;
  document : IModel;
  id : string;
}.

(** The constructor of [EditorAndModel]. *)
Definition newEditorAndModel (editor : ICommonCodeEditor) (document : IModel)
    : EditorAndModel :=
  mkEditorAndModel editor document (getId editor +:+ "," +:+ uri document).

Module cmp.

Definition compareModels (a b : IModel) : Z :=
  BaseStrings.compare (uri a) (uri b).

Definition compareEditors (a b : EditorAndModel) : Z :=
  let ret := BaseStrings.compare (getId (editor a)) (getId (editor b)) in
  if ret =? 0 then BaseStrings.compare (uri (document a)) (uri (document b))
  else ret.

End cmp.

Record DocumentAndEditorStateDelta := mkDelta {
  removedDocuments : list IModel;
  addedDocuments : list IModel;
  removedEditors : list EditorAndModel;
  addedEditors : list EditorAndModel;
  oldActiveEditor : JsId;
  newActiveEditor : JsId;
  isEmpty : bool;
}.

(** The constructor of [DocumentAndEditorStateDelta]. *)
Definition newDocumentAndEditorStateDelta
    (removedDocuments addedDocuments : list IModel)
    (removedEditors addedEditors : list EditorAndModel)
    (oldActiveEditor newActiveEditor : JsId) : DocumentAndEditorStateDelta :=
  mkDelta removedDocuments addedDocuments removedEditors addedEditors
    oldActiveEditor newActiveEditor
    (Nat.eqb (length removedDocuments) 0
     && Nat.eqb (length addedDocuments) 0
     && Nat.eqb (length removedEditors) 0
     && Nat.eqb (length addedEditors) 0
     && strictEq oldActiveEditor newActiveEditor).

Record DocumentAndEditorState := mkState {
  documents : list IModel;
  editors : list EditorAndModel;
  activeEditor : JsId;
}.

(** The constructor of [DocumentAndEditorState]. *)
Definition newDocumentAndEditorState (documents : list IModel)
    (editors : list EditorAndModel) (activeEditor : JsId)
    : DocumentAndEditorState :=
  mkState (Array_sort cmp.compareModels documents)
          (Array_sort cmp.compareEditors editors)
          activeEditor.

(** [DocumentAndEditorState.compute]; [before] is [None] when no snapshot
    has been stored yet. *)
Definition compute (before : option DocumentAndEditorState)
    (after : DocumentAndEditorState) : DocumentAndEditorStateDelta :=
  match before with
  | None =>
      newDocumentAndEditorStateDelta [] (documents after) [] (editors after)
        js_undefined (activeEditor after)
  | Some before =>
      let documentDelta :=
        BaseArrays.delta cmp.compareModels (documents before) (documents after) in
      let editorDelta :=
        BaseArrays.delta cmp.compareEditors (editors before) (editors after) in
      let oldActiveEditor :=
        if negb (strictEq (activeEditor before) (activeEditor after))
        then activeEditor before else js_undefined in
      let newActiveEditor :=
        if negb (strictEq (activeEditor before) (activeEditor after))
        then activeEditor after else js_undefined in
      newDocumentAndEditorStateDelta
        (BaseArrays.removed documentDelta) (BaseArrays.added documentDelta)
        (BaseArrays.removed editorDelta) (BaseArrays.added editorDelta)
        oldActiveEditor newActiveEditor
  end.

(** *** [MainThreadDocumentAndEditorState] *)

Record MainThreadDocumentAndEditorState := mkTracker {
  _toDispose : list IDisposable;
  _toDisposeOnEditorRemove : gmap string IDisposable;
  _currentState : option DocumentAndEditorState;
}.

(** What lies outside the tracker object: the collaborators' listener
    tables and the deltas [_onDidChangeState] has fired, oldest first. *)
Record World := mkWorld {
  listeners : ListenerTable;
  fired : list DocumentAndEditorStateDelta;
}.

(** Keeps the equation of a scrutinee at hand in a [with] clause. *)
Definition inspect {A : Type} (a : A) : {b : A | a = b} := exist _ a eq_refl.

(** The first loop of [_updateState]: [models.splice(i, 1)] on a too
    large model, after which [i--] and the loop's [i++] leave the cursor
    in place. *)
Equations? spliceTooLarge (models : list IModel) (i : nat) : list IModel
    by wf (length models - i)%nat lt :=
  spliceTooLarge models i with inspect (models !! i) := {
    | exist _ (Some m) Hm =>
        if isTooLargeForHavingARichMode m
        then spliceTooLarge (delete i models) i
        else spliceTooLarge models (S i)
    | exist _ None Hm => models
  }.
Proof.
  - rewrite length_delete; [|by eauto]. apply lookup_lt_Some in Hm. lia.
  - apply lookup_lt_Some in Hm. lia.
Qed.

(** One round of the second loop of [_updateState]: the bindings
    collected so far and the active editor found so far. *)
Definition collectEditor (acc : list EditorAndModel * JsId)
    (editor : ICommonCodeEditor) : list EditorAndModel * JsId :=
  match getModel editor with
  | Some model =>
      if negb (isTooLargeForHavingARichMode model) then
        let apiEditor := newEditorAndModel editor model in
        (acc.1 ++ [apiEditor],
         if isFocused editor then js_string (id apiEditor) else acc.2)
      else acc
  | None => acc
  end.

(** The [candidate] of the fallback: the control itself when it is a
    code editor, its modified side when it is a diff editor. *)
Definition candidateOf (workbenchEditorControl : EditorControl)
    : option ICommonCodeEditor :=
  match workbenchEditorControl with
  | CodeEditorControl e => Some e
  | DiffEditorControl modified => Some modified
  | OtherControl => None
  end.

(** The loop over the collected bindings that looks for the candidate
    and stops at the first match. *)
Fixpoint matchCandidate (candidate : ICommonCodeEditor)
    (editors : list EditorAndModel) (activeEditor : JsId) : JsId :=
  match editors with
  | [] => activeEditor
  | e :: rest =>
      if sameEditor candidate (editor e) then js_string (id e)
      else matchCandidate candidate rest activeEditor
  end.

(** The active editor after the fallback of [_updateState]. *)
Definition resolveActiveEditor (svc : Services)
    (editors : list EditorAndModel) (activeEditor : JsId) : JsId :=
  if negb (truthy activeEditor) then
    match getActiveEditor svc with
    | Some workbenchEditor =>
        match candidateOf (getControl workbenchEditor) with
        | Some candidate => matchCandidate candidate editors activeEditor
        | None => activeEditor
        end
    | None => activeEditor
    end
  else activeEditor.

(** The snapshot [_updateState] builds (its [newState]). *)
Definition newStateOf (svc : Services) : DocumentAndEditorState :=
  let models := spliceTooLarge (getModels svc) 0 in
  let '(editors, activeEditor) :=
    fold_left collectEditor (listCodeEditors svc) ([], js_null) in
  let activeEditor := resolveActiveEditor svc editors activeEditor in
  newDocumentAndEditorState models editors activeEditor.

Definition _updateState (svc : Services)
    (this : MainThreadDocumentAndEditorState) (w : World)
    : MainThreadDocumentAndEditorState * World :=
  let newState := newStateOf svc in
  let delta := compute (_currentState this) newState in
  if negb (isEmpty delta) then
    (mkTracker (_toDispose this) (_toDisposeOnEditorRemove this) (Some newState),
     mkWorld (listeners w) (fired w ++ [delta]))
  else (this, w).

(** The constructor: four subscriptions, each pushed onto [_toDispose]. *)
Definition newMainThreadDocumentAndEditorState (w : World)
    : MainThreadDocumentAndEditorState * World :=
  let '(d1, t1) := subscribe onModelAdded (listeners w) in
  let '(d2, t2) := subscribe onModelRemoved t1 in
  let '(d3, t3) := subscribe onCodeEditorAdd t2 in
  let '(d4, t4) := subscribe onCodeEditorRemove t3 in
  (mkTracker [d1; d2; d3; d4] ∅ None, mkWorld t4 (fired w)).

Definition dispose (this : MainThreadDocumentAndEditorState) (w : World)
    : MainThreadDocumentAndEditorState * World :=
  let '(ds, t) := Lifecycle.dispose (_toDispose this) (listeners w) in
  (mkTracker ds (_toDisposeOnEditorRemove this) (_currentState this),
   mkWorld t (fired w)).

Definition _onDidAddEditor (svc : Services) (e : ICommonCodeEditor)
    (this : MainThreadDocumentAndEditorState) (w : World)
    : MainThreadDocumentAndEditorState * World :=
  let '(listener, t) :=
    BaseEvent.any [onDidChangeModel (editorRef e);
                   onDidFocusEditor (editorRef e);
                   onDidBlurEditor (editorRef e)] (listeners w) in
  _updateState svc
    (mkTracker (_toDispose this)
               (<[getId e := listener]> (_toDisposeOnEditorRemove this))
               (_currentState this))
    (mkWorld t (fired w)).

Definition _onDidRemoveEditor (svc : Services) (e : ICommonCodeEditor)
    (this : MainThreadDocumentAndEditorState) (w : World)
    : MainThreadDocumentAndEditorState * World :=
  match _toDisposeOnEditorRemove this !! getId e with
  | Some sub =>
      _updateState svc
        (mkTracker (_toDispose this)
                   (delete (getId e) (_toDisposeOnEditorRemove this))
                   (_currentState this))
        (mkWorld (disposeOne sub (listeners w)) (fired w))
  | None => (this, w)
  end.

(** A signal a collaborator raises, with the handler the tracker has
    registered for it. *)
Inductive Signal : Type :=
  | ModelAdded
  | ModelRemoved
  | CodeEditorAdd (e : ICommonCodeEditor)
  | CodeEditorRemove (e : ICommonCodeEditor)
  | DidChangeModel (e : ICommonCodeEditor)
  | DidFocusEditor (e : ICommonCodeEditor)
  | DidBlurEditor (e : ICommonCodeEditor).

Definition sourceOf (s : Signal) : EventSource :=
  match s with
  | ModelAdded => onModelAdded
  | ModelRemoved => onModelRemoved
  | CodeEditorAdd _ => onCodeEditorAdd
  | CodeEditorRemove _ => onCodeEditorRemove
  | DidChangeModel e => onDidChangeModel (editorRef e)
  | DidFocusEditor e => onDidFocusEditor (editorRef e)
  | DidBlurEditor e => onDidBlurEditor (editorRef e)
  end.

Definition handlerOf (svc : Services) (s : Signal)
    (st : MainThreadDocumentAndEditorState * World)
    : MainThreadDocumentAndEditorState * World :=
  match s with
  | CodeEditorAdd e => _onDidAddEditor svc e st.1 st.2
  | CodeEditorRemove e => _onDidRemoveEditor svc e st.1 st.2
  | _ => _updateState svc st.1 st.2
  end.

(** Modelled from the spec: the emitters of the collaborators are not
    part of the sources at hand.  "Emission is synchronous": the handler
    runs once for every listener that is registered for the event when
    it is raised; [svc] is what the services answer at that instant. *)
Definition raise (svc : Services) (s : Signal)
    (st : MainThreadDocumentAndEditorState * World)
    : MainThreadDocumentAndEditorState * World :=
  Nat.iter
    (length (filter (λ l, l.2 = sourceOf s) (liveListeners (listeners st.2))))
    (handlerOf svc s) st.

Definition raiseAll (sigs : list (Services * Signal))
    (st : MainThreadDocumentAndEditorState * World)
    : MainThreadDocumentAndEditorState * World :=
  fold_left (λ st ss, raise ss.1 ss.2 st) sigs st.

(** *** [MainThreadDocumentsAndEditors], the dispatcher *)

(** Modelled from the spec: [MainThreadTextEditor] of
    [mainThreadEditorsTracker] is not part of the sources at hand.  It
    is the "Live Editor Handle" that "wraps an EditorBinding with
    additional remote-facing state (selections, view options)". *)
Record MainThreadTextEditor := mkMainThreadTextEditor {
  mteGetId : string;
  mteGetModel : IModel;
  mteCodeEditor : ICommonCodeEditor;
}.

Definition mteGetConfiguration (e : MainThreadTextEditor) : Z :=
  editorTabSize (mteCodeEditor e).

Definition mteGetSelections (e : MainThreadTextEditor) : list ISelection :=
  editorSelections (mteCodeEditor e).

(** Modelled from the spec: "the first visible entry whose underlying
    control matches the new editor". *)
Definition mteMatches (e : MainThreadTextEditor) (w : WorkbenchEditor) : bool :=
  match getControl w with
  | CodeEditorControl c => sameEditor c (mteCodeEditor e)
  | _ => false
  end.

Record IModelAddedData := mkModelAddedData {
  madUrl : string;
  madVersionId : Z;
  madValue : string;
  madModeId : string;
  madIsDirty : bool;
}.

Record ITextEditorAddData := mkTextEditorAddData {
  teaId : string;
  teaDocument : string;
  teaOptions : Z;
  teaSelections : list ISelection;
  teaEditorPosition : option Z;
}.

Record IDocumentsAndEditorsDelta := mkWireDelta {
  wireNewActiveEditor : JsId;
  wireRemovedDocuments : list string;
  wireRemovedEditors : list string;
  wireAddedDocuments : list IModelAddedData;
  wireAddedEditors : list ITextEditorAddData;
}.

(** What [_onDelta] does to the outside, in the order it does it. *)
Inductive Effect : Type :=
  | ConstructEditor (id : string)
  | DisposeEditor (id : string)
  | AcceptDocumentsAndEditorsDelta (data : IDocumentsAndEditorsDelta)
  | FireTextEditorRemove (ids : list string)
  | FireTextEditorAdd (editors : list MainThreadTextEditor)
  | FireDocumentRemove (uris : list string)
  | FireDocumentAdd (docs : list IModel).

Record MainThreadDocumentsAndEditors := mkDispatcher {
  _editors : gmap string MainThreadTextEditor;
}.

Definition _toModelAddData (svc : Services) (model : IModel) : IModelAddedData :=
  mkModelAddedData (uri model) (getVersionId model) (toRawText model)
    (getLanguageId model) (isDirty svc (uri model)).

Fixpoint findPosition (editor : MainThreadTextEditor)
    (visible : list WorkbenchEditor) : option Z :=
  match visible with
  | [] => None
  | workbenchEditor :: rest =>
      if mteMatches editor workbenchEditor then Some (position workbenchEditor)
      else findPosition editor rest
  end.

Definition _findEditorPosition (svc : Services) (editor : MainThreadTextEditor)
    : option Z :=
  findPosition editor (getVisibleEditors svc).

Definition _toTextEditorAddData (svc : Services) (textEditor : MainThreadTextEditor)
    : ITextEditorAddData :=
  mkTextEditorAddData (mteGetId textEditor) (uri (mteGetModel textEditor))
    (mteGetConfiguration textEditor) (mteGetSelections textEditor)
    (_findEditorPosition svc textEditor).

(** The locals of [_onDelta] that its two loops update, with the
    effects so far. *)
Record DeltaRun := mkDeltaRun {
  runEditors : gmap string MainThreadTextEditor;
  runAddedEditors : list MainThreadTextEditor;
  runRemovedEditors : list string;
  runTrace : list Effect;
}.

(** One round of the loop over [delta.addedEditors]. *)
Definition addEditor (st : DeltaRun) (apiEditor : EditorAndModel) : DeltaRun :=
  let mainThreadEditor :=
    mkMainThreadTextEditor (id apiEditor) (document apiEditor) (editor apiEditor) in
  mkDeltaRun (<[id apiEditor := mainThreadEditor]> (runEditors st))
             (runAddedEditors st ++ [mainThreadEditor])
             (runRemovedEditors st)
             (runTrace st ++ [ConstructEditor (id apiEditor)]).

(** One round of the loop over [delta.removedEditors]. *)
Definition removeEditor (st : DeltaRun) (apiEditor : EditorAndModel) : DeltaRun :=
  match runEditors st !! id apiEditor with
  | Some mainThreadEditor =>
      mkDeltaRun (delete (id apiEditor) (runEditors st))
                 (runAddedEditors st)
                 (runRemovedEditors st ++ [id apiEditor])
                 (runTrace st ++ [DisposeEditor (id apiEditor)])
  | None => st
  end.

Definition _onDelta (svc : Services) (delta : DocumentAndEditorStateDelta)
    (this : MainThreadDocumentsAndEditors)
    : MainThreadDocumentsAndEditors * list Effect :=
  let removedDocuments := uri <$> removedDocuments delta in
  let st := fold_left addEditor (addedEditors delta)
              (mkDeltaRun (_editors this) [] [] []) in
  let st := fold_left removeEditor (removedEditors delta) st in
  (mkDispatcher (runEditors st),
   runTrace st ++
   [AcceptDocumentsAndEditorsDelta
      (mkWireDelta (newActiveEditor delta)
         removedDocuments
         (runRemovedEditors st)
         (_toModelAddData svc <$> addedDocuments delta)
         (_toTextEditorAddData svc <$> runAddedEditors st));
    FireTextEditorRemove (runRemovedEditors st);
    FireTextEditorAdd (runAddedEditors st);
    FireDocumentRemove removedDocuments;
    FireDocumentAdd (addedDocuments delta)]).

End mainThreadDocumentsAndEditors.

(** ** The state tracker without active-editor tracking *)

Module mainThreadDocumentAndEditorState.

Record ApiEditor := mkApiEditor {
  editor : ICommonCodeEditor;
  document : IModel;
}.

Module cmp.

Definition compareModels (a b : IModel) : Z :=
  BaseStrings.compare (uri a) (uri b).

Definition compareEditors (a b : ApiEditor) : Z :=
  let ret := BaseStrings.compare (getId (editor a)) (getId (editor b)) in
  if ret =? 0 then BaseStrings.compare (uri (document a)) (uri (document b))
  else ret.

End cmp.

Record DocumentAndEditorStateDelta := mkDelta {
  removedDocuments : list IModel;
  addedDocuments : list IModel;
  removedEditors : list ApiEditor;
  addedEditors : list ApiEditor;
  isEmpty : bool;
}.

Definition newDocumentAndEditorStateDelta
    (removedDocuments addedDocuments : list IModel)
    (removedEditors addedEditors : list ApiEditor)
    : DocumentAndEditorStateDelta :=
  mkDelta removedDocuments addedDocuments removedEditors addedEditors
    (Nat.eqb (length removedDocuments) 0
     && Nat.eqb (length addedDocuments) 0
     && Nat.eqb (length removedEditors) 0
     && Nat.eqb (length addedEditors) 0).

Record DocumentAndEditorState := mkState {
  documents : list IModel;
  editors : list ApiEditor;
}.

Definition newDocumentAndEditorState (documents : list IModel)
    (editors : list ApiEditor) : DocumentAndEditorState :=
  mkState (Array_sort cmp.compareModels documents)
          (Array_sort cmp.compareEditors editors).

Definition compute (before : option DocumentAndEditorState)
    (after : DocumentAndEditorState) : DocumentAndEditorStateDelta :=
  match before with
  | None =>
      newDocumentAndEditorStateDelta [] (documents after) [] (editors after)
  | Some before =>
      let documentDelta :=
        BaseArrays.delta cmp.compareModels (documents before) (documents after) in
      let editorDelta :=
        BaseArrays.delta cmp.compareEditors (editors before) (editors after) in
      newDocumentAndEditorStateDelta
        (BaseArrays.removed documentDelta) (BaseArrays.added documentDelta)
        (BaseArrays.removed editorDelta) (BaseArrays.added editorDelta)
  end.

Definition collectEditor (acc : list ApiEditor) (editor : ICommonCodeEditor)
    : list ApiEditor :=
  match getModel editor with
  | Some model =>
      if negb (isTooLargeForHavingARichMode model)
      then acc ++ [mkApiEditor editor model]
      else acc
  | None => acc
  end.

(** The loop over the models is the same code in both files. *)
Definition newStateOf (svc : Services) : DocumentAndEditorState :=
  newDocumentAndEditorState
    (mainThreadDocumentsAndEditors.spliceTooLarge (getModels svc) 0)
    (fold_left collectEditor (listCodeEditors svc) []).

(** [_updateState], on the stored snapshot and the deltas fired so far. *)
Definition _updateState (svc : Services)
    (st : option DocumentAndEditorState * list DocumentAndEditorStateDelta)
    : option DocumentAndEditorState * list DocumentAndEditorStateDelta :=
  let newState := newStateOf svc in
  let delta := compute st.1 newState in
  if negb (isEmpty delta) then (Some newState, st.2 ++ [delta]) else st.

End mainThreadDocumentAndEditorState.

(** ** Calls that may throw *)

(** How a call ends: it returns, or it throws with the object as the
    statements before the [throw] left it.  Both carry the events fired
    and the handles disposed on the way, oldest first. *)
Inductive Outcome (S E : Type) : Type :=
  | Returned (this : S) (trace : list E)
  | Threw (error : string) (this : S) (trace : list E).
Arguments Returned {S E} _ _.
Arguments Threw {S E} _ _ _.

Definition stateOf {S E : Type} (o : Outcome S E) : S :=
  match o with
  | Returned s _ => s
  | Threw _ s _ => s
  end.

Definition traceOf {S E : Type} (o : Outcome S E) : list E :=
  match o with
  | Returned _ t => t
  | Threw _ _ t => t
  end.

Definition threw {S E : Type} (o : Outcome S E) : bool :=
  match o with
  | Returned _ _ => false
  | Threw _ _ _ => true
  end.

(** ** [ExtHostEditors] *)

Module ExtHostEditors.

(** What the embedded code needs of an [ExtHostTextEditor]. *)
Record ExtHostTextEditor := mkExtHostTextEditor {
  editorId : string;
  editorDocument : string;
  viewColumn : option Z;
}.

Record ExtHostEditors := mkExtHostEditors {
  _editors : gmap string ExtHostTextEditor;
  _activeEditorId : JsId;
  _visibleEditorIds : list string;
}.

Inductive Effect : Type :=
  | FireDidChangeVisibleTextEditors (editors : list (option ExtHostTextEditor))
  | FireDidChangeActiveTextEditor (editor : option ExtHostTextEditor)
  | DisposeTextEditor (editor : ExtHostTextEditor).

(** [this._editors.get(id)] for an [id] that may be [undefined]. *)
Definition editorsGet (this : ExtHostEditors) (id : JsId)
    : option ExtHostTextEditor :=
  match id with
  | js_string s => _editors this !! s
  | _ => None
  end.

Definition getActiveTextEditor (this : ExtHostEditors) : option ExtHostTextEditor :=
  editorsGet this (_activeEditorId this).

Definition getVisibleTextEditors (this : ExtHostEditors)
    : list (option ExtHostTextEditor) :=
  (λ id, _editors this !! id) <$> _visibleEditorIds this.

Section accept.
(** [equals] of [vs/base/common/arrays], which is not part of the
    sources at hand, is a parameter. *)
Context (arrayEquals : list string → list string → bool).

Definition acceptActiveEditorAndVisibleEditors (id : JsId)
    (visibleIds : list string) (this : ExtHostEditors)
    : ExtHostEditors * list Effect :=
  let visibleChanged := negb (arrayEquals (_visibleEditorIds this) visibleIds) in
  let this1 :=
    if visibleChanged
    then mkExtHostEditors (_editors this) (_activeEditorId this) visibleIds
    else this in
  let activeChanged := negb (strictEq (_activeEditorId this1) id) in
  let this2 :=
    if activeChanged
    then mkExtHostEditors (_editors this1) id (_visibleEditorIds this1)
    else this1 in
  (this2,
   (if visibleChanged
    then [FireDidChangeVisibleTextEditors (getVisibleTextEditors this2)]
    else []) ++
   (if activeChanged
    then [FireDidChangeActiveTextEditor (getActiveTextEditor this2)]
    else [])).

Definition acceptTextEditorRemove (id : string) (this : ExtHostEditors)
    : Outcome ExtHostEditors Effect :=
  let newVisibleEditors :=
    filter (λ visibleEditorId, visibleEditorId ≠ id) (_visibleEditorIds this) in
  let '(this1, events) :=
    if strictEq (_activeEditorId this) (js_string id)
    then acceptActiveEditorAndVisibleEditors js_undefined newVisibleEditors this
    else acceptActiveEditorAndVisibleEditors (_activeEditorId this)
           newVisibleEditors this in
  match _editors this1 !! id with
  | Some editor =>
      Returned
        (mkExtHostEditors (delete id (_editors this1)) (_activeEditorId this1)
                          (_visibleEditorIds this1))
        (events ++ [DisposeTextEditor editor])
  | None =>
      Threw "TypeError: Cannot read property 'dispose' of undefined" this1 events
  end.

End accept.

End ExtHostEditors.

(** ** [ExtHostDocuments] *)

Module ExtHostDocuments.

Record IModelAddedData := mkModelAddedData {
  url : string;
  valueLines : list string;
  valueEOL : string;
  modeId : string;
  versionId : Z;
  isDirty : bool;
}.

(** What the constructor of [ExtHostDocumentData] keeps of its
    arguments; [documentUri] is [data.document.uri.toString()]. *)
Record ExtHostDocumentData := mkDocumentData {
  documentUri : string;
  documentLines : list string;
  documentEOL : string;
  documentLanguageId : string;
  documentVersionId : Z;
  documentIsDirty : bool;
}.

Definition newExtHostDocumentData (initData : IModelAddedData) : ExtHostDocumentData :=
  mkDocumentData (url initData) (valueLines initData) (valueEOL initData)
    (modeId initData) (versionId initData) (isDirty initData).

Record ExtHostDocuments := mkExtHostDocuments {
  _documentData : gmap string ExtHostDocumentData;
}.

Inductive Effect : Type :=
  | FireDidAddDocument (document : ExtHostDocumentData)
  | FireDidRemoveDocument (document : ExtHostDocumentData)
  | DisposeDocumentData (data : ExtHostDocumentData).

Definition acceptModelAdd (initData : IModelAddedData) (this : ExtHostDocuments)
    : Outcome ExtHostDocuments Effect :=
  let data := newExtHostDocumentData initData in
  let key := documentUri data in
  if bool_decide (is_Some (_documentData this !! key)) then
    Threw ("Document `" +:+ key +:+ "` already exists.") this []
  else
    Returned (mkExtHostDocuments (<[key := data]> (_documentData this)))
             [FireDidAddDocument data].

Definition acceptModelRemoved (strURL : string) (this : ExtHostDocuments)
    : Outcome ExtHostDocuments Effect :=
  match _documentData this !! strURL with
  | None => Threw ("Document `" +:+ strURL +:+ "` does not exist.") this []
  | Some data =>
      Returned (mkExtHostDocuments (delete strURL (_documentData this)))
               [FireDidRemoveDocument data; DisposeDocumentData data]
  end.

End ExtHostDocuments.

(** ** The vocabulary of the properties *)

(** The identity of a document is its URI string; the identity of an
    editor binding is the pair of its editor id and its document URI. *)
Definition documentKey (m : IModel) : string := uri m.

Definition bindingKey (e : mainThreadDocumentsAndEditors.EditorAndModel)
    : string * string :=
  (getId (mainThreadDocumentsAndEditors.editor e),
   uri (mainThreadDocumentsAndEditors.document e)).

Definition apiEditorKey (e : mainThreadDocumentAndEditorState.ApiEditor)
    : string * string :=
  (getId (mainThreadDocumentAndEditorState.editor e),
   uri (mainThreadDocumentAndEditorState.document e)).

(** The three-way lexicographic comparison of two pairs of strings. *)
Definition comparePairs (a b : string * string) : Z :=
  let ret := BaseStrings.compare a.1 b.1 in
  if ret =? 0 then BaseStrings.compare a.2 b.2 else ret.

Definition documentSet (l : list IModel) : gset string :=
  list_to_set (documentKey <$> l).

Definition bindingSet (l : list mainThreadDocumentsAndEditors.EditorAndModel)
    : gset (string * string) :=
  list_to_set (bindingKey <$> l).

Definition apiEditorSet (l : list mainThreadDocumentAndEditorState.ApiEditor)
    : gset (string * string) :=
  list_to_set (apiEditorKey <$> l).

(** Both the old and the new active editor are absent. *)
Definition absent (a : JsId) : Prop := a = js_undefined ∨ a = js_null.

(** The binding [_updateState] makes of an editor: none when the editor
    has no model or a model that is too large. *)
Definition bindingOf (e : ICommonCodeEditor)
    : option mainThreadDocumentsAndEditors.EditorAndModel :=
  match getModel e with
  | Some model =>
      if isTooLargeForHavingARichMode model then None
      else Some (mainThreadDocumentsAndEditors.newEditorAndModel e model)
  | None => None
  end.

(** The bindings of the listed editors, in the order of the listing. *)
Definition filteredBindings (svc : Services)
    : list mainThreadDocumentsAndEditors.EditorAndModel :=
  omap bindingOf (listCodeEditors svc).

Definition hasFocus (b : mainThreadDocumentsAndEditors.EditorAndModel) : bool :=
  isFocused (mainThreadDocumentsAndEditors.editor b).

(** The active editor as the design document resolves it: a binding with
    input focus if there is one (the last of them in the listing);
    otherwise the binding whose editor is the control of the active
    workbench editor, or the modified side of that control when it is a
    diff editor (the first such binding in the listing); otherwise none,
    which is [null]. *)
Definition activeEditorSpec (svc : Services) : JsId :=
  match last (filter (λ b, hasFocus b = true) (filteredBindings svc)) with
  | Some b => js_string (mainThreadDocumentsAndEditors.id b)
  | None =>
      match getActiveEditor svc with
      | Some workbenchEditor =>
          match getControl workbenchEditor with
          | CodeEditorControl c | DiffEditorControl c =>
              match
                find (λ b, sameEditor c (mainThreadDocumentsAndEditors.editor b))
                     (filteredBindings svc)
              with
              | Some b => js_string (mainThreadDocumentsAndEditors.id b)
              | None => js_null
              end
          | OtherControl => js_null
          end
      | None => js_null
      end
  end.

(** Removals are announced before the handles are disposed: whenever a
    handle is disposed, the wire payload and the local editor-removed
    event that name it have gone out earlier. *)
Definition announcedBeforeDisposed
    (trace : list mainThreadDocumentsAndEditors.Effect) : Prop :=
  ∀ (i : nat) (id : string),
    trace !! i = Some (mainThreadDocumentsAndEditors.DisposeEditor id) →
    (∃ (j : nat) data,
        (j < i)%nat
        ∧ trace !! j =
            Some (mainThreadDocumentsAndEditors.AcceptDocumentsAndEditorsDelta data)
        ∧ id ∈ mainThreadDocumentsAndEditors.wireRemovedEditors data)
    ∧ (∃ (j : nat) ids,
        (j < i)%nat
        ∧ trace !! j = Some (mainThreadDocumentsAndEditors.FireTextEditorRemove ids)
        ∧ id ∈ ids).

(** The handle [_onDelta] constructs for a binding. *)
Definition handleOf (apiEditor : mainThreadDocumentsAndEditors.EditorAndModel)
    : mainThreadDocumentsAndEditors.MainThreadTextEditor :=
  mainThreadDocumentsAndEditors.mkMainThreadTextEditor
    (mainThreadDocumentsAndEditors.id apiEditor)
    (mainThreadDocumentsAndEditors.document apiEditor)
    (mainThreadDocumentsAndEditors.editor apiEditor).

(** ** Sample snapshots

    Two documents and one editor on the first of them, which is active;
    then the second document is gone and a second editor shows the first
    document and is active. *)

Definition sampleDocA : IModel := mkModel "file:///a.txt" 1 "alpha" "plaintext" false.
Definition sampleDocB : IModel := mkModel "file:///b.txt" 1 "beta" "plaintext" false.
Definition sampleDocHuge : IModel := mkModel "file:///huge.bin" 1 "" "plaintext" true.

Definition sampleEditor1 : ICommonCodeEditor :=
  mkEditor 1 "editor1" (Some sampleDocA) false 4 [].
Definition sampleEditor2 : ICommonCodeEditor :=
  mkEditor 2 "editor2" (Some sampleDocA) true 4 [].
Definition sampleEditorHuge : ICommonCodeEditor :=
  mkEditor 3 "editor3" (Some sampleDocHuge) true 4 [].

Definition sampleBefore : mainThreadDocumentsAndEditors.DocumentAndEditorState :=
  mainThreadDocumentsAndEditors.newDocumentAndEditorState
    [sampleDocB; sampleDocA]
    [mainThreadDocumentsAndEditors.newEditorAndModel sampleEditor1 sampleDocA]
    (js_string "editor1,file:///a.txt").

Definition sampleAfter : mainThreadDocumentsAndEditors.DocumentAndEditorState :=
  mainThreadDocumentsAndEditors.newDocumentAndEditorState
    [sampleDocA]
    [mainThreadDocumentsAndEditors.newEditorAndModel sampleEditor2 sampleDocA;
     mainThreadDocumentsAndEditors.newEditorAndModel sampleEditor1 sampleDocA]
    (js_string "editor2,file:///a.txt").

(** Services that list nothing: no model, no editor, no active editor. *)
Definition noServices : Services := mkServices [] [] None [] (λ _, false).

(** A world without listeners in which nothing has been fired. *)
Definition emptyWorld : mainThreadDocumentsAndEditors.World :=
  mainThreadDocumentsAndEditors.mkWorld (mkListenerTable 0 []) [].

(** Services with a small and a too large document and an editor on each;
    the editor on the too large document has input focus, the active
    workbench editor is a diff editor whose modified side is the editor on
    the small document. *)
Definition sampleServices : Services :=
  mkServices [sampleDocHuge; sampleDocA] [sampleEditorHuge; sampleEditor1]
    (Some (mkWorkbenchEditor (DiffEditorControl sampleEditor1) 1))
    [mkWorkbenchEditor (CodeEditorControl sampleEditor1) 1] (λ _, false).

(** A dispatcher that holds the handle of the first editor, and a delta
    that removes this editor and the second document. *)
Definition sampleDispatcher : mainThreadDocumentsAndEditors.MainThreadDocumentsAndEditors :=
  mainThreadDocumentsAndEditors.mkDispatcher
    {[ "editor1,file:///a.txt" :=
         mainThreadDocumentsAndEditors.mkMainThreadTextEditor
           "editor1,file:///a.txt" sampleDocA sampleEditor1 ]}.

Definition sampleRemoval : mainThreadDocumentsAndEditors.DocumentAndEditorStateDelta :=
  mainThreadDocumentsAndEditors.newDocumentAndEditorStateDelta
    [sampleDocB] []
    [mainThreadDocumentsAndEditors.newEditorAndModel sampleEditor1 sampleDocA] []
    (js_string "editor1,file:///a.txt") js_null.

(** A delta that removes the binding of the second editor, of which
    [sampleDispatcher] holds no handle. *)
Definition sampleUntrackedRemoval
    : mainThreadDocumentsAndEditors.DocumentAndEditorStateDelta :=
  mainThreadDocumentsAndEditors.newDocumentAndEditorStateDelta
    [] []
    [mainThreadDocumentsAndEditors.newEditorAndModel sampleEditor2 sampleDocA] []
    js_undefined js_undefined.

(** [equals] of [vs/base/common/arrays] with its default comparison of
    the items: two arrays of strings are equal when they have the same
    strings in the same order. *)
Definition equalsStrict (one other : list string) : bool :=
  bool_decide (one = other).

(** The accepting side with two editors, both visible, the first one
    active, and with one document. *)
Definition sampleExtHostEditors : ExtHostEditors.ExtHostEditors :=
  ExtHostEditors.mkExtHostEditors
    {[ "e1" := ExtHostEditors.mkExtHostTextEditor "e1" "file:///a.txt" (Some 1);
       "e2" := ExtHostEditors.mkExtHostTextEditor "e2" "file:///a.txt" (Some 2) ]}
    (js_string "e1") ["e1"; "e2"].

Definition sampleExtHostDocuments : ExtHostDocuments.ExtHostDocuments :=
  ExtHostDocuments.mkExtHostDocuments
    {[ "file:///a.txt" :=
         ExtHostDocuments.mkDocumentData "file:///a.txt" ["alpha"] "\n"
           "plaintext" 1 false ]}.

Definition sampleModelAddedData : ExtHostDocuments.IModelAddedData :=
  ExtHostDocuments.mkModelAddedData "file:///a.txt" ["other"] "\n" "plaintext" 7 true.

(** A constructor of [ExtHostTextEditor] for the samples: it keeps the
    id, the URI of the document and the view column. *)
Definition sampleNewEditor (id : string)
    (document : option ExtHostDocuments.ExtHostDocumentData)
    (selections : list ISelection) (options : Z) (viewColumn : option Z)
    : ExtHostEditors.ExtHostTextEditor :=
  ExtHostEditors.mkExtHostTextEditor id
    (from_option ExtHostDocuments.documentUri "" document) viewColumn.

(** A setter of the view column for the samples. *)
Definition sampleAcceptViewColumn (viewColumn : option Z)
    (editor : ExtHostEditors.ExtHostTextEditor) : ExtHostEditors.ExtHostTextEditor :=
  ExtHostEditors.mkExtHostTextEditor (ExtHostEditors.editorId editor)
    (ExtHostEditors.editorDocument editor) viewColumn.

(** ** Further vocabulary *)

(** The numbers of the registered listeners lie below the next number to
    be handed out. *)
Definition tableWellFormed (tbl : ListenerTable) : Prop :=
  Forall (λ l, (l.1 < nextListener tbl)%nat) (liveListeners tbl).

(** The events the constructor of the state tracker subscribes to. *)
Definition isTopLevel (src : EventSource) : bool :=
  match src with
  | onModelAdded | onModelRemoved | onCodeEditorAdd | onCodeEditorRemove => true
  | _ => false
  end.

(** Every registered listener of a top-level event belongs to a
    subscription in [_toDispose]. *)
Definition topLevelOwned
    (st : mainThreadDocumentsAndEditors.MainThreadDocumentAndEditorState
          * mainThreadDocumentsAndEditors.World) : Prop :=
  ∀ l, l ∈ liveListeners (mainThreadDocumentsAndEditors.listeners st.2) →
       isTopLevel l.2 = true →
       ∃ d, d ∈ mainThreadDocumentsAndEditors._toDispose st.1 ∧ l.1 ∈ unregisters d.

(** The binding the tracker without active-editor tracking makes of an
    editor: none when the editor has no model or a model that is too
    large. *)
Definition apiEditorOf (e : ICommonCodeEditor)
    : option mainThreadDocumentAndEditorState.ApiEditor :=
  match getModel e with
  | Some model =>
      if isTooLargeForHavingARichMode model then None
      else Some (mainThreadDocumentAndEditorState.mkApiEditor e model)
  | None => None
  end.

(** The ids of the handles a trace of [_onDelta] disposes, in order. *)
Definition disposedIn (trace : list mainThreadDocumentsAndEditors.Effect)
    : list string :=
  omap (λ effect,
          match effect with
          | mainThreadDocumentsAndEditors.DisposeEditor id => Some id
          | _ => None
          end) trace.

(** The ids of the handles a trace of [_onDelta] constructs, in order. *)
Definition constructedIn (trace : list mainThreadDocumentsAndEditors.Effect)
    : list string :=
  omap (λ effect,
          match effect with
          | mainThreadDocumentsAndEditors.ConstructEditor id => Some id
          | _ => None
          end) trace.

(** The ids the wire payloads of a trace report as removed editors. *)
Definition reportedRemovedIn (trace : list mainThreadDocumentsAndEditors.Effect)
    : list string :=
  mjoin (omap (λ effect,
                 match effect with
                 | mainThreadDocumentsAndEditors.AcceptDocumentsAndEditorsDelta data =>
                     Some (mainThreadDocumentsAndEditors.wireRemovedEditors data)
                 | _ => None
                 end) trace).

(** A delta that only adds editor bindings, and one that only removes
    them. *)
Definition addingDelta (l : list mainThreadDocumentsAndEditors.EditorAndModel)
    : mainThreadDocumentsAndEditors.DocumentAndEditorStateDelta :=
  mainThreadDocumentsAndEditors.newDocumentAndEditorStateDelta
    [] [] [] l js_undefined js_undefined.

Definition removingDelta (l : list mainThreadDocumentsAndEditors.EditorAndModel)
    : mainThreadDocumentsAndEditors.DocumentAndEditorStateDelta :=
  mainThreadDocumentsAndEditors.newDocumentAndEditorStateDelta
    [] [] l [] js_undefined js_undefined.

(** ** Further calls of [ExtHostDocuments] *)

Module ExtHostDocumentsCalls.

(** [getDocumentData(resource)]; [resource] is [None] when the caller
    passes [undefined]. *)
Definition getDocumentData (resource : option string)
    (this : ExtHostDocuments.ExtHostDocuments)
    : option ExtHostDocuments.ExtHostDocumentData :=
  match resource with
  | None => None
  | Some uri => ExtHostDocuments._documentData this !! uri
  end.

(** A range as start line, start column, end line and end column. *)
Definition IRange : Type := Z * Z * Z * Z.

(** What the embedded code reads of an [IModelContentChangedEvent2], and
    the content change it reports for it. *)
Record ChangeEvent := mkChangeEvent {
  range : IRange;
  rangeLength : Z;
  text : string;
}.

Record ContentChange := mkContentChange {
  changeRange : IRange;
  changeRangeLength : Z;
  changeText : string;
}.

(** The events of the calls below; a document is reported as the data it
    has when the event is fired. *)
Inductive Effect : Type :=
  | FireDidAddDocument (document : ExtHostDocuments.ExtHostDocumentData)
  | FireDidRemoveDocument (document : ExtHostDocuments.ExtHostDocumentData)
  | FireDidSaveDocument (document : ExtHostDocuments.ExtHostDocumentData)
  | FireDidChangeDocument (document : ExtHostDocuments.ExtHostDocumentData)
      (contentChanges : list ContentChange).

Section accept.
(** The methods of [ExtHostDocumentData] that update a document in place
    are in [extHostDocumentData], which is not part of the sources at
    hand; they are parameters, and so is [toRange] of
    [extHostTypeConverters]. *)
Context (_acceptLanguageId : string → ExtHostDocuments.ExtHostDocumentData →
                             ExtHostDocuments.ExtHostDocumentData).
Context (_acceptIsDirty : bool → ExtHostDocuments.ExtHostDocumentData →
                          ExtHostDocuments.ExtHostDocumentData).
Context (onEvents : list ChangeEvent → ExtHostDocuments.ExtHostDocumentData →
                    ExtHostDocuments.ExtHostDocumentData).
Context (toRange : IRange → IRange).

(** Writes the updated document back under its key: the map holds the
    object that the call has changed in place. *)
Definition store (strURL : string) (data : ExtHostDocuments.ExtHostDocumentData)
    (this : ExtHostDocuments.ExtHostDocuments) : ExtHostDocuments.ExtHostDocuments :=
  ExtHostDocuments.mkExtHostDocuments
    (<[strURL := data]> (ExtHostDocuments._documentData this)).

Definition acceptModelModeChanged (strURL oldModeId newModeId : string)
    (this : ExtHostDocuments.ExtHostDocuments)
    : Outcome ExtHostDocuments.ExtHostDocuments Effect :=
  match ExtHostDocuments._documentData this !! strURL with
  | None => Threw "TypeError: Cannot read property 'document' of undefined" this []
  | Some data =>
      let data' := _acceptLanguageId newModeId data in
      Returned (store strURL data' this)
               [FireDidRemoveDocument data; FireDidAddDocument data']
  end.

Definition acceptModelSaved (strURL : string)
    (this : ExtHostDocuments.ExtHostDocuments)
    : Outcome ExtHostDocuments.ExtHostDocuments Effect :=
  match ExtHostDocuments._documentData this !! strURL with
  | None => Threw "TypeError: Cannot read property '_acceptIsDirty' of undefined" this []
  | Some data =>
      let data' := _acceptIsDirty false data in
      Returned (store strURL data' this) [FireDidSaveDocument data']
  end.

Definition acceptModelDirty (strURL : string)
    (this : ExtHostDocuments.ExtHostDocuments)
    : Outcome ExtHostDocuments.ExtHostDocuments Effect :=
  match ExtHostDocuments._documentData this !! strURL with
  | None => Threw "TypeError: Cannot read property '_acceptIsDirty' of undefined" this []
  | Some document => Returned (store strURL (_acceptIsDirty true document) this) []
  end.

Definition acceptModelReverted (strURL : string)
    (this : ExtHostDocuments.ExtHostDocuments)
    : Outcome ExtHostDocuments.ExtHostDocuments Effect :=
  match ExtHostDocuments._documentData this !! strURL with
  | None => Threw "TypeError: Cannot read property '_acceptIsDirty' of undefined" this []
  | Some document => Returned (store strURL (_acceptIsDirty false document) this) []
  end.

Definition acceptModelChanged (strURL : string) (events : list ChangeEvent)
    (isDirty : bool) (this : ExtHostDocuments.ExtHostDocuments)
    : Outcome ExtHostDocuments.ExtHostDocuments Effect :=
  match ExtHostDocuments._documentData this !! strURL with
  | None => Threw "TypeError: Cannot read property '_acceptIsDirty' of undefined" this []
  | Some data =>
      let data' := onEvents events (_acceptIsDirty isDirty data) in
      Returned (store strURL data' this)
               [FireDidChangeDocument data'
                  ((λ e, mkContentChange (toRange (range e)) (rangeLength e) (text e))
                     <$> events)]
  end.

End accept.

(** *** Text document content providers *)

(** A [vscode.TextDocumentContentProvider]: what it provides for a URI,
    and whether it has an [onDidChange] event. *)
Record Provider := mkProvider {
  provideTextDocumentContent : string → string;
  hasOnDidChange : bool;
}.

(** [_handlePool] and [_documentContentProviders]. *)
Record Providers := mkProviders {
  _handlePool : nat;
  _documentContentProviders : gmap nat Provider;
}.

(** The calls to the main thread and to the provider's event. *)
Inductive ProviderEffect : Type :=
  | RegisterTextContentProvider (handle : nat) (scheme : string)
  | UnregisterTextContentProvider (handle : nat)
  | SubscribeOnDidChange (handle : nat)
  | DisposeSubscription (handle : nat).

(** What the callback of the returned [Disposable] has captured: the
    handle, and the variable [subscription], which is set when the
    provider has an [onDidChange] event and unset by the callback. *)
Record Registration := mkRegistration {
  handle : nat;
  subscription : bool;
}.

(** How a call that answers a value ends. *)
Inductive Result (S E A : Type) : Type :=
  | Ok (value : A) (this : S) (trace : list E)
  | Err (error : string) (this : S) (trace : list E).
Arguments Ok {S E A} _ _ _.
Arguments Err {S E A} _ _ _.

Definition registerTextDocumentContentProvider (scheme : string)
    (provider : Provider) (this : Providers)
    : Result Providers ProviderEffect Registration :=
  if bool_decide (scheme = "file") || bool_decide (scheme = "untitled") then
    Err ("scheme '" +:+ scheme +:+ "' already registered") this []
  else
    let handle := _handlePool this in
    Ok (mkRegistration handle (hasOnDidChange provider))
       (mkProviders (S (_handlePool this))
                    (<[handle := provider]> (_documentContentProviders this)))
       (RegisterTextContentProvider handle scheme ::
        if hasOnDidChange provider then [SubscribeOnDidChange handle] else []).

(** The callback handed to [new Disposable(...)]. *)
Definition disposeRegistration (reg : Registration) (this : Providers)
    : Registration * Providers * list ProviderEffect :=
  let deleted := bool_decide (is_Some (_documentContentProviders this !! handle reg)) in
  (mkRegistration (handle reg) false,
   mkProviders (_handlePool this)
               (delete (handle reg) (_documentContentProviders this)),
   (if deleted then [UnregisterTextContentProvider (handle reg)] else []) ++
   (if subscription reg then [DisposeSubscription (handle reg)] else [])).

(** [$provideTextDocumentContent]: the promise is rejected ([inl]) or
    resolved ([inr]). *)
Definition provideTextDocumentContentFor (handle : nat) (scheme uri : string)
    (this : Providers) : string + string :=
  match _documentContentProviders this !! handle with
  | None => inl ("unsupported uri-scheme: " +:+ scheme)
  | Some provider => inr (provideTextDocumentContent provider uri)
  end.

(** *** Loading documents on demand *)

(** [_documentLoader]: the promise of the load that is under way for a
    URI, a promise being named by a number; [nextPromise] is the number of
    the next promise to be created. *)
Record Loaders := mkLoaders {
  _documentLoader : gmap string nat;
  nextPromise : nat;
}.

Inductive LoadEffect : Type :=
  | TryOpenDocument (uri : string).

(** What [ensureDocumentData] answers: a promise that is already
    resolved with the cached data, or a promise that is still pending. *)
Inductive Ensured : Type :=
  | Resolved (cached : ExtHostDocuments.ExtHostDocumentData)
  | Pending (promise : nat).

Definition ensureDocumentData (uri : string)
    (this : ExtHostDocuments.ExtHostDocuments) (loaders : Loaders)
    : Ensured * Loaders * list LoadEffect :=
  match ExtHostDocuments._documentData this !! uri with
  | Some cached => (Resolved cached, loaders, [])
  | None =>
      match _documentLoader loaders !! uri with
      | Some promise => (Pending promise, loaders, [])
      | None =>
          (Pending (nextPromise loaders),
           mkLoaders (<[uri := nextPromise loaders]> (_documentLoader loaders))
                     (S (nextPromise loaders)),
           [TryOpenDocument uri])
      end
  end.

(** The two callbacks of [.then(...)]: both forget the loader; the first
    answers what is tracked for the URI by then, which may be nothing. *)
Definition loadSettled (uri : string) (this : ExtHostDocuments.ExtHostDocuments)
    (loaders : Loaders) : option ExtHostDocuments.ExtHostDocumentData * Loaders :=
  (ExtHostDocuments._documentData this !! uri,
   mkLoaders (delete uri (_documentLoader loaders)) (nextPromise loaders)).

End ExtHostDocumentsCalls.

(** The handles in use lie below the next handle of the pool. *)
Definition providersWellFormed (this : ExtHostDocumentsCalls.Providers) : Prop :=
  ∀ h, is_Some (ExtHostDocumentsCalls._documentContentProviders this !! h) →
       (h < ExtHostDocumentsCalls._handlePool this)%nat.

(** A provider for the samples. *)
Definition sampleProvider : ExtHostDocumentsCalls.Provider :=
  ExtHostDocumentsCalls.mkProvider (λ uri, "content of " +:+ uri) true.

Definition sampleProviders : ExtHostDocumentsCalls.Providers :=
  ExtHostDocumentsCalls.mkProviders 1 {[ 0%nat := sampleProvider ]}.

(** ** Further calls of [ExtHostEditors] *)

Module ExtHostEditorsCalls.

(** The event of [$acceptEditorPositionData]; an editor is reported as
    it is when the event is fired. *)
Inductive Effect : Type :=
  | FireDidChangeTextEditorViewColumn (textEditor : ExtHostEditors.ExtHostTextEditor)
      (viewColumn : option Z).

(** Puts [trace] in front of what a later part of a call has done. *)
Definition after {S E : Type} (trace : list E) (o : Outcome S E) : Outcome S E :=
  match o with
  | Returned s t => Returned s (trace ++ t)
  | Threw e s t => Threw e s (trace ++ t)
  end.

(** Writes an editor that a call has changed in place back under its
    id. *)
Definition store (id : string) (editor : ExtHostEditors.ExtHostTextEditor)
    (this : ExtHostEditors.ExtHostEditors) : ExtHostEditors.ExtHostEditors :=
  ExtHostEditors.mkExtHostEditors
    (<[id := editor]> (ExtHostEditors._editors this))
    (ExtHostEditors._activeEditorId this)
    (ExtHostEditors._visibleEditorIds this).

Section accept.
(** The constructor of [ExtHostTextEditor], its methods that update an
    editor in place, and [toSelection] and [toViewColumn] of
    [extHostTypeConverters] are not part of the sources at hand; they are
    parameters. *)
Context (newExtHostTextEditor :
           string → option ExtHostDocuments.ExtHostDocumentData →
           list ISelection → Z → option Z → ExtHostEditors.ExtHostTextEditor).
Context (_acceptViewColumn : option Z → ExtHostEditors.ExtHostTextEditor →
                             ExtHostEditors.ExtHostTextEditor).
Context (toSelection : ISelection → ISelection).
Context (toViewColumn : option Z → option Z).

(** [$acceptTextEditorAdd]; [documents] is the [ExtHostDocuments] the
    object was constructed with. *)
Definition acceptTextEditorAdd
    (data : mainThreadDocumentsAndEditors.ITextEditorAddData)
    (documents : ExtHostDocuments.ExtHostDocuments)
    (this : ExtHostEditors.ExtHostEditors) : ExtHostEditors.ExtHostEditors :=
  let document :=
    ExtHostDocumentsCalls.getDocumentData
      (Some (mainThreadDocumentsAndEditors.teaDocument data)) documents in
  let newEditor :=
    newExtHostTextEditor (mainThreadDocumentsAndEditors.teaId data) document
      (toSelection <$> mainThreadDocumentsAndEditors.teaSelections data)
      (mainThreadDocumentsAndEditors.teaOptions data)
      (toViewColumn (mainThreadDocumentsAndEditors.teaEditorPosition data)) in
  store (mainThreadDocumentsAndEditors.teaId data) newEditor this.

(** [$acceptEditorPositionData]; [data] lists the properties of the
    object in the order in which [for ... in] visits them. *)
Fixpoint acceptEditorPositionData (data : list (string * Z))
    (this : ExtHostEditors.ExtHostEditors)
    : Outcome ExtHostEditors.ExtHostEditors Effect :=
  match data with
  | [] => Returned this []
  | (id, position) :: rest =>
      match ExtHostEditors._editors this !! id with
      | None => Threw "TypeError: Cannot read property 'viewColumn' of undefined" this []
      | Some textEditor =>
          let viewColumn := toViewColumn (Some position) in
          if bool_decide (ExtHostEditors.viewColumn textEditor ≠ viewColumn) then
            let textEditor' := _acceptViewColumn viewColumn textEditor in
            after [FireDidChangeTextEditorViewColumn textEditor' viewColumn]
                  (acceptEditorPositionData rest (store id textEditor' this))
          else acceptEditorPositionData rest this
      end
  end.

End accept.

End ExtHostEditorsCalls.

(** ** The state tracker wired to the dispatcher *)

(** Modelled from the spec: [Emitter] of [vs/base/common/event] is not
    part of the sources at hand.  The constructor of
    [MainThreadDocumentsAndEditors] subscribes [_onDelta] to
    [onDidChangeState], and "emission is synchronous": a recomputation of
    the tracker hands every delta it fires to [_onDelta] before it
    returns.  The result carries the effects of the dispatcher. *)
Definition recompute (svc : Services)
    (sys : mainThreadDocumentsAndEditors.MainThreadDocumentAndEditorState
           * mainThreadDocumentsAndEditors.World
           * mainThreadDocumentsAndEditors.MainThreadDocumentsAndEditors)
    : mainThreadDocumentsAndEditors.MainThreadDocumentAndEditorState
      * mainThreadDocumentsAndEditors.World
      * mainThreadDocumentsAndEditors.MainThreadDocumentsAndEditors
      * list mainThreadDocumentsAndEditors.Effect :=
  let r := mainThreadDocumentsAndEditors._updateState svc sys.1.1 sys.1.2 in
  let newlyFired :=
    drop (length (mainThreadDocumentsAndEditors.fired sys.1.2))
         (mainThreadDocumentsAndEditors.fired r.2) in
  let d :=
    fold_left
      (λ acc delta,
         let o := mainThreadDocumentsAndEditors._onDelta svc delta acc.1 in
         (o.1, acc.2 ++ o.2))
      newlyFired (sys.2, []) in
  (r.1, r.2, d.1, d.2).

(** A string without a comma. *)
Fixpoint noComma (s : string) : bool :=
  match s with
  | EmptyString => true
  | String c s' => negb (Ascii.eqb c ",") && noComma s'
  end.

(** A binding as the constructor of [EditorAndModel] builds it, for an
    editor whose id has no comma. *)
Definition wellFormedBinding (b : mainThreadDocumentsAndEditors.EditorAndModel) : Prop :=
  b = mainThreadDocumentsAndEditors.newEditorAndModel
        (mainThreadDocumentsAndEditors.editor b)
        (mainThreadDocumentsAndEditors.document b)
  ∧ noComma (getId (mainThreadDocumentsAndEditors.editor b)) = true.

(** The listed editors have pairwise different ids without commas. *)
Definition editorIdsDistinct (svc : Services) : Prop :=
  NoDup (getId <$> listCodeEditors svc)
  ∧ Forall (λ e, noComma (getId e) = true) (listCodeEditors svc).

(** The ids of the bindings of the stored snapshot. *)
Definition storedIds
    (this : mainThreadDocumentsAndEditors.MainThreadDocumentAndEditorState)
    : gset string :=
  match mainThreadDocumentsAndEditors._currentState this with
  | None => ∅
  | Some s =>
      list_to_set (mainThreadDocumentsAndEditors.id
                     <$> mainThreadDocumentsAndEditors.editors s)
  end.

(** The dispatcher holds a handle for exactly the ids of the bindings of
    the snapshot that the tracker has stored, and the stored bindings are
    well formed and strictly ascending. *)
Definition registryMatches
    (this : mainThreadDocumentsAndEditors.MainThreadDocumentAndEditorState)
    (dispatcher : mainThreadDocumentsAndEditors.MainThreadDocumentsAndEditors)
    : Prop :=
  dom (mainThreadDocumentsAndEditors._editors dispatcher) = storedIds this
  ∧ match mainThreadDocumentsAndEditors._currentState this with
    | None => True
    | Some s =>
        Forall wellFormedBinding (mainThreadDocumentsAndEditors.editors s)
        ∧ BaseArrays.strictlySorted mainThreadDocumentsAndEditors.cmp.compareEditors
            (mainThreadDocumentsAndEditors.editors s) = true
    end.

(** A run of recomputations, one for each state of the services, from a
    tracker without a stored snapshot and a dispatcher without handles. *)
Definition recomputeAll (svcs : list Services)
    (w : mainThreadDocumentsAndEditors.World)
    : mainThreadDocumentsAndEditors.MainThreadDocumentAndEditorState
      * mainThreadDocumentsAndEditors.World
      * mainThreadDocumentsAndEditors.MainThreadDocumentsAndEditors :=
  fold_left (λ sys svc, (recompute svc sys).1) svcs
    (mainThreadDocumentsAndEditors.mkTracker [] ∅ None, w,
     mainThreadDocumentsAndEditors.mkDispatcher ∅).

(** * Properties *)

(** ** The string comparison is a strict total order *)

Lemma ascii_compare_refl (c : ascii) : Ascii.compare c c = Eq.
Proof. unfold Ascii.compare. apply N.compare_refl. Qed.

Lemma string_compare_refl (s : string) : String.compare s s = Eq.
Proof.
  induction s as [|c s IH]; simpl; [done|].
  by rewrite ascii_compare_refl.
Qed.

Lemma ascii_compare_lt_trans (a b c : ascii) :
  Ascii.compare a b = Lt → Ascii.compare b c = Lt → Ascii.compare a c = Lt.
Proof.
  unfold Ascii.compare. rewrite !N.compare_lt_iff. apply N.lt_trans.
Qed.

Lemma string_compare_lt_trans (x : string) :
  ∀ y z, String.compare x y = Lt → String.compare y z = Lt →
         String.compare x z = Lt.
Proof.
  induction x as [|a x IH]; intros [|b y] [|c z]; simpl; try done.
  destruct (Ascii.compare a b) eqn:Hab; try done;
    destruct (Ascii.compare b c) eqn:Hbc; try done; intros Hxy Hyz.
  - apply Ascii.compare_eq_iff in Hab, Hbc. subst.
    rewrite ascii_compare_refl. eauto.
  - apply Ascii.compare_eq_iff in Hab. subst. by rewrite Hbc.
  - apply Ascii.compare_eq_iff in Hbc. subst. by rewrite Hab.
  - by rewrite (ascii_compare_lt_trans a b c).
Qed.

Lemma compare_refl (a : string) : BaseStrings.compare a a = 0.
Proof. unfold BaseStrings.compare. by rewrite string_compare_refl. Qed.

Lemma compare_eq (a b : string) : BaseStrings.compare a b = 0 ↔ a = b.
Proof.
  split; [|intros ->; apply compare_refl].
  unfold BaseStrings.compare. destruct (String.compare a b) eqn:H; try done.
  intros _. by apply String.compare_eq_iff.
Qed.

Lemma compare_gt_lt (a b : string) :
  0 < BaseStrings.compare a b ↔ BaseStrings.compare b a < 0.
Proof.
  unfold BaseStrings.compare. rewrite (String.compare_antisym a b).
  destruct (String.compare b a); simpl; lia.
Qed.

Lemma compare_lt_trans (a b c : string) :
  BaseStrings.compare a b < 0 → BaseStrings.compare b c < 0 →
  BaseStrings.compare a c < 0.
Proof.
  unfold BaseStrings.compare.
  destruct (String.compare a b) eqn:Hab; try lia.
  destruct (String.compare b c) eqn:Hbc; try lia.
  by rewrite (string_compare_lt_trans a b c).
Qed.

Lemma comparePairs_eq (a b : string * string) : comparePairs a b = 0 ↔ a = b.
Proof.
  unfold comparePairs. destruct a as [a1 a2], b as [b1 b2]; simpl.
  destruct (Z.eqb_spec (BaseStrings.compare a1 b1) 0) as [H|H].
  - apply compare_eq in H as ->. rewrite compare_eq. naive_solver.
  - split; [done|]. intros [= -> ->]. by rewrite compare_refl in H.
Qed.

Lemma comparePairs_gt_lt (a b : string * string) :
  0 < comparePairs a b ↔ comparePairs b a < 0.
Proof.
  unfold comparePairs. destruct a as [a1 a2], b as [b1 b2]; simpl.
  destruct (Z.eqb_spec (BaseStrings.compare a1 b1) 0) as [H|H].
  - apply compare_eq in H as ->. rewrite compare_refl. simpl.
    apply compare_gt_lt.
  - destruct (Z.eqb_spec (BaseStrings.compare b1 a1) 0) as [H'|H'].
    + apply compare_eq in H' as ->. by rewrite compare_refl in H.
    + apply compare_gt_lt.
Qed.

Lemma comparePairs_lt_trans (a b c : string * string) :
  comparePairs a b < 0 → comparePairs b c < 0 → comparePairs a c < 0.
Proof.
  unfold comparePairs. destruct a as [a1 a2], b as [b1 b2], c as [c1 c2]; simpl.
  destruct (Z.eqb_spec (BaseStrings.compare a1 b1) 0) as [Hab|Hab].
  { apply compare_eq in Hab as ->.
    destruct (Z.eqb_spec (BaseStrings.compare b1 c1) 0); [|done].
    apply compare_lt_trans. }
  destruct (Z.eqb_spec (BaseStrings.compare b1 c1) 0) as [Hbc|Hbc].
  { apply compare_eq in Hbc as ->. intros H _.
    by destruct (Z.eqb_spec (BaseStrings.compare a1 c1) 0). }
  intros H1 H2. pose proof (compare_lt_trans _ _ _ H1 H2) as H3.
  destruct (Z.eqb_spec (BaseStrings.compare a1 c1) 0); [lia|done].
Qed.

(** ** The merge pass of [delta] *)

Section delta_facts.
Context {T K : Type} `{EqDecision K}.
Context (key : T → K) (kcmp : K → K → Z) (cmp : T → T → Z).
Hypothesis cmp_key : ∀ x y, cmp x y = kcmp (key x) (key y).
Hypothesis kcmp_eq : ∀ a b, kcmp a b = 0 ↔ a = b.
Hypothesis kcmp_gt_lt : ∀ a b, 0 < kcmp a b ↔ kcmp b a < 0.
Hypothesis kcmp_lt_trans : ∀ a b c, kcmp a b < 0 → kcmp b c < 0 → kcmp a c < 0.

Lemma delta_nil_l (a : list T) :
  BaseArrays.delta cmp [] a = BaseArrays.mkDeltaResult [] a.
Proof. by destruct a. Qed.

Lemma delta_nil_r (b : list T) :
  BaseArrays.delta cmp b [] = BaseArrays.mkDeltaResult b [].
Proof. by destruct b. Qed.

Lemma delta_cons_cons (x : T) (b : list T) (y : T) (a : list T) :
  BaseArrays.delta cmp (x :: b) (y :: a) =
    if cmp x y =? 0 then BaseArrays.delta cmp b a
    else if cmp x y <? 0 then
      BaseArrays.mkDeltaResult
        (x :: BaseArrays.removed (BaseArrays.delta cmp b (y :: a)))
        (BaseArrays.added (BaseArrays.delta cmp b (y :: a)))
    else
      BaseArrays.mkDeltaResult
        (BaseArrays.removed (BaseArrays.delta cmp (x :: b) a))
        (y :: BaseArrays.added (BaseArrays.delta cmp (x :: b) a)).
Proof. reflexivity. Qed.

Lemma kcmp_irrefl (a : K) : ¬ kcmp a a < 0.
Proof. assert (kcmp a a = 0) by by apply kcmp_eq. lia. Qed.

Lemma kcmp_asym (a b : K) : kcmp a b < 0 → ¬ kcmp b a < 0.
Proof. intros H1 H2. apply (kcmp_irrefl a). eauto. Qed.

Lemma sorted_cons_inv (x : T) (l : list T) :
  BaseArrays.strictlySorted cmp (x :: l) = true →
  BaseArrays.strictlySorted cmp l = true ∧
  ∀ k, k ∈ key <$> l → kcmp (key x) k < 0.
Proof.
  revert x. induction l as [|y l IH]; intros x.
  { split; [done|]. intros k Hk. by apply elem_of_nil in Hk. }
  intros H.
  change (((cmp x y <? 0) && BaseArrays.strictlySorted cmp (y :: l)) = true) in H.
  apply andb_true_iff in H as [Hxy Hs]. apply Z.ltb_lt in Hxy.
  rewrite cmp_key in Hxy. split; [done|].
  intros k Hk. rewrite fmap_cons in Hk. apply elem_of_cons in Hk as [->|Hk]; [done|].
  destruct (IH y Hs) as [_ Hl]. eauto.
Qed.

(** With the same sequence on both sides nothing is removed or added. *)
Lemma delta_diag (l : list T) :
  BaseArrays.delta cmp l l = BaseArrays.mkDeltaResult [] [].
Proof.
  induction l as [|x l IH]; [done|].
  rewrite delta_cons_cons.
  assert (cmp x x = 0) as -> by (rewrite cmp_key; by apply kcmp_eq).
  done.
Qed.

(** What is removed was there before and is not there afterwards. *)
Lemma delta_removed_keys (b : list T) :
  ∀ a, BaseArrays.strictlySorted cmp b = true →
       BaseArrays.strictlySorted cmp a = true →
  ∀ k, k ∈ key <$> BaseArrays.removed (BaseArrays.delta cmp b a) ↔
       k ∈ key <$> b ∧ k ∉ key <$> a.
Proof.
  induction b as [|x b IHb]; intros a Hb Ha k.
  { rewrite delta_nil_l. simpl. rewrite elem_of_nil. tauto. }
  induction a as [|y a IHa].
  { rewrite delta_nil_r. simpl. rewrite elem_of_nil. tauto. }
  destruct (sorted_cons_inv _ _ Hb) as [Hb' Hxb].
  destruct (sorted_cons_inv _ _ Ha) as [Ha' Hya].
  specialize (IHa Ha').
  pose proof (IHb a Hb' Ha' k) as IH1.
  pose proof (IHb (y :: a) Hb' Ha k) as IH2. clear IHb.
  rewrite delta_cons_cons. rewrite !fmap_cons in *. rewrite !elem_of_cons in *.
  destruct (Z.eqb_spec (cmp x y) 0) as [Heq|Hne].
  - rewrite cmp_key in Heq. apply kcmp_eq in Heq.
    rewrite IH1, Heq. split.
    + intros [Hkb Hka]. split; [by right|]. intros [->|?]; [|done].
      apply Hxb in Hkb. rewrite Heq in Hkb. by apply kcmp_irrefl in Hkb.
    + intros [[->|Hkb] Hka]; [|tauto]. exfalso. apply Hka. by left.
  - destruct (Z.ltb_spec (cmp x y) 0) as [Hlt|Hge];
      cbn [BaseArrays.removed BaseArrays.added].
    + rewrite cmp_key in Hlt.
      rewrite fmap_cons, elem_of_cons, IH2.
      split; [|tauto].
      intros [->|?]; [|tauto]. split; [by left|].
      intros [Hk|Hk].
      * rewrite <- Hk in Hlt. by apply kcmp_irrefl in Hlt.
      * apply Hya in Hk. apply (kcmp_asym (key x) (key y)); eauto.
    + assert (kcmp (key y) (key x) < 0) as Hgt.
      { apply kcmp_gt_lt. rewrite <- cmp_key. lia. }
      rewrite IHa.
      split; [|tauto].
      intros [Hkb Hka]. split; [done|]. intros [->|?]; [|done].
      destruct Hkb as [Hk|Hk].
      * rewrite Hk in Hgt. by apply kcmp_irrefl in Hgt.
      * apply Hxb in Hk. apply (kcmp_asym (key y) (key x)); eauto.
Qed.

(** What is added is there afterwards and was not there before. *)
Lemma delta_added_keys (b : list T) :
  ∀ a, BaseArrays.strictlySorted cmp b = true →
       BaseArrays.strictlySorted cmp a = true →
  ∀ k, k ∈ key <$> BaseArrays.added (BaseArrays.delta cmp b a) ↔
       k ∈ key <$> a ∧ k ∉ key <$> b.
Proof.
  induction b as [|x b IHb]; intros a Hb Ha k.
  { rewrite delta_nil_l. simpl. rewrite elem_of_nil. tauto. }
  induction a as [|y a IHa].
  { rewrite delta_nil_r. simpl. rewrite elem_of_nil. tauto. }
  destruct (sorted_cons_inv _ _ Hb) as [Hb' Hxb].
  destruct (sorted_cons_inv _ _ Ha) as [Ha' Hya].
  specialize (IHa Ha').
  pose proof (IHb a Hb' Ha' k) as IH1.
  pose proof (IHb (y :: a) Hb' Ha k) as IH2. clear IHb.
  rewrite delta_cons_cons. rewrite !fmap_cons in *. rewrite !elem_of_cons in *.
  destruct (Z.eqb_spec (cmp x y) 0) as [Heq|Hne].
  - rewrite cmp_key in Heq. apply kcmp_eq in Heq.
    rewrite IH1, Heq. split.
    + intros [Hka Hkb]. split; [by right|]. intros [->|?]; [|done].
      apply Hya in Hka. by apply kcmp_irrefl in Hka.
    + intros [[->|Hka] Hkb]; [|tauto]. exfalso. apply Hkb. by left.
  - destruct (Z.ltb_spec (cmp x y) 0) as [Hlt|Hge];
      cbn [BaseArrays.removed BaseArrays.added].
    + rewrite cmp_key in Hlt. rewrite IH2.
      split; [|tauto].
      intros [Hka Hkb]. split; [done|]. intros [->|?]; [|done].
      destruct Hka as [Hk|Hk].
      * rewrite Hk in Hlt. by apply kcmp_irrefl in Hlt.
      * apply Hya in Hk. apply (kcmp_asym (key x) (key y)); eauto.
    + assert (kcmp (key y) (key x) < 0) as Hgt.
      { apply kcmp_gt_lt. rewrite <- cmp_key. lia. }
      rewrite fmap_cons, elem_of_cons, IHa.
      split; [|tauto].
      intros [->|?]; [|tauto]. split; [by left|].
      intros [Hk|Hk].
      * rewrite <- Hk in Hgt. by apply kcmp_irrefl in Hgt.
      * apply Hxb in Hk. apply (kcmp_asym (key y) (key x)); eauto.
Qed.

(** Taking the removed keys out of the old keys and putting the added
    keys in gives the new keys. *)
Lemma delta_round_trip_keys (b a : list T) :
  BaseArrays.strictlySorted cmp b = true →
  BaseArrays.strictlySorted cmp a = true →
  ∀ k, k ∈ key <$> a ↔
       (k ∈ key <$> b ∧ k ∉ key <$> BaseArrays.removed (BaseArrays.delta cmp b a))
       ∨ k ∈ key <$> BaseArrays.added (BaseArrays.delta cmp b a).
Proof.
  intros Hb Ha k.
  rewrite (delta_removed_keys b a Hb Ha k), (delta_added_keys b a Hb Ha k).
  destruct (decide (k ∈ key <$> b)); destruct (decide (k ∈ key <$> a)); tauto.
Qed.

End delta_facts.

(** ** The delta computer *)

Lemma list_to_set_round_trip `{Countable K} (old new rem add : list K) :
  (∀ k, k ∈ new ↔ (k ∈ old ∧ k ∉ rem) ∨ k ∈ add) →
  list_to_set new =@{gset K} (list_to_set old ∖ list_to_set rem) ∪ list_to_set add.
Proof.
  intros Hk. apply set_eq. intros k.
  rewrite elem_of_union, elem_of_difference, !elem_of_list_to_set. apply Hk.
Qed.

Lemma documents_round_trip (b a : list IModel) :
  BaseArrays.strictlySorted mainThreadDocumentsAndEditors.cmp.compareModels b = true →
  BaseArrays.strictlySorted mainThreadDocumentsAndEditors.cmp.compareModels a = true →
  let d := BaseArrays.delta mainThreadDocumentsAndEditors.cmp.compareModels b a in
  documentSet a =
    (documentSet b ∖ documentSet (BaseArrays.removed d))
    ∪ documentSet (BaseArrays.added d).
Proof.
  intros Hb Ha d. apply list_to_set_round_trip.
  apply (delta_round_trip_keys documentKey BaseStrings.compare); auto.
  - apply compare_eq.
  - apply compare_gt_lt.
  - apply compare_lt_trans.
Qed.

Lemma editors_round_trip (b a : list mainThreadDocumentsAndEditors.EditorAndModel) :
  BaseArrays.strictlySorted mainThreadDocumentsAndEditors.cmp.compareEditors b = true →
  BaseArrays.strictlySorted mainThreadDocumentsAndEditors.cmp.compareEditors a = true →
  let d := BaseArrays.delta mainThreadDocumentsAndEditors.cmp.compareEditors b a in
  bindingSet a =
    (bindingSet b ∖ bindingSet (BaseArrays.removed d))
    ∪ bindingSet (BaseArrays.added d).
Proof.
  intros Hb Ha d. apply list_to_set_round_trip.
  apply (delta_round_trip_keys bindingKey comparePairs); auto.
  - apply comparePairs_eq.
  - apply comparePairs_gt_lt.
  - apply comparePairs_lt_trans.
Qed.

Lemma apiEditors_round_trip (b a : list mainThreadDocumentAndEditorState.ApiEditor) :
  BaseArrays.strictlySorted mainThreadDocumentAndEditorState.cmp.compareEditors b = true →
  BaseArrays.strictlySorted mainThreadDocumentAndEditorState.cmp.compareEditors a = true →
  let d := BaseArrays.delta mainThreadDocumentAndEditorState.cmp.compareEditors b a in
  apiEditorSet a =
    (apiEditorSet b ∖ apiEditorSet (BaseArrays.removed d))
    ∪ apiEditorSet (BaseArrays.added d).
Proof.
  intros Hb Ha d. apply list_to_set_round_trip.
  apply (delta_round_trip_keys apiEditorKey comparePairs); auto.
  - apply comparePairs_eq.
  - apply comparePairs_gt_lt.
  - apply comparePairs_lt_trans.
Qed.

(** The scenario of the design document: the second document is removed,
    the second editor is added, the active editor changes. *)
Example compute_sample :
  mainThreadDocumentsAndEditors.compute (Some sampleBefore) sampleAfter =
    mainThreadDocumentsAndEditors.mkDelta
      [sampleDocB] []
      [] [mainThreadDocumentsAndEditors.newEditorAndModel sampleEditor2 sampleDocA]
      (js_string "editor1,file:///a.txt") (js_string "editor2,file:///a.txt")
      false.
Proof. reflexivity. Qed.

(** C1. For snapshots [A] and [B] whose document and editor-binding
    sequences are strictly ascending under their comparators (sorted and
    duplicate-free), the delta of [compute(A, B)] leads from [A] to [B]:
    taking [removedDocuments] out of the documents of [A] and putting
    [addedDocuments] in gives exactly the documents of [B], and likewise
    for the editor bindings with [removedEditors] and [addedEditors]. *)
Theorem compute_round_trip
    (A B : mainThreadDocumentsAndEditors.DocumentAndEditorState) :
  BaseArrays.strictlySorted mainThreadDocumentsAndEditors.cmp.compareModels
    (mainThreadDocumentsAndEditors.documents A) = true →
  BaseArrays.strictlySorted mainThreadDocumentsAndEditors.cmp.compareModels
    (mainThreadDocumentsAndEditors.documents B) = true →
  BaseArrays.strictlySorted mainThreadDocumentsAndEditors.cmp.compareEditors
    (mainThreadDocumentsAndEditors.editors A) = true →
  BaseArrays.strictlySorted mainThreadDocumentsAndEditors.cmp.compareEditors
    (mainThreadDocumentsAndEditors.editors B) = true →
  let d := mainThreadDocumentsAndEditors.compute (Some A) B in
  documentSet (mainThreadDocumentsAndEditors.documents B) =
    (documentSet (mainThreadDocumentsAndEditors.documents A)
       ∖ documentSet (mainThreadDocumentsAndEditors.removedDocuments d))
    ∪ documentSet (mainThreadDocumentsAndEditors.addedDocuments d)
  ∧ bindingSet (mainThreadDocumentsAndEditors.editors B) =
    (bindingSet (mainThreadDocumentsAndEditors.editors A)
       ∖ bindingSet (mainThreadDocumentsAndEditors.removedEditors d))
    ∪ bindingSet (mainThreadDocumentsAndEditors.addedEditors d).
Proof.
  intros HdA HdB HeA HeB d. split.
  - apply (documents_round_trip _ _ HdA HdB).
  - apply (editors_round_trip _ _ HeA HeB).
Qed.

Lemma compute_round_trip_witness :
  documentSet (mainThreadDocumentsAndEditors.documents sampleAfter) =
    (documentSet (mainThreadDocumentsAndEditors.documents sampleBefore)
       ∖ documentSet (mainThreadDocumentsAndEditors.removedDocuments
            (mainThreadDocumentsAndEditors.compute (Some sampleBefore) sampleAfter)))
    ∪ documentSet (mainThreadDocumentsAndEditors.addedDocuments
            (mainThreadDocumentsAndEditors.compute (Some sampleBefore) sampleAfter))
  ∧ bindingSet (mainThreadDocumentsAndEditors.editors sampleAfter) =
    (bindingSet (mainThreadDocumentsAndEditors.editors sampleBefore)
       ∖ bindingSet (mainThreadDocumentsAndEditors.removedEditors
            (mainThreadDocumentsAndEditors.compute (Some sampleBefore) sampleAfter)))
    ∪ bindingSet (mainThreadDocumentsAndEditors.addedEditors
            (mainThreadDocumentsAndEditors.compute (Some sampleBefore) sampleAfter)).
Proof. apply (compute_round_trip sampleBefore sampleAfter); reflexivity. Defined.

(** The same round trip for [compute] of the tracker without
    active-editor tracking. *)
Lemma compute_round_trip_without_active
    (A B : mainThreadDocumentAndEditorState.DocumentAndEditorState) :
  BaseArrays.strictlySorted mainThreadDocumentAndEditorState.cmp.compareModels
    (mainThreadDocumentAndEditorState.documents A) = true →
  BaseArrays.strictlySorted mainThreadDocumentAndEditorState.cmp.compareModels
    (mainThreadDocumentAndEditorState.documents B) = true →
  BaseArrays.strictlySorted mainThreadDocumentAndEditorState.cmp.compareEditors
    (mainThreadDocumentAndEditorState.editors A) = true →
  BaseArrays.strictlySorted mainThreadDocumentAndEditorState.cmp.compareEditors
    (mainThreadDocumentAndEditorState.editors B) = true →
  let d := mainThreadDocumentAndEditorState.compute (Some A) B in
  documentSet (mainThreadDocumentAndEditorState.documents B) =
    (documentSet (mainThreadDocumentAndEditorState.documents A)
       ∖ documentSet (mainThreadDocumentAndEditorState.removedDocuments d))
    ∪ documentSet (mainThreadDocumentAndEditorState.addedDocuments d)
  ∧ apiEditorSet (mainThreadDocumentAndEditorState.editors B) =
    (apiEditorSet (mainThreadDocumentAndEditorState.editors A)
       ∖ apiEditorSet (mainThreadDocumentAndEditorState.removedEditors d))
    ∪ apiEditorSet (mainThreadDocumentAndEditorState.addedEditors d).
Proof.
  intros HdA HdB HeA HeB d. split.
  - apply (documents_round_trip _ _ HdA HdB).
  - apply (apiEditors_round_trip _ _ HeA HeB).
Qed.

Lemma documents_delta_diag (l : list IModel) :
  BaseArrays.delta mainThreadDocumentsAndEditors.cmp.compareModels l l =
    BaseArrays.mkDeltaResult [] [].
Proof.
  apply (delta_diag documentKey BaseStrings.compare); [done|apply compare_eq].
Qed.

Lemma editors_delta_diag (l : list mainThreadDocumentsAndEditors.EditorAndModel) :
  BaseArrays.delta mainThreadDocumentsAndEditors.cmp.compareEditors l l =
    BaseArrays.mkDeltaResult [] [].
Proof.
  apply (delta_diag bindingKey comparePairs); [done|apply comparePairs_eq].
Qed.

Lemma strictEq_true (a b : JsId) : strictEq a b = true ↔ a = b.
Proof. unfold strictEq. apply bool_decide_eq_true. Qed.

Lemma strictEq_refl (a : JsId) : strictEq a a = true.
Proof. by apply strictEq_true. Qed.

Lemma compute_diag (A : mainThreadDocumentsAndEditors.DocumentAndEditorState) :
  mainThreadDocumentsAndEditors.compute (Some A) A =
    mainThreadDocumentsAndEditors.mkDelta [] [] [] [] js_undefined js_undefined true.
Proof.
  unfold mainThreadDocumentsAndEditors.compute.
  by rewrite documents_delta_diag, editors_delta_diag, strictEq_refl.
Qed.

(** C7. Diffing a snapshot against itself gives the empty delta: nothing
    removed, nothing added, and both active-editor fields [undefined]
    rather than the snapshot's active id.  More generally, when the old
    and the new snapshot have the same active id, both active-editor
    fields of the delta are [undefined]. *)
Theorem compute_same_active
    (A B : mainThreadDocumentsAndEditors.DocumentAndEditorState) :
  mainThreadDocumentsAndEditors.activeEditor A =
    mainThreadDocumentsAndEditors.activeEditor B →
  mainThreadDocumentsAndEditors.compute (Some A) A =
    mainThreadDocumentsAndEditors.mkDelta [] [] [] [] js_undefined js_undefined true
  ∧ mainThreadDocumentsAndEditors.oldActiveEditor
      (mainThreadDocumentsAndEditors.compute (Some A) B) = js_undefined
  ∧ mainThreadDocumentsAndEditors.newActiveEditor
      (mainThreadDocumentsAndEditors.compute (Some A) B) = js_undefined.
Proof.
  intros Hact. split; [apply compute_diag|].
  unfold mainThreadDocumentsAndEditors.compute.
  by rewrite <- Hact, strictEq_refl.
Qed.

Lemma compute_same_active_witness :
  mainThreadDocumentsAndEditors.compute (Some sampleBefore) sampleBefore =
    mainThreadDocumentsAndEditors.mkDelta [] [] [] [] js_undefined js_undefined true
  ∧ mainThreadDocumentsAndEditors.oldActiveEditor
      (mainThreadDocumentsAndEditors.compute (Some sampleBefore) sampleBefore)
    = js_undefined
  ∧ mainThreadDocumentsAndEditors.newActiveEditor
      (mainThreadDocumentsAndEditors.compute (Some sampleBefore) sampleBefore)
    = js_undefined.
Proof. apply (compute_same_active sampleBefore sampleBefore). reflexivity. Defined.

(** ** The emptiness of a delta and the guard of [_updateState] *)

(** A delta built by the constructor is empty exactly when its four
    sequences are empty and its two active-editor fields are the same
    value; [undefined] and [null] are different values. *)
Lemma isEmpty_iff (rd ad : list IModel)
    (re ae : list mainThreadDocumentsAndEditors.EditorAndModel) (o n : JsId) :
  mainThreadDocumentsAndEditors.isEmpty
    (mainThreadDocumentsAndEditors.newDocumentAndEditorStateDelta rd ad re ae o n)
    = true
  ↔ rd = [] ∧ ad = [] ∧ re = [] ∧ ae = [] ∧ o = n.
Proof.
  cbn [mainThreadDocumentsAndEditors.newDocumentAndEditorStateDelta
       mainThreadDocumentsAndEditors.isEmpty].
  rewrite !andb_true_iff, !Nat.eqb_eq, !length_zero_iff_nil, strictEq_true.
  tauto.
Qed.

(** [_updateState] fires at most the delta it has computed, and only when
    that delta is not empty; on an empty delta the tracker and the world
    stay as they are. *)
Lemma _updateState_guard (svc : Services)
    (this : mainThreadDocumentsAndEditors.MainThreadDocumentAndEditorState)
    (w : mainThreadDocumentsAndEditors.World) :
  let d := mainThreadDocumentsAndEditors.compute
             (mainThreadDocumentsAndEditors._currentState this)
             (mainThreadDocumentsAndEditors.newStateOf svc) in
  let r := mainThreadDocumentsAndEditors._updateState svc this w in
  (mainThreadDocumentsAndEditors.isEmpty d = true → r = (this, w))
  ∧ (mainThreadDocumentsAndEditors.isEmpty d = false →
       mainThreadDocumentsAndEditors.fired r.2 =
         mainThreadDocumentsAndEditors.fired w ++ [d]
       ∧ mainThreadDocumentsAndEditors._currentState r.1 =
           Some (mainThreadDocumentsAndEditors.newStateOf svc)).
Proof.
  intros d r. subst r. unfold mainThreadDocumentsAndEditors._updateState.
  fold d. destruct (mainThreadDocumentsAndEditors.isEmpty d); simpl; split; done.
Qed.

Lemma _updateState_fires_nonempty (svc : Services)
    (this : mainThreadDocumentsAndEditors.MainThreadDocumentAndEditorState)
    (w : mainThreadDocumentsAndEditors.World) :
  ∃ ds, mainThreadDocumentsAndEditors.fired
          (mainThreadDocumentsAndEditors._updateState svc this w).2 =
        mainThreadDocumentsAndEditors.fired w ++ ds
        ∧ Forall (λ d, mainThreadDocumentsAndEditors.isEmpty d = false) ds.
Proof.
  unfold mainThreadDocumentsAndEditors._updateState.
  destruct (mainThreadDocumentsAndEditors.isEmpty _) eqn:He; simpl.
  - exists []. by rewrite app_nil_r.
  - eexists [_]. split; [done|]. by constructor.
Qed.

(** ** The snapshot [_updateState] builds *)

(** The splicing loop keeps what lies before the cursor and, from the
    cursor on, the models that are not too large. *)
Lemma spliceTooLarge_from (models : list IModel) (i : nat) :
  mainThreadDocumentsAndEditors.spliceTooLarge models i =
    take i models ++
    filter (λ m, isTooLargeForHavingARichMode m = false) (drop i models).
Proof.
  funelim (mainThreadDocumentsAndEditors.spliceTooLarge models i).
  - clear H1 Heqcall. rewrite (drop_S _ _ _ Hm), filter_cons.
    destruct (isTooLargeForHavingARichMode m) eqn:Hlarge.
    + rewrite decide_False by done. rewrite H.
      assert (length (take i models) = i) as Hlen.
      { apply lookup_lt_Some in Hm. rewrite length_take. lia. }
      rewrite delete_take_drop.
      rewrite take_app_length' by done. by rewrite drop_app_length' by done.
    + rewrite decide_True by done. rewrite H0.
      rewrite (take_S_r _ _ _ Hm), <- app_assoc. done.
  - clear H Heqcall. apply lookup_ge_None in Hm.
    rewrite take_ge, drop_ge by done. by rewrite app_nil_r.
Qed.

Lemma spliceTooLarge_filter (models : list IModel) :
  mainThreadDocumentsAndEditors.spliceTooLarge models 0 =
    filter (λ m, isTooLargeForHavingARichMode m = false) models.
Proof. by rewrite spliceTooLarge_from. Qed.

Lemma sortInsert_perm {T : Type} (cmp : T → T → Z) (x : T) (l : list T) :
  sortInsert cmp x l ≡ₚ x :: l.
Proof.
  induction l as [|y l IH]; simpl; [done|].
  destruct (0 <? cmp y x); [done|].
  rewrite IH. apply Permutation_swap.
Qed.

Lemma Array_sort_perm {T : Type} (cmp : T → T → Z) (l : list T) :
  Array_sort cmp l ≡ₚ l.
Proof.
  unfold Array_sort. rewrite <- (reverse_Permutation l) at 2.
  induction (reverse l) as [|x r IH]; simpl; [done|].
  by rewrite sortInsert_perm, IH.
Qed.

Lemma elem_of_Array_sort {T : Type} (cmp : T → T → Z) (l : list T) (x : T) :
  x ∈ Array_sort cmp l ↔ x ∈ l.
Proof. by rewrite Array_sort_perm. Qed.

Lemma collectEditor_bindingOf (e : ICommonCodeEditor)
    (acc : list mainThreadDocumentsAndEditors.EditorAndModel * JsId) :
  mainThreadDocumentsAndEditors.collectEditor acc e =
    match bindingOf e with
    | Some b =>
        (acc.1 ++ [b],
         if hasFocus b then js_string (mainThreadDocumentsAndEditors.id b)
         else acc.2)
    | None => acc
    end.
Proof.
  unfold mainThreadDocumentsAndEditors.collectEditor, bindingOf.
  destruct (getModel e) as [model|]; [|done].
  by destruct (isTooLargeForHavingARichMode model).
Qed.

(** The loop over the editors collects the bindings of the listing, and
    leaves in [activeEditor] the id of the last one with focus. *)
Lemma collectEditor_fold (es : list ICommonCodeEditor)
    (acc : list mainThreadDocumentsAndEditors.EditorAndModel * JsId) :
  fold_left mainThreadDocumentsAndEditors.collectEditor es acc =
    (acc.1 ++ omap bindingOf es,
     match last (filter (λ b, hasFocus b = true) (omap bindingOf es)) with
     | Some b => js_string (mainThreadDocumentsAndEditors.id b)
     | None => acc.2
     end).
Proof.
  revert acc. induction es as [|e es IH]; intros [bs a].
  { simpl. by rewrite app_nil_r. }
  cbn [fold_left omap list_omap]. rewrite IH, collectEditor_bindingOf.
  destruct (bindingOf e) as [b|]; [|done].
  cbn [fst snd]. rewrite <- app_assoc. f_equal.
  rewrite filter_cons.
  destruct (hasFocus b) eqn:Hfoc.
  - rewrite decide_True by done.
    rewrite last_cons. by destruct (last _).
  - by rewrite decide_False by done.
Qed.

(** The snapshot in closed form. *)
Lemma newStateOf_eq (svc : Services) :
  mainThreadDocumentsAndEditors.newStateOf svc =
    mainThreadDocumentsAndEditors.newDocumentAndEditorState
      (filter (λ m, isTooLargeForHavingARichMode m = false) (getModels svc))
      (filteredBindings svc)
      (mainThreadDocumentsAndEditors.resolveActiveEditor svc (filteredBindings svc)
         match last (filter (λ b, hasFocus b = true) (filteredBindings svc)) with
         | Some b => js_string (mainThreadDocumentsAndEditors.id b)
         | None => js_null
         end).
Proof.
  unfold mainThreadDocumentsAndEditors.newStateOf.
  by rewrite collectEditor_fold, spliceTooLarge_filter.
Qed.

Lemma bindingOf_Some (e : ICommonCodeEditor)
    (b : mainThreadDocumentsAndEditors.EditorAndModel) :
  bindingOf e = Some b ↔
  ∃ m, getModel e = Some m ∧ isTooLargeForHavingARichMode m = false
       ∧ b = mainThreadDocumentsAndEditors.newEditorAndModel e m.
Proof.
  unfold bindingOf. destruct (getModel e) as [m|].
  - destruct (isTooLargeForHavingARichMode m) eqn:Hm.
    + split; [done|]. intros (m' & [= <-] & Hm' & _). congruence.
    + split.
      * intros [= <-]. eauto.
      * intros (m' & [= <-] & _ & ->). done.
  - split; [done|]. by intros (m' & ? & _).
Qed.

Lemma elem_of_filteredBindings (svc : Services)
    (b : mainThreadDocumentsAndEditors.EditorAndModel) :
  b ∈ filteredBindings svc ↔
  ∃ e m, e ∈ listCodeEditors svc ∧ getModel e = Some m
         ∧ isTooLargeForHavingARichMode m = false
         ∧ b = mainThreadDocumentsAndEditors.newEditorAndModel e m.
Proof.
  unfold filteredBindings. rewrite list_elem_of_omap. split.
  - intros (e & He & Hb). apply bindingOf_Some in Hb as (m & ? & ? & ?). eauto 10.
  - intros (e & m & He & Hm & Hl & Hb). exists e. split; [done|].
    apply bindingOf_Some. eauto.
Qed.

(** C5. In the snapshot [_updateState] computes from the listed models
    and editors, the documents are exactly the listed models that are not
    too large for a rich mode, and the editor bindings are exactly those of
    the listed editors whose current model is present and not too large: a
    model that is too large is in no snapshot, and an editor whose model is
    absent or too large is the editor of no binding, also when it displays
    the model that is too large. *)
Theorem newStateOf_excludes_too_large (svc : Services) :
  let s := mainThreadDocumentsAndEditors.newStateOf svc in
  (∀ m, m ∈ mainThreadDocumentsAndEditors.documents s ↔
        m ∈ getModels svc ∧ isTooLargeForHavingARichMode m = false)
  ∧ (∀ b, b ∈ mainThreadDocumentsAndEditors.editors s ↔
          ∃ e m, e ∈ listCodeEditors svc ∧ getModel e = Some m
                 ∧ isTooLargeForHavingARichMode m = false
                 ∧ b = mainThreadDocumentsAndEditors.newEditorAndModel e m)
  ∧ (∀ m, isTooLargeForHavingARichMode m = true →
          m ∉ mainThreadDocumentsAndEditors.documents s)
  ∧ (∀ e, getModel e = None
          ∨ (∃ m, getModel e = Some m ∧ isTooLargeForHavingARichMode m = true) →
          ∀ b, b ∈ mainThreadDocumentsAndEditors.editors s →
               mainThreadDocumentsAndEditors.editor b ≠ e).
Proof.
  intros s. subst s. rewrite newStateOf_eq.
  cbn [mainThreadDocumentsAndEditors.newDocumentAndEditorState
       mainThreadDocumentsAndEditors.documents
       mainThreadDocumentsAndEditors.editors].
  assert (∀ m, m ∈ Array_sort mainThreadDocumentsAndEditors.cmp.compareModels
                     (filter (λ m, isTooLargeForHavingARichMode m = false)
                        (getModels svc)) ↔
               m ∈ getModels svc ∧ isTooLargeForHavingARichMode m = false) as Hdocs.
  { intros m. rewrite elem_of_Array_sort, list_elem_of_filter. tauto. }
  assert (∀ b, b ∈ Array_sort mainThreadDocumentsAndEditors.cmp.compareEditors
                     (filteredBindings svc) ↔
               ∃ e m, e ∈ listCodeEditors svc ∧ getModel e = Some m
                      ∧ isTooLargeForHavingARichMode m = false
                      ∧ b = mainThreadDocumentsAndEditors.newEditorAndModel e m)
    as Heds.
  { intros b. rewrite elem_of_Array_sort. apply elem_of_filteredBindings. }
  split; [done|]. split; [done|]. split.
  - intros m Hlarge Hin. apply Hdocs in Hin as [_ Hin]. congruence.
  - intros e He b Hb <-. apply Heds in Hb as (e' & m & _ & Hm & Hlarge & ->).
    simpl in He. destruct He as [He|(m' & He & Hl')]; congruence.
Qed.

(** ** The active editor of the snapshot *)

(** The id of a binding has a comma in it, so it is truthy. *)
Lemma newEditorAndModel_id_truthy (e : ICommonCodeEditor) (m : IModel) :
  truthy (js_string (mainThreadDocumentsAndEditors.id
                       (mainThreadDocumentsAndEditors.newEditorAndModel e m)))
    = true.
Proof.
  cbn [truthy mainThreadDocumentsAndEditors.id mainThreadDocumentsAndEditors.newEditorAndModel].
  apply negb_true_iff, bool_decide_eq_false_2. by destruct (getId e).
Qed.

Lemma matchCandidate_find (c : ICommonCodeEditor)
    (bs : list mainThreadDocumentsAndEditors.EditorAndModel) (a : JsId) :
  mainThreadDocumentsAndEditors.matchCandidate c bs a =
    match find (λ b, sameEditor c (mainThreadDocumentsAndEditors.editor b)) bs with
    | Some b => js_string (mainThreadDocumentsAndEditors.id b)
    | None => a
    end.
Proof.
  induction bs as [|b bs IH]; simpl; [done|].
  by destruct (sameEditor c (mainThreadDocumentsAndEditors.editor b)).
Qed.

(** C6. The active editor of the snapshot [_updateState] computes is
    resolved as the design document says: the binding id of a filtered
    editor that reports input focus if there is one; otherwise the id of
    the filtered binding whose editor is the control of the active
    workbench editor (the control itself when it is a code editor, its
    modified side when it is a diff editor); otherwise absent. *)
Theorem newStateOf_activeEditor (svc : Services) :
  mainThreadDocumentsAndEditors.activeEditor
    (mainThreadDocumentsAndEditors.newStateOf svc) = activeEditorSpec svc.
Proof.
  rewrite newStateOf_eq.
  cbn [mainThreadDocumentsAndEditors.newDocumentAndEditorState
       mainThreadDocumentsAndEditors.activeEditor].
  unfold activeEditorSpec, mainThreadDocumentsAndEditors.resolveActiveEditor.
  destruct (last (filter _ (filteredBindings svc))) as [b|] eqn:Hlast.
  - assert (b ∈ filteredBindings svc) as Hb.
    { apply last_Some_elem_of in Hlast. by apply list_elem_of_filter in Hlast as [_ ?]. }
    apply elem_of_filteredBindings in Hb as (e & m & _ & _ & _ & ->).
    by rewrite newEditorAndModel_id_truthy.
  - cbn [truthy negb].
    destruct (getActiveEditor svc) as [workbenchEditor|]; [|done].
    destruct (getControl workbenchEditor) as [c|c|];
      cbn [mainThreadDocumentsAndEditors.candidateOf]; [| |done];
      apply matchCandidate_find.
Qed.

(** In the resolution of the design document a binding with input focus
    wins: the control of the workbench editor is not looked at. *)
Lemma activeEditorSpec_focus (svc : Services) :
  (∃ b, b ∈ filteredBindings svc ∧ hasFocus b = true) →
  ∃ b, b ∈ filteredBindings svc ∧ hasFocus b = true
       ∧ activeEditorSpec svc = js_string (mainThreadDocumentsAndEditors.id b).
Proof.
  intros (b & Hb & Hfoc). unfold activeEditorSpec.
  destruct (last (filter _ (filteredBindings svc))) as [b'|] eqn:Hlast.
  - apply last_Some_elem_of, list_elem_of_filter in Hlast as [? ?]. eauto.
  - apply last_None in Hlast.
    assert (b ∈ filter (λ b, hasFocus b = true) (filteredBindings svc)) as Hin
      by by apply list_elem_of_filter.
    rewrite Hlast in Hin. by apply elem_of_nil in Hin.
Qed.

(** The too large document and the editor that shows it are not in the
    snapshot, although that editor has input focus; the active editor is
    found through the modified side of the diff editor. *)
Example newStateOf_sample :
  mainThreadDocumentsAndEditors.newStateOf sampleServices =
    mainThreadDocumentsAndEditors.mkState
      [sampleDocA]
      [mainThreadDocumentsAndEditors.newEditorAndModel sampleEditor1 sampleDocA]
      (js_string "editor1,file:///a.txt").
Proof. vm_compute. reflexivity. Qed.

(** ** The first recomputation of a fresh tracker *)

(** C2, at the first recomputation.  A tracker that has just been
    constructed and whose services list no model, no editor and no active
    editor fires a delta: its four sequences are empty, its old active
    editor is [undefined] and its new active editor is [null], both
    absent, and since [undefined === null] is false [isEmpty] is false.
    The snapshot without content is stored. *)
Theorem first_recomputation_fires_delta_without_content :
  let tw := mainThreadDocumentsAndEditors.newMainThreadDocumentAndEditorState
              emptyWorld in
  let r := mainThreadDocumentsAndEditors._updateState noServices tw.1 tw.2 in
  mainThreadDocumentsAndEditors.fired r.2 =
    [mainThreadDocumentsAndEditors.mkDelta [] [] [] [] js_undefined js_null false]
  ∧ absent js_undefined ∧ absent js_null
  ∧ mainThreadDocumentsAndEditors._currentState r.1 =
      Some (mainThreadDocumentsAndEditors.mkState [] [] js_null).
Proof.
  cbn zeta. unfold mainThreadDocumentsAndEditors._updateState.
  rewrite newStateOf_eq. cbn. unfold absent. auto.
Qed.

(** The tracker without active-editor tracking fires nothing there and
    stores nothing. *)
Lemma first_recomputation_without_active_is_silent :
  mainThreadDocumentAndEditorState._updateState noServices (None, []) = (None, []).
Proof.
  unfold mainThreadDocumentAndEditorState._updateState,
    mainThreadDocumentAndEditorState.newStateOf.
  by rewrite spliceTooLarge_filter.
Qed.

(** Once a snapshot is stored, a recomputation that finds the same
    snapshot again fires nothing and leaves the tracker as it is. *)
Lemma _updateState_same_snapshot_is_silent (svc : Services)
    (this : mainThreadDocumentsAndEditors.MainThreadDocumentAndEditorState)
    (w : mainThreadDocumentsAndEditors.World) :
  mainThreadDocumentsAndEditors._currentState this =
    Some (mainThreadDocumentsAndEditors.newStateOf svc) →
  mainThreadDocumentsAndEditors._updateState svc this w = (this, w).
Proof.
  intros Hcur. unfold mainThreadDocumentsAndEditors._updateState. rewrite Hcur.
  by rewrite compute_diag.
Qed.

(** ** Disposing the state tracker *)

Lemma elem_of_disposeOne (d : IDisposable) (tbl : ListenerTable)
    (l : nat * EventSource) :
  l ∈ liveListeners (disposeOne d tbl) ↔
  l ∈ liveListeners tbl ∧ l.1 ∉ unregisters d.
Proof. unfold disposeOne. simpl. rewrite list_elem_of_filter. tauto. Qed.

Lemma elem_of_dispose_all (ds : list IDisposable) (tbl : ListenerTable)
    (l : nat * EventSource) :
  l ∈ liveListeners (Lifecycle.dispose ds tbl).2 ↔
  l ∈ liveListeners tbl ∧ ∀ d, d ∈ ds → l.1 ∉ unregisters d.
Proof.
  unfold Lifecycle.dispose. cbn [snd].
  revert tbl. induction ds as [|d ds IH]; intros tbl; simpl.
  - split; [|tauto]. intros Hl. split; [done|]. intros d Hd. by apply elem_of_nil in Hd.
  - rewrite IH, elem_of_disposeOne. split.
    + intros [[Hl Hd] Hds]. split; [done|]. intros d' Hd'.
      apply elem_of_cons in Hd' as [->|Hd']; auto.
    + intros [Hl Hds]. split; [split; [done|]|].
      * apply Hds. by left.
      * intros d' Hd'. apply Hds. by right.
Qed.

(** [dispose] unregisters the listeners of the top-level subscriptions. *)
Lemma dispose_releases_top_level
    (this : mainThreadDocumentsAndEditors.MainThreadDocumentAndEditorState)
    (w : mainThreadDocumentsAndEditors.World)
    (d : IDisposable) (l : nat * EventSource) :
  d ∈ mainThreadDocumentsAndEditors._toDispose this →
  l.1 ∈ unregisters d →
  l ∉ liveListeners (mainThreadDocumentsAndEditors.listeners
                       (mainThreadDocumentsAndEditors.dispose this w).2).
Proof.
  intros Hd Hl Hin. unfold mainThreadDocumentsAndEditors.dispose in Hin.
  destruct (Lifecycle.dispose _ _) as [ds t] eqn:Hdis. simpl in Hin.
  assert (t = (Lifecycle.dispose (mainThreadDocumentsAndEditors._toDispose this)
                 (mainThreadDocumentsAndEditors.listeners w)).2) as ->
    by by rewrite Hdis.
  apply elem_of_dispose_all in Hin as [_ Hin]. by apply (Hin d).
Qed.

(** [dispose] does not look at the per-editor registry: the registry is
    unchanged, and every listener that is not one of a top-level
    subscription stays registered. *)
Lemma dispose_keeps_editor_subscriptions
    (this : mainThreadDocumentsAndEditors.MainThreadDocumentAndEditorState)
    (w : mainThreadDocumentsAndEditors.World) :
  let r := mainThreadDocumentsAndEditors.dispose this w in
  mainThreadDocumentsAndEditors._toDisposeOnEditorRemove r.1 =
    mainThreadDocumentsAndEditors._toDisposeOnEditorRemove this
  ∧ ∀ l, l ∈ liveListeners (mainThreadDocumentsAndEditors.listeners w) →
         (∀ d, d ∈ mainThreadDocumentsAndEditors._toDispose this →
               l.1 ∉ unregisters d) →
         l ∈ liveListeners (mainThreadDocumentsAndEditors.listeners r.2).
Proof.
  intros r. subst r. unfold mainThreadDocumentsAndEditors.dispose.
  destruct (Lifecycle.dispose _ _) as [ds t] eqn:Hdis. simpl. split; [done|].
  intros l Hl Hd.
  assert (t = (Lifecycle.dispose (mainThreadDocumentsAndEditors._toDispose this)
                 (mainThreadDocumentsAndEditors.listeners w)).2) as ->
    by by rewrite Hdis.
  by apply elem_of_dispose_all.
Qed.

(** C3, after one editor-add cycle.  A tracker is constructed, one editor
    is added and the tracker is disposed: the four top-level listeners are
    gone, the three listeners of the editor's subscription are still
    registered, and the subscription is still in the per-editor
    registry. *)
Theorem dispose_leaves_editor_listeners :
  let st := mainThreadDocumentsAndEditors.raise sampleServices
              (mainThreadDocumentsAndEditors.CodeEditorAdd sampleEditor1)
              (mainThreadDocumentsAndEditors.newMainThreadDocumentAndEditorState
                 emptyWorld) in
  let r := mainThreadDocumentsAndEditors.dispose st.1 st.2 in
  liveListeners (mainThreadDocumentsAndEditors.listeners st.2) =
    [(0%nat, onModelAdded); (1%nat, onModelRemoved); (2%nat, onCodeEditorAdd);
     (3%nat, onCodeEditorRemove); (4%nat, onDidChangeModel 1);
     (5%nat, onDidFocusEditor 1); (6%nat, onDidBlurEditor 1)]
  ∧ liveListeners (mainThreadDocumentsAndEditors.listeners r.2) =
    [(4%nat, onDidChangeModel 1); (5%nat, onDidFocusEditor 1);
     (6%nat, onDidBlurEditor 1)]
  ∧ mainThreadDocumentsAndEditors._toDispose r.1 = []
  ∧ mainThreadDocumentsAndEditors._toDisposeOnEditorRemove r.1 !! "editor1" =
      Some (mkDisposable [4%nat; 5%nat; 6%nat]).
Proof. vm_compute. auto. Qed.

(** An editor-add cycle followed by the matching editor-remove cycle
    leaves no listener behind after [dispose]. *)
Example dispose_after_add_and_remove :
  let st := mainThreadDocumentsAndEditors.raiseAll
              [(sampleServices, mainThreadDocumentsAndEditors.CodeEditorAdd sampleEditor1);
               (noServices, mainThreadDocumentsAndEditors.CodeEditorRemove sampleEditor1)]
              (mainThreadDocumentsAndEditors.newMainThreadDocumentAndEditorState
                 emptyWorld) in
  liveListeners (mainThreadDocumentsAndEditors.listeners
                   (mainThreadDocumentsAndEditors.dispose st.1 st.2).2) = [].
Proof. vm_compute. reflexivity. Qed.

(** ** The dispatcher *)

Section dispatcher.
Import mainThreadDocumentsAndEditors.

Lemma addEditor_fold (l : list EditorAndModel) (st : DeltaRun) :
  let st' := fold_left addEditor l st in
  runAddedEditors st' = runAddedEditors st ++ (handleOf <$> l)
  ∧ runRemovedEditors st' = runRemovedEditors st
  ∧ runTrace st' = runTrace st ++ (ConstructEditor ∘ id <$> l)
  ∧ (∀ k, (∀ a, a ∈ l → id a ≠ k) → runEditors st' !! k = runEditors st !! k).
Proof.
  revert st. induction l as [|a l IH]; intros st; cbn [fold_left fmap list_fmap].
  { rewrite !app_nil_r. done. }
  destruct (IH (addEditor st a)) as (H1 & H2 & H3 & H4).
  cbn zeta. rewrite H1, H2, H3. cbn [addEditor runAddedEditors runRemovedEditors runTrace].
  rewrite <- !app_assoc. repeat split; try done.
  intros k Hk. rewrite H4.
  - cbn [addEditor runEditors]. apply lookup_insert_ne. apply Hk. by left.
  - intros a' Ha'. apply Hk. by right.
Qed.

Lemma removeEditor_untracked (st : DeltaRun) (x : EditorAndModel) :
  runEditors st !! id x = None → removeEditor st x = st.
Proof. intros Hx. unfold removeEditor. by rewrite Hx. Qed.

Lemma removeEditor_fold (l : list EditorAndModel) (st : DeltaRun) :
  let st' := fold_left removeEditor l st in
  ∃ ids,
    runRemovedEditors st' = runRemovedEditors st ++ ids
    ∧ runTrace st' = runTrace st ++ (DisposeEditor <$> ids)
    ∧ runAddedEditors st' = runAddedEditors st
    ∧ (∀ k, k ∈ ids → is_Some (runEditors st !! k))
    ∧ (∀ k, runEditors st !! k = None → runEditors st' !! k = None).
Proof.
  revert st. induction l as [|x l IH]; intros st; cbn [fold_left].
  { exists []. rewrite !app_nil_r. repeat split; try done.
    intros k Hk. by apply elem_of_nil in Hk. }
  destruct (IH (removeEditor st x)) as (ids & H1 & H2 & H3 & H4 & H5).
  cbn zeta. unfold removeEditor in *.
  destruct (runEditors st !! id x) as [h|] eqn:Hx.
  - exists (id x :: ids). cbn [runRemovedEditors runTrace runAddedEditors runEditors] in *.
    rewrite H1, H2, H3, <- !app_assoc. repeat split; try done.
    + intros k Hk. apply elem_of_cons in Hk as [->|Hk]; [by rewrite Hx|].
      apply H4 in Hk. destruct (decide (id x = k)) as [<-|Hne].
      * by rewrite lookup_delete_eq in Hk; destruct Hk.
      * by rewrite lookup_delete_ne in Hk.
    + intros k Hk. apply H5. destruct (decide (id x = k)) as [<-|Hne].
      * apply lookup_delete_eq.
      * by rewrite lookup_delete_ne.
  - exists ids. done.
Qed.

(** The trace of [_onDelta]: the handles of the added bindings are
    constructed, then the handles of the removed bindings are disposed,
    then the wire payload goes out, then the four local events. *)
Lemma _onDelta_trace (svc : Services) (delta : DocumentAndEditorStateDelta)
    (this : MainThreadDocumentsAndEditors) :
  ∃ removedIds,
    (_onDelta svc delta this).2 =
      (ConstructEditor ∘ id <$> addedEditors delta)
      ++ (DisposeEditor <$> removedIds)
      ++ [AcceptDocumentsAndEditorsDelta
            (mkWireDelta (newActiveEditor delta)
               (uri <$> removedDocuments delta)
               removedIds
               (_toModelAddData svc <$> addedDocuments delta)
               (_toTextEditorAddData svc <$> (handleOf <$> addedEditors delta)));
          FireTextEditorRemove removedIds;
          FireTextEditorAdd (handleOf <$> addedEditors delta);
          FireDocumentRemove (uri <$> removedDocuments delta);
          FireDocumentAdd (addedDocuments delta)]
    ∧ (∀ k, k ∈ removedIds →
            is_Some (_editors this !! k) ∨ k ∈ id <$> addedEditors delta)
    ∧ (∀ k, _editors this !! k = None → k ∉ (id <$> addedEditors delta) →
            _editors (_onDelta svc delta this).1 !! k = None).
Proof.
  unfold _onDelta. cbn [fst snd].
  destruct (addEditor_fold (addedEditors delta) (mkDeltaRun (_editors this) [] [] []))
    as (Ha1 & Ha2 & Ha3 & Ha4).
  destruct (removeEditor_fold (removedEditors delta)
              (fold_left addEditor (addedEditors delta)
                 (mkDeltaRun (_editors this) [] [] [])))
    as (ids & Hr1 & Hr2 & Hr3 & Hr4 & Hr5).
  cbn zeta in *. cbn [runAddedEditors runRemovedEditors runTrace runEditors] in *.
  exists ids. rewrite Hr1, Hr2, Hr3, Ha1, Ha2, Ha3. cbn [app].
  rewrite <- app_assoc. split; [done|]. split.
  - intros k Hk. apply Hr4 in Hk.
    destruct (decide (k ∈ id <$> addedEditors delta)) as [|Hnot]; [by right|left].
    rewrite Ha4 in Hk; [done|].
    intros a Ha Heq. apply Hnot. apply list_elem_of_fmap. eauto.
  - intros k Hk Hnot. apply Hr5. rewrite Ha4; [done|].
    intros a Ha Heq. apply Hnot. apply list_elem_of_fmap. eauto.
Qed.

(** The registry after the loop over [delta.addedEditors]. *)
Lemma addEditor_fold_lookup (l : list EditorAndModel) (st : DeltaRun) (k : string) :
  runEditors (fold_left addEditor l st) !! k =
    match last (filter (λ a, id a = k) l) with
    | Some a => Some (handleOf a)
    | None => runEditors st !! k
    end.
Proof.
  revert st. induction l as [|a l IH]; intros st; [done|].
  cbn [fold_left]. rewrite IH, filter_cons. cbn [addEditor runEditors].
  destruct (decide (id a = k)) as [Heq|Hne].
  - rewrite last_cons. destruct (last (filter _ l)); [done|].
    rewrite <- Heq. apply lookup_insert_eq.
  - destruct (last (filter _ l)); [done|]. by apply lookup_insert_ne.
Qed.

Lemma removeEditor_fold_ids (l : list EditorAndModel) (st : DeltaRun) :
  let st' := fold_left removeEditor l st in
  ∃ ids,
    runRemovedEditors st' = runRemovedEditors st ++ ids
    ∧ runTrace st' = runTrace st ++ (DisposeEditor <$> ids)
    ∧ NoDup ids
    ∧ (∀ k, k ∈ ids ↔ k ∈ id <$> l ∧ is_Some (runEditors st !! k))
    ∧ (∀ k, runEditors st' !! k =
            if decide (k ∈ id <$> l) then None else runEditors st !! k).
Proof.
  revert st. induction l as [|x l IH]; intros st; cbn [fold_left].
  { exists []. rewrite !app_nil_r. split; [done|]. split; [done|].
    split; [constructor|]. split; [|done].
    intros k. cbn [fmap list_fmap]. rewrite !elem_of_nil. tauto. }
  destruct (IH (removeEditor st x)) as (ids & H1 & H2 & H3 & H4 & H5).
  cbn zeta. unfold removeEditor in *.
  destruct (runEditors st !! id x) as [h|] eqn:Hx.
  - exists (id x :: ids).
    cbn [runRemovedEditors runTrace runAddedEditors runEditors] in *.
    rewrite H1, H2, <- !app_assoc.
    split; [done|]. split; [done|]. split; [|split].
    + apply NoDup_cons. split; [|done]. intros Hin. apply H4 in Hin as [_ Hin].
      rewrite lookup_delete_eq in Hin. by destruct Hin.
    + intros k. rewrite fmap_cons, !elem_of_cons, H4. split.
      * intros [->|[Hk Hsome]].
        -- split; [by left|]. by rewrite Hx.
        -- split; [by right|]. destruct (decide (id x = k)) as [<-|Hne].
           ++ by rewrite Hx.
           ++ by rewrite lookup_delete_ne in Hsome.
      * intros [[->|Hk] Hsome]; [by left|].
        destruct (decide (id x = k)) as [<-|Hne]; [by left|right].
        split; [done|]. by rewrite lookup_delete_ne.
    + intros k. rewrite H5, fmap_cons.
      destruct (decide (k ∈ id <$> l)) as [Hin|Hnin].
      * rewrite decide_True; [done|]. by right.
      * destruct (decide (k = id x)) as [->|Hne].
        -- rewrite decide_True by by left. apply lookup_delete_eq.
        -- rewrite decide_False; [by apply lookup_delete_ne|].
           rewrite elem_of_cons. tauto.
  - exists ids. split; [done|]. split; [done|]. split; [done|]. split.
    + intros k. rewrite fmap_cons, elem_of_cons, H4. split; [tauto|].
      intros [[->|Hk] Hsome]; [|done]. rewrite Hx in Hsome. by destruct Hsome.
    + intros k. rewrite H5, fmap_cons.
      destruct (decide (k ∈ id <$> l)) as [Hin|Hnin].
      * rewrite decide_True; [done|]. by right.
      * destruct (decide (k = id x)) as [->|Hne].
        -- rewrite decide_True by by left. done.
        -- rewrite decide_False; [done|]. rewrite elem_of_cons. tauto.
Qed.

Lemma added_ids_last (l : list EditorAndModel) (k : string) :
  k ∈ id <$> l ↔ is_Some (last (filter (λ a, id a = k) l)).
Proof.
  rewrite list_elem_of_fmap. split.
  - intros (a & -> & Ha).
    destruct (last (filter _ l)) eqn:Hlast; [by eexists|].
    apply last_None in Hlast.
    assert (a ∈ filter (λ a', id a' = id a) l) as Hin by by apply list_elem_of_filter.
    rewrite Hlast in Hin. by apply elem_of_nil in Hin.
  - intros [a Ha]. apply last_Some_elem_of, list_elem_of_filter in Ha as [<- Ha]. eauto.
Qed.

(** The ids that the loop over [delta.removedEditors] pushes come in the
    order of the removed bindings. *)
Lemma removeEditor_fold_sublist (l : list EditorAndModel) (st : DeltaRun) :
  ∃ ids,
    runRemovedEditors (fold_left removeEditor l st) = runRemovedEditors st ++ ids
    ∧ ids `sublist_of` (id <$> l).
Proof.
  revert st. induction l as [|x l IH]; intros st; cbn [fold_left].
  { exists []. by rewrite app_nil_r. }
  destruct (IH (removeEditor st x)) as (ids & H1 & H2).
  unfold removeEditor in *. destruct (runEditors st !! id x) as [h|].
  - exists (id x :: ids). cbn [runRemovedEditors] in H1.
    rewrite H1, <- app_assoc, fmap_cons. split; [done|]. by apply sublist_skip.
  - exists ids. rewrite fmap_cons. split; [done|]. by apply sublist_cons.
Qed.

(** When the removed bindings have pairwise different ids that all have
    a handle, every round of the loop disposes. *)
Lemma removeEditor_fold_all (l : list EditorAndModel) (st : DeltaRun) :
  NoDup (id <$> l) →
  (∀ a, a ∈ l → is_Some (runEditors st !! id a)) →
  runRemovedEditors (fold_left removeEditor l st) = runRemovedEditors st ++ (id <$> l)
  ∧ runTrace (fold_left removeEditor l st) =
      runTrace st ++ (DisposeEditor <$> (id <$> l)).
Proof.
  revert st. induction l as [|x l IH]; intros st Hnd Hall; cbn [fold_left].
  { by rewrite !app_nil_r. }
  rewrite fmap_cons in Hnd. apply NoDup_cons in Hnd as [Hx Hnd].
  destruct (Hall x) as [h Hh]; [by left|].
  destruct (IH (removeEditor st x) Hnd) as [H1 H2].
  - intros a Ha. unfold removeEditor. rewrite Hh. cbn [runEditors].
    rewrite lookup_delete_ne.
    + apply Hall. by right.
    + intros Heq. apply Hx. rewrite Heq. apply list_elem_of_fmap. eauto.
  - rewrite H1, H2. unfold removeEditor. rewrite Hh.
    cbn [runRemovedEditors runTrace]. by rewrite !fmap_cons, <- !app_assoc.
Qed.

End dispatcher.

(** C4, as stated, fails: for the delta that removes the first editor,
    which is not empty, the handle is disposed first and the wire payload
    and the local event go out afterwards. *)
Lemma removal_is_not_announced_before_disposal :
  mainThreadDocumentsAndEditors.isEmpty sampleRemoval = false
  ∧ (mainThreadDocumentsAndEditors._onDelta noServices sampleRemoval
       sampleDispatcher).2 !! 0%nat
    = Some (mainThreadDocumentsAndEditors.DisposeEditor "editor1,file:///a.txt")
  ∧ ¬ announcedBeforeDisposed
        (mainThreadDocumentsAndEditors._onDelta noServices sampleRemoval
           sampleDispatcher).2.
Proof.
  split; [reflexivity|]. split; [reflexivity|].
  intros Hclaim.
  destruct (Hclaim 0%nat "editor1,file:///a.txt" eq_refl) as [(j & data & Hlt & _) _].
  lia.
Qed.

(** C4, amended. [_onDelta] first constructs the handles of the added
    bindings and registers them, then disposes the registered handles of
    the removed bindings and deletes them from the registry, and only then
    sends the wire payload with the ids of the disposed handles, followed
    by the local events editor-removed, editor-added, document-removed and
    document-added.  The disposed handles are those of the removed
    bindings, each once and in the order of [delta.removedEditors], whose
    id was registered before or by the additions of the same delta.
    Afterwards the registry has no handle for the id of a removed binding;
    any other id has the handle constructed for the last added binding
    with this id, or else the handle it had before. *)
Theorem _onDelta_disposes_then_announces (svc : Services)
    (delta : mainThreadDocumentsAndEditors.DocumentAndEditorStateDelta)
    (this : mainThreadDocumentsAndEditors.MainThreadDocumentsAndEditors) :
  ∃ removedIds,
    (mainThreadDocumentsAndEditors._onDelta svc delta this).2 =
      (mainThreadDocumentsAndEditors.ConstructEditor
         ∘ mainThreadDocumentsAndEditors.id
         <$> mainThreadDocumentsAndEditors.addedEditors delta)
      ++ (mainThreadDocumentsAndEditors.DisposeEditor <$> removedIds)
      ++ [mainThreadDocumentsAndEditors.AcceptDocumentsAndEditorsDelta
            (mainThreadDocumentsAndEditors.mkWireDelta
               (mainThreadDocumentsAndEditors.newActiveEditor delta)
               (uri <$> mainThreadDocumentsAndEditors.removedDocuments delta)
               removedIds
               (mainThreadDocumentsAndEditors._toModelAddData svc
                  <$> mainThreadDocumentsAndEditors.addedDocuments delta)
               (mainThreadDocumentsAndEditors._toTextEditorAddData svc
                  <$> (handleOf <$> mainThreadDocumentsAndEditors.addedEditors delta)));
          mainThreadDocumentsAndEditors.FireTextEditorRemove removedIds;
          mainThreadDocumentsAndEditors.FireTextEditorAdd
            (handleOf <$> mainThreadDocumentsAndEditors.addedEditors delta);
          mainThreadDocumentsAndEditors.FireDocumentRemove
            (uri <$> mainThreadDocumentsAndEditors.removedDocuments delta);
          mainThreadDocumentsAndEditors.FireDocumentAdd
            (mainThreadDocumentsAndEditors.addedDocuments delta)]
    ∧ NoDup removedIds
    ∧ removedIds `sublist_of`
        (mainThreadDocumentsAndEditors.id
           <$> mainThreadDocumentsAndEditors.removedEditors delta)
    ∧ (∀ k, k ∈ removedIds ↔
         k ∈ mainThreadDocumentsAndEditors.id
               <$> mainThreadDocumentsAndEditors.removedEditors delta
         ∧ (is_Some (mainThreadDocumentsAndEditors._editors this !! k)
            ∨ k ∈ mainThreadDocumentsAndEditors.id
                    <$> mainThreadDocumentsAndEditors.addedEditors delta))
    ∧ (∀ k,
         mainThreadDocumentsAndEditors._editors
           (mainThreadDocumentsAndEditors._onDelta svc delta this).1 !! k =
           if decide (k ∈ mainThreadDocumentsAndEditors.id
                            <$> mainThreadDocumentsAndEditors.removedEditors delta)
           then None
           else match last (filter (λ a, mainThreadDocumentsAndEditors.id a = k)
                              (mainThreadDocumentsAndEditors.addedEditors delta)) with
                | Some a => Some (handleOf a)
                | None => mainThreadDocumentsAndEditors._editors this !! k
                end).
Proof.
  unfold mainThreadDocumentsAndEditors._onDelta. cbn [fst snd].
  set (st0 := mainThreadDocumentsAndEditors.mkDeltaRun
                (mainThreadDocumentsAndEditors._editors this) [] [] []).
  set (st1 := fold_left mainThreadDocumentsAndEditors.addEditor
                (mainThreadDocumentsAndEditors.addedEditors delta) st0).
  destruct (addEditor_fold (mainThreadDocumentsAndEditors.addedEditors delta) st0)
    as (Ha1 & Ha2 & Ha3 & _).
  destruct (removeEditor_fold (mainThreadDocumentsAndEditors.removedEditors delta) st1)
    as (ids & Hr1 & Hr2 & Hr3 & _ & _).
  destruct (removeEditor_fold_ids
              (mainThreadDocumentsAndEditors.removedEditors delta) st1)
    as (ids' & Hr1' & _ & Hnd & Hids & Hlookup).
  destruct (removeEditor_fold_sublist
              (mainThreadDocumentsAndEditors.removedEditors delta) st1)
    as (ids'' & Hr1'' & Hsub).
  cbn zeta in *. fold st1 in Ha1, Ha2, Ha3.
  assert (ids' = ids) as ->.
  { rewrite Hr1 in Hr1'. by apply app_inv_head in Hr1'. }
  assert (ids'' = ids) as ->.
  { rewrite Hr1 in Hr1''. by apply app_inv_head in Hr1''. }
  exists ids.
  cbn [mainThreadDocumentsAndEditors._editors].
  rewrite Hr1, Hr2, Hr3, Ha1, Ha2, Ha3. subst st0.
  cbn [mainThreadDocumentsAndEditors.runAddedEditors
       mainThreadDocumentsAndEditors.runRemovedEditors
       mainThreadDocumentsAndEditors.runTrace app].
  rewrite <- app_assoc.
  split; [done|]. split; [done|]. split; [done|]. split.
  - intros k. rewrite Hids. subst st1. rewrite addEditor_fold_lookup.
    cbn [mainThreadDocumentsAndEditors.runEditors].
    pose proof (added_ids_last (mainThreadDocumentsAndEditors.addedEditors delta) k)
      as Hadded.
    destruct (last (filter _ (mainThreadDocumentsAndEditors.addedEditors delta)))
      as [a|].
    + split; intros [? _]; (split; [done|]); [right; apply Hadded|]; by eexists.
    + split; [tauto|]. intros [? [?|Hin]]; [done|].
      apply Hadded in Hin as [? ?]. done.
  - intros k. rewrite Hlookup. destruct (decide _); [done|].
    subst st1. by rewrite addEditor_fold_lookup.
Qed.

(** C8. A removed binding whose id has no handle in the registry, and
    gets none from the additions of the same delta, is passed over:
    [_onDelta] returns, the registry still has no handle for the id, no
    handle with this id is disposed, and the id is neither in the
    [removedEditors] of the wire payload nor in the local editor-removed
    event. *)
Theorem untracked_removal_is_noop (svc : Services)
    (delta : mainThreadDocumentsAndEditors.DocumentAndEditorStateDelta)
    (this : mainThreadDocumentsAndEditors.MainThreadDocumentsAndEditors)
    (x : mainThreadDocumentsAndEditors.EditorAndModel) :
  x ∈ mainThreadDocumentsAndEditors.removedEditors delta →
  mainThreadDocumentsAndEditors._editors this
    !! mainThreadDocumentsAndEditors.id x = None →
  mainThreadDocumentsAndEditors.id x
    ∉ (mainThreadDocumentsAndEditors.id
         <$> mainThreadDocumentsAndEditors.addedEditors delta) →
  let r := mainThreadDocumentsAndEditors._onDelta svc delta this in
  mainThreadDocumentsAndEditors._editors r.1
    !! mainThreadDocumentsAndEditors.id x = None
  ∧ (mainThreadDocumentsAndEditors.DisposeEditor
       (mainThreadDocumentsAndEditors.id x) ∉ snd r)
  ∧ (∀ data,
       mainThreadDocumentsAndEditors.AcceptDocumentsAndEditorsDelta data ∈ r.2 →
       mainThreadDocumentsAndEditors.id x
         ∉ mainThreadDocumentsAndEditors.wireRemovedEditors data)
  ∧ (∀ ids,
       mainThreadDocumentsAndEditors.FireTextEditorRemove ids ∈ r.2 →
       mainThreadDocumentsAndEditors.id x ∉ ids).
Proof.
  intros _ Hnone Hnew r. subst r.
  destruct (_onDelta_trace svc delta this) as (ids & -> & Hids & Hkeep).
  assert (mainThreadDocumentsAndEditors.id x ∉ ids) as Hx.
  { intros Hin. apply Hids in Hin as [[h Hh]|Hin]; [congruence|done]. }
  split; [by apply Hkeep|].
  rewrite !elem_of_app, !list_elem_of_fmap.
  split; [|split].
  - intros [(a & Heq & _)|[(k & [= Heq] & Hk)|Hin]]; [done|congruence|].
    repeat (apply elem_of_cons in Hin as [Heq|Hin]; [done|]).
    by apply elem_of_nil in Hin.
  - intros data. rewrite !elem_of_app, !list_elem_of_fmap.
    intros [(a & Heq & _)|[(k & Heq & _)|Hin]]; [done|done|].
    apply elem_of_cons in Hin as [[= ->]|Hin]; [done|].
    repeat (apply elem_of_cons in Hin as [Heq|Hin]; [done|]).
    by apply elem_of_nil in Hin.
  - intros ids'. rewrite !elem_of_app, !list_elem_of_fmap.
    intros [(a & Heq & _)|[(k & Heq & _)|Hin]]; [done|done|].
    apply elem_of_cons in Hin as [Heq|Hin]; [done|].
    apply elem_of_cons in Hin as [[= ->]|Hin]; [done|].
    repeat (apply elem_of_cons in Hin as [Heq|Hin]; [done|]).
    by apply elem_of_nil in Hin.
Qed.

Lemma untracked_removal_is_noop_witness :
  let x := mainThreadDocumentsAndEditors.newEditorAndModel sampleEditor2 sampleDocA in
  let r := mainThreadDocumentsAndEditors._onDelta noServices sampleUntrackedRemoval
             sampleDispatcher in
  mainThreadDocumentsAndEditors._editors r.1
    !! mainThreadDocumentsAndEditors.id x = None
  ∧ (mainThreadDocumentsAndEditors.DisposeEditor
       (mainThreadDocumentsAndEditors.id x) ∉ snd r)
  ∧ (∀ data,
       mainThreadDocumentsAndEditors.AcceptDocumentsAndEditorsDelta data ∈ r.2 →
       mainThreadDocumentsAndEditors.id x
         ∉ mainThreadDocumentsAndEditors.wireRemovedEditors data)
  ∧ (∀ ids,
       mainThreadDocumentsAndEditors.FireTextEditorRemove ids ∈ r.2 →
       mainThreadDocumentsAndEditors.id x ∉ ids).
Proof.
  apply (untracked_removal_is_noop noServices sampleUntrackedRemoval sampleDispatcher
           (mainThreadDocumentsAndEditors.newEditorAndModel sampleEditor2 sampleDocA)).
  - apply list_elem_of_here.
  - reflexivity.
  - apply not_elem_of_nil.
Defined.

(** The trace of the untracked removal: nothing is disposed and the
    payload and the events carry no editor id. *)
Example untracked_removal_trace :
  (mainThreadDocumentsAndEditors._onDelta noServices sampleUntrackedRemoval
     sampleDispatcher).2 =
    [mainThreadDocumentsAndEditors.AcceptDocumentsAndEditorsDelta
       (mainThreadDocumentsAndEditors.mkWireDelta js_undefined [] [] [] []);
     mainThreadDocumentsAndEditors.FireTextEditorRemove [];
     mainThreadDocumentsAndEditors.FireTextEditorAdd [];
     mainThreadDocumentsAndEditors.FireDocumentRemove [];
     mainThreadDocumentsAndEditors.FireDocumentAdd []].
Proof. reflexivity. Qed.

(** ** The accepting side: documents *)

(** C9. Adding a document whose URI is already tracked throws, and
    removing a document whose URI is not tracked throws, each on its own
    and whatever else is tracked; in both cases the map of tracked
    documents is as it was and no event has been fired. *)
Theorem acceptModel_rejects_loudly (this : ExtHostDocuments.ExtHostDocuments)
    (initData : ExtHostDocuments.IModelAddedData) (strURL : string) :
  (is_Some (ExtHostDocuments._documentData this !! ExtHostDocuments.url initData) →
   ExtHostDocuments.acceptModelAdd initData this =
     Threw ("Document `" +:+ ExtHostDocuments.url initData +:+ "` already exists.")
           this [])
  ∧ (ExtHostDocuments._documentData this !! strURL = None →
     ExtHostDocuments.acceptModelRemoved strURL this =
       Threw ("Document `" +:+ strURL +:+ "` does not exist.") this []).
Proof.
  split.
  - intros Hadd. unfold ExtHostDocuments.acceptModelAdd.
    cbn [ExtHostDocuments.newExtHostDocumentData ExtHostDocuments.documentUri].
    by rewrite bool_decide_eq_true_2.
  - intros Hrem. unfold ExtHostDocuments.acceptModelRemoved. by rewrite Hrem.
Qed.

Lemma acceptModel_rejects_loudly_witness :
  (ExtHostDocuments.acceptModelAdd sampleModelAddedData sampleExtHostDocuments =
     Threw "Document `file:///a.txt` already exists." sampleExtHostDocuments []
   ∧ ExtHostDocuments.acceptModelRemoved "file:///b.txt" sampleExtHostDocuments =
     Threw "Document `file:///b.txt` does not exist." sampleExtHostDocuments [])
  ∧ ExtHostDocuments.acceptModelRemoved "file:///a.txt"
      (ExtHostDocuments.mkExtHostDocuments ∅) =
    Threw "Document `file:///a.txt` does not exist."
      (ExtHostDocuments.mkExtHostDocuments ∅) [].
Proof.
  split; [split|].
  - apply (acceptModel_rejects_loudly sampleExtHostDocuments sampleModelAddedData
             "file:///b.txt").
    vm_compute. eauto.
  - apply (acceptModel_rejects_loudly sampleExtHostDocuments sampleModelAddedData
             "file:///b.txt").
    reflexivity.
  - apply (acceptModel_rejects_loudly (ExtHostDocuments.mkExtHostDocuments ∅)
             sampleModelAddedData "file:///a.txt").
    reflexivity.
Defined.

(** On the other paths the calls return and the map changes. *)
Lemma acceptModelAdd_fresh (this : ExtHostDocuments.ExtHostDocuments)
    (initData : ExtHostDocuments.IModelAddedData) :
  ExtHostDocuments._documentData this !! ExtHostDocuments.url initData = None →
  ExtHostDocuments.acceptModelAdd initData this =
    Returned
      (ExtHostDocuments.mkExtHostDocuments
         (<[ExtHostDocuments.url initData :=
              ExtHostDocuments.newExtHostDocumentData initData]>
            (ExtHostDocuments._documentData this)))
      [ExtHostDocuments.FireDidAddDocument
         (ExtHostDocuments.newExtHostDocumentData initData)].
Proof.
  intros Hnone. unfold ExtHostDocuments.acceptModelAdd.
  cbn [ExtHostDocuments.newExtHostDocumentData ExtHostDocuments.documentUri].
  rewrite bool_decide_eq_false_2; [done|]. rewrite Hnone. by intros [? ?].
Qed.

Lemma acceptModelRemoved_tracked (this : ExtHostDocuments.ExtHostDocuments)
    (strURL : string) (data : ExtHostDocuments.ExtHostDocumentData) :
  ExtHostDocuments._documentData this !! strURL = Some data →
  ExtHostDocuments.acceptModelRemoved strURL this =
    Returned
      (ExtHostDocuments.mkExtHostDocuments
         (delete strURL (ExtHostDocuments._documentData this)))
      [ExtHostDocuments.FireDidRemoveDocument data;
       ExtHostDocuments.DisposeDocumentData data].
Proof. intros Hsome. unfold ExtHostDocuments.acceptModelRemoved. by rewrite Hsome. Qed.

(** ** The accepting side: editors *)

Section acceptTextEditorRemove.
Import ExtHostEditors.

Context (arrayEquals : list string → list string → bool).
Hypothesis arrayEquals_sound : ∀ one other, arrayEquals one other = true → one = other.

Lemma filter_ne_not_elem (id : string) (ids : list string) :
  id ∉ filter (λ visibleEditorId, visibleEditorId ≠ id) ids.
Proof. rewrite list_elem_of_filter. tauto. Qed.

(** What [$acceptActiveEditorAndVisibleEditors] leaves behind when it is
    called with a list that lacks [id] and with an active editor other
    than [id]. *)
Lemma acceptActiveEditorAndVisibleEditors_without (id : string) (active : JsId)
    (visibleIds : list string) (this : ExtHostEditors) :
  id ∉ visibleIds → active ≠ js_string id →
  let r := acceptActiveEditorAndVisibleEditors arrayEquals active visibleIds this in
  _editors r.1 = _editors this
  ∧ _visibleEditorIds r.1 = visibleIds
  ∧ _activeEditorId r.1 = active
  ∧ r.2 =
      (if arrayEquals (_visibleEditorIds this) visibleIds then []
       else [FireDidChangeVisibleTextEditors
               ((λ i, _editors this !! i) <$> visibleIds)])
      ++ (if strictEq (_activeEditorId this) active then []
          else [FireDidChangeActiveTextEditor
                  (editorsGet this active)]).
Proof.
  intros Hvis Hact r. subst r. unfold acceptActiveEditorAndVisibleEditors.
  cbn [fst snd].
  destruct (arrayEquals (_visibleEditorIds this) visibleIds) eqn:Heq;
    cbn [negb _editors _activeEditorId _visibleEditorIds];
    destruct (strictEq (_activeEditorId this) active) eqn:Hs;
    cbn [negb _editors _activeEditorId _visibleEditorIds];
    try apply strictEq_true in Hs; try apply arrayEquals_sound in Heq;
    repeat split; try done.
Qed.

(** C10. Removing a tracked editor returns; afterwards the id is not
    among the visible editor ids and is not the active editor id, which
    is [undefined] if the removed editor was active.  The events
    visible-editors-changed and active-editor-changed of this transition
    are fired, with the editor still in the map, before the editor is
    disposed and deleted from the map: the visible-editors event is fired
    if the editor was visible, the active-editor event if it was
    active. *)
Theorem acceptTextEditorRemove_tracked (this : ExtHostEditors) (id : string)
    (editor : ExtHostTextEditor) :
  _editors this !! id = Some editor →
  let newVisibleEditors :=
    filter (λ visibleEditorId, visibleEditorId ≠ id) (_visibleEditorIds this) in
  let wasActive := strictEq (_activeEditorId this) (js_string id) in
  let events :=
    (if arrayEquals (_visibleEditorIds this) newVisibleEditors then []
     else [FireDidChangeVisibleTextEditors
             ((λ i, _editors this !! i) <$> newVisibleEditors)])
    ++ (if wasActive then [FireDidChangeActiveTextEditor None] else []) in
  ∃ this',
    acceptTextEditorRemove arrayEquals id this =
      Returned this' (events ++ [DisposeTextEditor editor])
    ∧ (id ∉ _visibleEditorIds this')
    ∧ _activeEditorId this' ≠ js_string id
    ∧ (wasActive = true → _activeEditorId this' = js_undefined)
    ∧ _editors this' = delete id (_editors this)
    ∧ (id ∈ _visibleEditorIds this →
         FireDidChangeVisibleTextEditors
           ((λ i, _editors this !! i) <$> newVisibleEditors) ∈ events).
Proof.
  intros Htracked newVisibleEditors wasActive events.
  unfold acceptTextEditorRemove. fold newVisibleEditors. fold wasActive.
  pose proof (filter_ne_not_elem id (_visibleEditorIds this)) as Hvis.
  fold newVisibleEditors in Hvis.
  assert (id ∈ _visibleEditorIds this →
          arrayEquals (_visibleEditorIds this) newVisibleEditors = false) as Hchanged.
  { intros Hin. destruct (arrayEquals _ _) eqn:Heq; [|done].
    apply arrayEquals_sound in Heq. by rewrite Heq in Hin. }
  destruct wasActive eqn:Hwas; subst wasActive.
  - destruct (acceptActiveEditorAndVisibleEditors_without id js_undefined
                newVisibleEditors this Hvis) as (He & Hv & Ha & Hev); [done|].
    destruct (acceptActiveEditorAndVisibleEditors _ _ _ _) as [this1 evs].
    cbn [fst snd] in *. rewrite He, Htracked.
    apply strictEq_true in Hwas.
    assert (strictEq (_activeEditorId this) js_undefined = false) as Hne.
    { rewrite Hwas. done. }
    rewrite Hne in Hev. cbn [editorsGet] in Hev. subst evs events.
    eexists. split; [reflexivity|]. cbn [_visibleEditorIds _activeEditorId _editors].
    rewrite Hv, Ha. repeat split; try done.
    intros Hin. rewrite (Hchanged Hin). apply list_elem_of_here.
  - assert (_activeEditorId this ≠ js_string id) as Hne.
    { intros Heq. apply strictEq_true in Heq. congruence. }
    destruct (acceptActiveEditorAndVisibleEditors_without id (_activeEditorId this)
                newVisibleEditors this Hvis Hne) as (He & Hv & Ha & Hev).
    destruct (acceptActiveEditorAndVisibleEditors _ _ _ _) as [this1 evs].
    cbn [fst snd] in *. rewrite He, Htracked.
    rewrite strictEq_refl in Hev. subst evs events.
    eexists. split; [reflexivity|]. cbn [_visibleEditorIds _activeEditorId _editors].
    rewrite Hv, Ha. repeat split; try done.
    intros Hin. rewrite (Hchanged Hin). apply list_elem_of_here.
Qed.

End acceptTextEditorRemove.

Lemma acceptTextEditorRemove_tracked_witness :
  ∃ this',
    ExtHostEditors.acceptTextEditorRemove equalsStrict "e1" sampleExtHostEditors =
      Returned this'
        ([ExtHostEditors.FireDidChangeVisibleTextEditors
            [Some (ExtHostEditors.mkExtHostTextEditor "e2" "file:///a.txt" (Some 2))];
          ExtHostEditors.FireDidChangeActiveTextEditor None]
         ++ [ExtHostEditors.DisposeTextEditor
               (ExtHostEditors.mkExtHostTextEditor "e1" "file:///a.txt" (Some 1))])
    ∧ ("e1" ∉ ExtHostEditors._visibleEditorIds this')
    ∧ ExtHostEditors._activeEditorId this' ≠ js_string "e1"
    ∧ (true = true → ExtHostEditors._activeEditorId this' = js_undefined)
    ∧ ExtHostEditors._editors this' =
        delete "e1" (ExtHostEditors._editors sampleExtHostEditors)
    ∧ ("e1" ∈ ExtHostEditors._visibleEditorIds sampleExtHostEditors →
         ExtHostEditors.FireDidChangeVisibleTextEditors
           [Some (ExtHostEditors.mkExtHostTextEditor "e2" "file:///a.txt" (Some 2))]
         ∈ [ExtHostEditors.FireDidChangeVisibleTextEditors
              [Some (ExtHostEditors.mkExtHostTextEditor "e2" "file:///a.txt" (Some 2))];
            ExtHostEditors.FireDidChangeActiveTextEditor None]).
Proof.
  apply (acceptTextEditorRemove_tracked equalsStrict
           (λ one other, bool_decide_eq_true_1 (one = other))
           sampleExtHostEditors "e1"
           (ExtHostEditors.mkExtHostTextEditor "e1" "file:///a.txt" (Some 1))).
  reflexivity.
Defined.

(** Removing an editor that is not tracked throws, after the events. *)
Example acceptTextEditorRemove_untracked :
  ExtHostEditors.acceptTextEditorRemove equalsStrict "e3" sampleExtHostEditors =
    Threw "TypeError: Cannot read property 'dispose' of undefined"
      sampleExtHostEditors [].
Proof. vm_compute. reflexivity. Qed.

(** * Further properties of the code *)

(** ** The state tracker: recomputation *)

Lemma matchCandidate_not_undefined (c : ICommonCodeEditor)
    (bs : list mainThreadDocumentsAndEditors.EditorAndModel) (a : JsId) :
  a ≠ js_undefined →
  mainThreadDocumentsAndEditors.matchCandidate c bs a ≠ js_undefined.
Proof.
  intros Ha. induction bs as [|b bs IH]; simpl; [done|].
  by destruct (sameEditor c (mainThreadDocumentsAndEditors.editor b)).
Qed.

(** The active editor of a snapshot that [_updateState] builds is [null]
    or a string, never [undefined]. *)
Lemma newStateOf_activeEditor_not_undefined (svc : Services) :
  mainThreadDocumentsAndEditors.activeEditor
    (mainThreadDocumentsAndEditors.newStateOf svc) ≠ js_undefined.
Proof.
  rewrite newStateOf_eq.
  cbn [mainThreadDocumentsAndEditors.newDocumentAndEditorState
       mainThreadDocumentsAndEditors.activeEditor].
  unfold mainThreadDocumentsAndEditors.resolveActiveEditor.
  set (a := match last _ with Some b => _ | None => js_null end).
  assert (a ≠ js_undefined) as Ha by (subst a; by destruct (last _)).
  destruct (negb (truthy a)); [|done].
  destruct (getActiveEditor svc) as [wb|]; [|done].
  destruct (mainThreadDocumentsAndEditors.candidateOf _); [|done].
  by apply matchCandidate_not_undefined.
Qed.

(** A tracker that has no snapshot stored fires on its first
    recomputation, whatever the services list: the delta has nothing
    removed, all documents and bindings of the new snapshot added, no old
    active editor and the snapshot's active editor as the new one, and the
    snapshot is stored. *)
Theorem first_recomputation_always_fires (svc : Services)
    (this : mainThreadDocumentsAndEditors.MainThreadDocumentAndEditorState)
    (w : mainThreadDocumentsAndEditors.World) :
  mainThreadDocumentsAndEditors._currentState this = None →
  let s := mainThreadDocumentsAndEditors.newStateOf svc in
  mainThreadDocumentsAndEditors._updateState svc this w =
    (mainThreadDocumentsAndEditors.mkTracker
       (mainThreadDocumentsAndEditors._toDispose this)
       (mainThreadDocumentsAndEditors._toDisposeOnEditorRemove this)
       (Some s),
     mainThreadDocumentsAndEditors.mkWorld
       (mainThreadDocumentsAndEditors.listeners w)
       (mainThreadDocumentsAndEditors.fired w ++
        [mainThreadDocumentsAndEditors.mkDelta
           [] (mainThreadDocumentsAndEditors.documents s)
           [] (mainThreadDocumentsAndEditors.editors s)
           js_undefined (mainThreadDocumentsAndEditors.activeEditor s) false])).
Proof.
  intros Hnone s. unfold mainThreadDocumentsAndEditors._updateState.
  rewrite Hnone. fold s.
  cbn [mainThreadDocumentsAndEditors.compute
       mainThreadDocumentsAndEditors.newDocumentAndEditorStateDelta
       mainThreadDocumentsAndEditors.isEmpty].
  assert (strictEq js_undefined (mainThreadDocumentsAndEditors.activeEditor s) = false)
    as Hne.
  { apply bool_decide_eq_false_2. intros Heq.
    by apply (newStateOf_activeEditor_not_undefined svc). }
  rewrite Hne, !andb_false_r. cbn [negb].
  unfold mainThreadDocumentsAndEditors.newDocumentAndEditorStateDelta.
  by rewrite Hne, !andb_false_r.
Qed.

Lemma first_recomputation_always_fires_witness :
  let s := mainThreadDocumentsAndEditors.newStateOf sampleServices in
  mainThreadDocumentsAndEditors._updateState sampleServices
    (mainThreadDocumentsAndEditors.mkTracker [] ∅ None) emptyWorld =
    (mainThreadDocumentsAndEditors.mkTracker [] ∅ (Some s),
     mainThreadDocumentsAndEditors.mkWorld
       (mkListenerTable 0 [])
       ([] ++
        [mainThreadDocumentsAndEditors.mkDelta
           [] (mainThreadDocumentsAndEditors.documents s)
           [] (mainThreadDocumentsAndEditors.editors s)
           js_undefined (mainThreadDocumentsAndEditors.activeEditor s) false])).
Proof.
  apply (first_recomputation_always_fires sampleServices
           (mainThreadDocumentsAndEditors.mkTracker [] ∅ None) emptyWorld).
  reflexivity.
Defined.

(** Recomputing twice while the services list the same is the same as
    recomputing once: the second recomputation fires nothing and leaves
    the stored snapshot alone. *)
Theorem _updateState_idempotent (svc : Services)
    (this : mainThreadDocumentsAndEditors.MainThreadDocumentAndEditorState)
    (w : mainThreadDocumentsAndEditors.World) :
  let r := mainThreadDocumentsAndEditors._updateState svc this w in
  mainThreadDocumentsAndEditors._updateState svc r.1 r.2 = r.
Proof.
  cbn zeta.
  remember (mainThreadDocumentsAndEditors._updateState svc this w) as r eqn:Hr.
  unfold mainThreadDocumentsAndEditors._updateState in Hr.
  destruct (mainThreadDocumentsAndEditors.isEmpty _) eqn:He;
    cbn [negb] in Hr; subst r; cbn [fst snd].
  - unfold mainThreadDocumentsAndEditors._updateState. by rewrite He.
  - by apply _updateState_same_snapshot_is_silent.
Qed.

(** ** Empty deltas *)

Section delta_empty.
Context {T K : Type} `{EqDecision K}.
Context (key : T → K) (kcmp : K → K → Z) (cmp : T → T → Z).
Hypothesis cmp_key : ∀ x y, cmp x y = kcmp (key x) (key y).
Hypothesis kcmp_eq : ∀ a b, kcmp a b = 0 ↔ a = b.
Hypothesis kcmp_gt_lt : ∀ a b, 0 < kcmp a b ↔ kcmp b a < 0.
Hypothesis kcmp_lt_trans : ∀ a b c, kcmp a b < 0 → kcmp b c < 0 → kcmp a c < 0.

Lemma fmap_no_elem_nil {A B : Type} (f : A → B) (l : list A) :
  (∀ k, k ∉ f <$> l) → l = [].
Proof.
  destruct l as [|x l]; [done|]. intros Hk. exfalso.
  apply (Hk (f x)). rewrite fmap_cons. apply list_elem_of_here.
Qed.

(** Nothing is removed and nothing is added exactly when both sequences
    have the same keys. *)
Lemma delta_nothing_iff (b a : list T) :
  BaseArrays.strictlySorted cmp b = true →
  BaseArrays.strictlySorted cmp a = true →
  BaseArrays.removed (BaseArrays.delta cmp b a) = []
  ∧ BaseArrays.added (BaseArrays.delta cmp b a) = []
  ↔ ∀ k, k ∈ key <$> b ↔ k ∈ key <$> a.
Proof.
  intros Hb Ha.
  pose proof (delta_removed_keys key kcmp cmp cmp_key kcmp_eq kcmp_gt_lt
                kcmp_lt_trans b a Hb Ha) as Hrem.
  pose proof (delta_added_keys key kcmp cmp cmp_key kcmp_eq kcmp_gt_lt
                kcmp_lt_trans b a Hb Ha) as Hadd.
  split.
  - intros [Hr Hd] k. specialize (Hrem k). specialize (Hadd k).
    rewrite Hr in Hrem. rewrite Hd in Hadd. simpl in *.
    rewrite elem_of_nil in Hrem, Hadd.
    destruct (decide (k ∈ key <$> b)); destruct (decide (k ∈ key <$> a)); tauto.
  - intros Hsame. split; apply (fmap_no_elem_nil key); intros k Hk.
    + apply Hrem in Hk. specialize (Hsame k). tauto.
    + apply Hadd in Hk. specialize (Hsame k). tauto.
Qed.

End delta_empty.

Lemma list_to_set_eq_iff `{Countable K} (l1 l2 : list K) :
  list_to_set l1 =@{gset K} list_to_set l2 ↔ ∀ k, k ∈ l1 ↔ k ∈ l2.
Proof.
  rewrite set_eq. split; intros Hk k; specialize (Hk k);
    by rewrite !elem_of_list_to_set in *.
Qed.

(** For snapshots with strictly ascending sequences, the delta of
    [compute] is empty exactly when both snapshots have the same
    documents, the same editor bindings and the same active editor: a
    snapshot that [_updateState] discards differs in nothing from the
    stored one. *)
Theorem compute_empty_iff
    (A B : mainThreadDocumentsAndEditors.DocumentAndEditorState) :
  BaseArrays.strictlySorted mainThreadDocumentsAndEditors.cmp.compareModels
    (mainThreadDocumentsAndEditors.documents A) = true →
  BaseArrays.strictlySorted mainThreadDocumentsAndEditors.cmp.compareModels
    (mainThreadDocumentsAndEditors.documents B) = true →
  BaseArrays.strictlySorted mainThreadDocumentsAndEditors.cmp.compareEditors
    (mainThreadDocumentsAndEditors.editors A) = true →
  BaseArrays.strictlySorted mainThreadDocumentsAndEditors.cmp.compareEditors
    (mainThreadDocumentsAndEditors.editors B) = true →
  mainThreadDocumentsAndEditors.isEmpty
    (mainThreadDocumentsAndEditors.compute (Some A) B) = true
  ↔ documentSet (mainThreadDocumentsAndEditors.documents A) =
      documentSet (mainThreadDocumentsAndEditors.documents B)
    ∧ bindingSet (mainThreadDocumentsAndEditors.editors A) =
      bindingSet (mainThreadDocumentsAndEditors.editors B)
    ∧ mainThreadDocumentsAndEditors.activeEditor A =
      mainThreadDocumentsAndEditors.activeEditor B.
Proof.
  intros HdA HdB HeA HeB.
  unfold mainThreadDocumentsAndEditors.compute. rewrite isEmpty_iff.
  unfold documentSet, bindingSet. rewrite !list_to_set_eq_iff.
  pose proof (delta_nothing_iff documentKey BaseStrings.compare
                mainThreadDocumentsAndEditors.cmp.compareModels
                (λ _ _, eq_refl) compare_eq compare_gt_lt compare_lt_trans
                _ _ HdA HdB) as Hdocs.
  pose proof (delta_nothing_iff bindingKey comparePairs
                mainThreadDocumentsAndEditors.cmp.compareEditors
                (λ _ _, eq_refl) comparePairs_eq comparePairs_gt_lt
                comparePairs_lt_trans _ _ HeA HeB) as Heds.
  rewrite <- Hdocs, <- Heds.
  destruct (strictEq (mainThreadDocumentsAndEditors.activeEditor A)
              (mainThreadDocumentsAndEditors.activeEditor B)) eqn:Hact;
    cbn [negb].
  - apply strictEq_true in Hact. tauto.
  - assert (mainThreadDocumentsAndEditors.activeEditor A ≠
            mainThreadDocumentsAndEditors.activeEditor B) as Hne.
    { intros Heq. apply strictEq_true in Heq. congruence. }
    tauto.
Qed.

Lemma compute_empty_iff_witness :
  mainThreadDocumentsAndEditors.isEmpty
    (mainThreadDocumentsAndEditors.compute (Some sampleBefore) sampleAfter) = true
  ↔ documentSet (mainThreadDocumentsAndEditors.documents sampleBefore) =
      documentSet (mainThreadDocumentsAndEditors.documents sampleAfter)
    ∧ bindingSet (mainThreadDocumentsAndEditors.editors sampleBefore) =
      bindingSet (mainThreadDocumentsAndEditors.editors sampleAfter)
    ∧ mainThreadDocumentsAndEditors.activeEditor sampleBefore =
      mainThreadDocumentsAndEditors.activeEditor sampleAfter.
Proof. apply (compute_empty_iff sampleBefore sampleAfter); reflexivity. Defined.

(** ** The snapshot is sorted *)

Section sort_facts.
Context {T K : Type} `{EqDecision K}.
Context (key : T → K) (kcmp : K → K → Z) (cmp : T → T → Z).
Hypothesis cmp_key : ∀ x y, cmp x y = kcmp (key x) (key y).
Hypothesis kcmp_eq : ∀ a b, kcmp a b = 0 ↔ a = b.
Hypothesis kcmp_gt_lt : ∀ a b, 0 < kcmp a b ↔ kcmp b a < 0.

Lemma strictlySorted_cons (x : T) (l : list T) :
  BaseArrays.strictlySorted cmp (x :: l) = true ↔
  match l with [] => True | y :: _ => cmp x y < 0 end
  ∧ BaseArrays.strictlySorted cmp l = true.
Proof.
  destruct l as [|y l]; [done|].
  change (BaseArrays.strictlySorted cmp (x :: y :: l))
    with ((cmp x y <? 0) && BaseArrays.strictlySorted cmp (y :: l)).
  by rewrite andb_true_iff, Z.ltb_lt.
Qed.

(** Inserting an item whose key is new keeps a strictly ascending
    sequence strictly ascending. *)
Lemma sortInsert_strictlySorted (x : T) (l : list T) :
  key x ∉ key <$> l →
  BaseArrays.strictlySorted cmp l = true →
  BaseArrays.strictlySorted cmp (sortInsert cmp x l) = true.
Proof.
  induction l as [|y l IH]; intros Hx Hl; [done|].
  rewrite fmap_cons, not_elem_of_cons in Hx. destruct Hx as [Hxy Hx].
  cbn [sortInsert]. destruct (Z.ltb_spec 0 (cmp y x)) as [Hlt|Hge].
  - apply strictlySorted_cons. split; [|done].
    rewrite cmp_key. apply kcmp_gt_lt. by rewrite <- cmp_key.
  - assert (cmp y x < 0) as Hyx.
    { assert (cmp y x ≠ 0); [|lia]. rewrite cmp_key, kcmp_eq. congruence. }
    apply strictlySorted_cons in Hl as [Hhd Hl].
    apply strictlySorted_cons. split; [|by apply IH].
    destruct l as [|z l]; [done|]. cbn [sortInsert].
    by destruct (0 <? cmp z x).
Qed.

Lemma sortInsert_all_strictlySorted (r : list T) :
  NoDup (key <$> r) →
  BaseArrays.strictlySorted cmp (foldr (λ x acc, sortInsert cmp x acc) [] r) = true
  ∧ foldr (λ x acc, sortInsert cmp x acc) [] r ≡ₚ r.
Proof.
  induction r as [|x r IH]; intros Hnd; [done|].
  rewrite fmap_cons in Hnd. apply NoDup_cons in Hnd as [Hx Hnd].
  destruct (IH Hnd) as [Hs Hp]. cbn [foldr]. split.
  - apply sortInsert_strictlySorted; [|done]. by rewrite Hp.
  - by rewrite sortInsert_perm, Hp.
Qed.

(** Sorting items with pairwise different keys gives a strictly
    ascending sequence. *)
Lemma Array_sort_strictlySorted (l : list T) :
  NoDup (key <$> l) → BaseArrays.strictlySorted cmp (Array_sort cmp l) = true.
Proof.
  intros Hnd. unfold Array_sort. apply sortInsert_all_strictlySorted.
  by rewrite fmap_reverse, reverse_Permutation.
Qed.

End sort_facts.

Lemma filteredBindings_keys_NoDup (es : list ICommonCodeEditor) :
  NoDup (getId <$> es) → NoDup (bindingKey <$> omap bindingOf es).
Proof.
  induction es as [|e es IH]; intros Hnd; [constructor|].
  rewrite fmap_cons in Hnd. apply NoDup_cons in Hnd as [He Hnd].
  cbn [omap list_omap]. destruct (bindingOf e) as [b|] eqn:Hb; [|by apply IH].
  rewrite fmap_cons. apply NoDup_cons. split; [|by apply IH].
  intros Hin. apply He.
  apply list_elem_of_fmap in Hin as (b' & Hkey & Hb').
  apply list_elem_of_omap in Hb' as (e' & He' & Hbe').
  apply bindingOf_Some in Hb as (m & _ & _ & ->).
  apply bindingOf_Some in Hbe' as (m' & _ & _ & ->).
  injection Hkey as Hid _. rewrite Hid.
  apply list_elem_of_fmap. eauto.
Qed.

(** When the listed models have pairwise different URIs and the listed
    editors pairwise different ids, both sequences of the snapshot that
    [_updateState] builds are strictly ascending under their comparators:
    sorted and free of duplicates. *)
Theorem newStateOf_strictly_sorted (svc : Services) :
  NoDup (uri <$> getModels svc) →
  NoDup (getId <$> listCodeEditors svc) →
  let s := mainThreadDocumentsAndEditors.newStateOf svc in
  BaseArrays.strictlySorted mainThreadDocumentsAndEditors.cmp.compareModels
    (mainThreadDocumentsAndEditors.documents s) = true
  ∧ BaseArrays.strictlySorted mainThreadDocumentsAndEditors.cmp.compareEditors
      (mainThreadDocumentsAndEditors.editors s) = true.
Proof.
  intros Hmodels Heditors s. subst s. rewrite newStateOf_eq.
  cbn [mainThreadDocumentsAndEditors.newDocumentAndEditorState
       mainThreadDocumentsAndEditors.documents
       mainThreadDocumentsAndEditors.editors].
  split.
  - apply (Array_sort_strictlySorted documentKey BaseStrings.compare);
      [done|apply compare_eq|apply compare_gt_lt|].
    eapply sublist_NoDup; [exact Hmodels|].
    apply (fmap_sublist uri), sublist_filter.
  - apply (Array_sort_strictlySorted bindingKey comparePairs);
      [done|apply comparePairs_eq|apply comparePairs_gt_lt|].
    by apply filteredBindings_keys_NoDup.
Qed.

Lemma newStateOf_strictly_sorted_witness :
  let s := mainThreadDocumentsAndEditors.newStateOf sampleServices in
  BaseArrays.strictlySorted mainThreadDocumentsAndEditors.cmp.compareModels
    (mainThreadDocumentsAndEditors.documents s) = true
  ∧ BaseArrays.strictlySorted mainThreadDocumentsAndEditors.cmp.compareEditors
      (mainThreadDocumentsAndEditors.editors s) = true.
Proof.
  apply (newStateOf_strictly_sorted sampleServices);
    [apply (bool_decide_unpack (NoDup (uri <$> getModels sampleServices)))
    |apply (bool_decide_unpack (NoDup (getId <$> listCodeEditors sampleServices)))];
    by vm_compute.
Defined.

(** ** The state tracker: subscriptions *)

Section tracker_subscriptions.
Import mainThreadDocumentsAndEditors.

(** [_updateState] touches neither the listeners nor the subscriptions
    the tracker holds. *)
Lemma _updateState_frame (svc : Services)
    (this : MainThreadDocumentAndEditorState) (w : World) :
  let r := _updateState svc this w in
  listeners r.2 = listeners w
  ∧ _toDispose r.1 = _toDispose this
  ∧ _toDisposeOnEditorRemove r.1 = _toDisposeOnEditorRemove this.
Proof.
  cbn zeta. unfold _updateState. by destruct (negb (isEmpty _)).
Qed.

Lemma any_three (s1 s2 s3 : EventSource) (tbl : ListenerTable) :
  BaseEvent.any [s1; s2; s3] tbl =
    (mkDisposable [nextListener tbl; S (nextListener tbl); S (S (nextListener tbl))],
     mkListenerTable (S (S (S (nextListener tbl))))
       (liveListeners tbl ++
        [(nextListener tbl, s1); (S (nextListener tbl), s2);
         (S (S (nextListener tbl)), s3)])).
Proof.
  unfold BaseEvent.any, subscribe. cbn. by rewrite <- !app_assoc.
Qed.

(** What [_onDidAddEditor] does to the listeners and the registry. *)
Lemma _onDidAddEditor_effect (svc : Services) (e : ICommonCodeEditor)
    (this : MainThreadDocumentAndEditorState) (w : World) :
  let n := nextListener (listeners w) in
  let r := _onDidAddEditor svc e this w in
  listeners r.2 =
    mkListenerTable (S (S (S n)))
      (liveListeners (listeners w) ++
       [(n, onDidChangeModel (editorRef e)); (S n, onDidFocusEditor (editorRef e));
        (S (S n), onDidBlurEditor (editorRef e))])
  ∧ _toDispose r.1 = _toDispose this
  ∧ _toDisposeOnEditorRemove r.1 =
      <[getId e := mkDisposable [n; S n; S (S n)]]> (_toDisposeOnEditorRemove this).
Proof.
  cbn zeta. unfold _onDidAddEditor. rewrite any_three.
  match goal with |- context [_updateState svc ?t ?w'] =>
    destruct (_updateState_frame svc t w') as (-> & -> & ->) end.
  done.
Qed.

(** What [_onDidRemoveEditor] does when the registry has an entry. *)
Lemma _onDidRemoveEditor_effect (svc : Services) (e : ICommonCodeEditor)
    (this : MainThreadDocumentAndEditorState) (w : World) (sub : IDisposable) :
  _toDisposeOnEditorRemove this !! getId e = Some sub →
  let r := _onDidRemoveEditor svc e this w in
  listeners r.2 = disposeOne sub (listeners w)
  ∧ _toDispose r.1 = _toDispose this
  ∧ _toDisposeOnEditorRemove r.1 = delete (getId e) (_toDisposeOnEditorRemove this).
Proof.
  intros Hsub. cbn zeta. unfold _onDidRemoveEditor. rewrite Hsub.
  match goal with |- context [_updateState svc ?t ?w'] =>
    destruct (_updateState_frame svc t w') as (-> & -> & ->) end.
  done.
Qed.

Lemma filter_fresh_listeners (L : list (nat * EventSource)) (n : nat)
    (s1 s2 s3 : EventSource) :
  Forall (λ l, (l.1 < n)%nat) L →
  filter (λ l, l.1 ∉ [n; S n; S (S n)])
         (L ++ [(n, s1); (S n, s2); (S (S n), s3)]) = L.
Proof.
  intros HL. rewrite filter_app.
  assert (filter (λ l : nat * EventSource, l.1 ∉ [n; S n; S (S n)])
            [(n, s1); (S n, s2); (S (S n), s3)] = []) as ->.
  { rewrite !filter_cons, filter_nil. cbn [fst].
    rewrite !decide_False; [done|..]; intros Hn; apply Hn; set_solver. }
  rewrite app_nil_r. induction HL as [|l L Hl HL IH]; [done|].
  rewrite filter_cons, decide_True, IH; [done|].
  rewrite !not_elem_of_cons. repeat split; try lia. apply not_elem_of_nil.
Qed.

Lemma add_then_remove_releases_frame (svc1 svc2 : Services) (e : ICommonCodeEditor)
    (this : MainThreadDocumentAndEditorState) (w : World) :
  tableWellFormed (listeners w) →
  let r1 := _onDidAddEditor svc1 e this w in
  let r2 := _onDidRemoveEditor svc2 e r1.1 r1.2 in
  liveListeners (listeners r2.2) = liveListeners (listeners w)
  ∧ _toDisposeOnEditorRemove r2.1 = delete (getId e) (_toDisposeOnEditorRemove this).
Proof.
  intros Hwf. cbn zeta.
  destruct (_onDidAddEditor_effect svc1 e this w) as (Hl1 & Hd1 & Hr1).
  cbn zeta in *.
  destruct (_onDidRemoveEditor_effect svc2 e (_onDidAddEditor svc1 e this w).1
              (_onDidAddEditor svc1 e this w).2
              (mkDisposable [nextListener (listeners w);
                             S (nextListener (listeners w));
                             S (S (nextListener (listeners w)))]))
    as (Hl2 & Hd2 & Hr2).
  { rewrite Hr1. apply lookup_insert_eq. }
  cbn zeta in *. rewrite Hl2, Hr2, Hl1, Hr1. split.
  - unfold disposeOne. cbn [liveListeners unregisters].
    by apply filter_fresh_listeners.
  - apply delete_insert_eq.
Qed.

(** An editor-add followed by the editor-remove of the same editor leaves
    the listeners as they were and the registry without an entry for the
    editor; the top-level subscriptions are not touched. *)
Theorem add_then_remove_releases (svc1 svc2 : Services) (e : ICommonCodeEditor)
    (this : MainThreadDocumentAndEditorState) (w : World) :
  tableWellFormed (listeners w) →
  let r1 := _onDidAddEditor svc1 e this w in
  let r2 := _onDidRemoveEditor svc2 e r1.1 r1.2 in
  liveListeners (listeners r2.2) = liveListeners (listeners w)
  ∧ _toDisposeOnEditorRemove r2.1 = delete (getId e) (_toDisposeOnEditorRemove this)
  ∧ _toDispose r2.1 = _toDispose this.
Proof.
  intros Hwf. cbn zeta.
  destruct (add_then_remove_releases_frame svc1 svc2 e this w Hwf) as (Hl & Hr).
  split; [done|]. split; [done|].
  destruct (_onDidAddEditor_effect svc1 e this w) as (_ & Hd1 & Hr1).
  cbn zeta in *.
  destruct (_onDidRemoveEditor_effect svc2 e (_onDidAddEditor svc1 e this w).1
              (_onDidAddEditor svc1 e this w).2
              (mkDisposable [nextListener (listeners w);
                             S (nextListener (listeners w));
                             S (S (nextListener (listeners w)))]))
    as (_ & Hd2 & _).
  { rewrite Hr1. apply lookup_insert_eq. }
  cbn zeta in *. by rewrite Hd2.
Qed.

End tracker_subscriptions.

Lemma add_then_remove_releases_witness :
  let r1 := mainThreadDocumentsAndEditors._onDidAddEditor sampleServices
              sampleEditor1 (mainThreadDocumentsAndEditors.mkTracker [] ∅ None)
              emptyWorld in
  let r2 := mainThreadDocumentsAndEditors._onDidRemoveEditor noServices
              sampleEditor1 r1.1 r1.2 in
  liveListeners (mainThreadDocumentsAndEditors.listeners r2.2) =
    liveListeners (mainThreadDocumentsAndEditors.listeners emptyWorld)
  ∧ mainThreadDocumentsAndEditors._toDisposeOnEditorRemove r2.1 =
      delete (getId sampleEditor1) ∅
  ∧ mainThreadDocumentsAndEditors._toDispose r2.1 = [].
Proof.
  apply (add_then_remove_releases sampleServices noServices sampleEditor1
           (mainThreadDocumentsAndEditors.mkTracker [] ∅ None) emptyWorld).
  constructor.
Defined.

Section tracker_subscriptions_more.
Import mainThreadDocumentsAndEditors.

Lemma _onDidAddEditor_wellFormed (svc : Services) (e : ICommonCodeEditor)
    (this : MainThreadDocumentAndEditorState) (w : World) :
  tableWellFormed (listeners w) →
  tableWellFormed (listeners (_onDidAddEditor svc e this w).2).
Proof.
  intros Hwf. destruct (_onDidAddEditor_effect svc e this w) as (-> & _ & _).
  unfold tableWellFormed in *. cbn [liveListeners nextListener].
  apply Forall_app. split.
  - eapply Forall_impl; [exact Hwf|]. intros l Hl. simpl in *. lia.
  - repeat constructor; simpl; lia.
Qed.

(** The registry keeps one subscription per editor id and
    [_onDidAddEditor] overwrites the entry without disposing it: when the
    same editor is added twice and then removed, the registry has no entry
    for it any more, yet the three listeners of the first subscription are
    still registered. *)
Theorem second_add_leaks_first_subscription (svc1 svc2 svc3 : Services)
    (e : ICommonCodeEditor) (this : MainThreadDocumentAndEditorState) (w : World) :
  tableWellFormed (listeners w) →
  let n := nextListener (listeners w) in
  let r1 := _onDidAddEditor svc1 e this w in
  let r2 := _onDidAddEditor svc2 e r1.1 r1.2 in
  let r3 := _onDidRemoveEditor svc3 e r2.1 r2.2 in
  _toDisposeOnEditorRemove r3.1 !! getId e = None
  ∧ liveListeners (listeners r3.2) =
      liveListeners (listeners w) ++
      [(n, onDidChangeModel (editorRef e)); (S n, onDidFocusEditor (editorRef e));
       (S (S n), onDidBlurEditor (editorRef e))].
Proof.
  intros Hwf. cbn zeta.
  pose proof (_onDidAddEditor_wellFormed svc1 e this w Hwf) as Hwf1.
  destruct (add_then_remove_releases_frame svc2 svc3 e
              (_onDidAddEditor svc1 e this w).1 (_onDidAddEditor svc1 e this w).2 Hwf1)
    as (Hl & Hr).
  rewrite Hl, Hr. split; [apply lookup_delete_eq|].
  by destruct (_onDidAddEditor_effect svc1 e this w) as (-> & _ & _).
Qed.

End tracker_subscriptions_more.

Lemma second_add_leaks_first_subscription_witness :
  let r1 := mainThreadDocumentsAndEditors._onDidAddEditor sampleServices
              sampleEditor1 (mainThreadDocumentsAndEditors.mkTracker [] ∅ None)
              emptyWorld in
  let r2 := mainThreadDocumentsAndEditors._onDidAddEditor sampleServices
              sampleEditor1 r1.1 r1.2 in
  let r3 := mainThreadDocumentsAndEditors._onDidRemoveEditor noServices
              sampleEditor1 r2.1 r2.2 in
  mainThreadDocumentsAndEditors._toDisposeOnEditorRemove r3.1
    !! getId sampleEditor1 = None
  ∧ liveListeners (mainThreadDocumentsAndEditors.listeners r3.2) =
      [] ++
      [(0%nat, onDidChangeModel (editorRef sampleEditor1));
       (1%nat, onDidFocusEditor (editorRef sampleEditor1));
       (2%nat, onDidBlurEditor (editorRef sampleEditor1))].
Proof.
  apply (second_add_leaks_first_subscription sampleServices sampleServices noServices
           sampleEditor1 (mainThreadDocumentsAndEditors.mkTracker [] ∅ None)
           emptyWorld).
  constructor.
Defined.

Section tracker_dispose.
Import mainThreadDocumentsAndEditors.

Lemma constructor_topLevelOwned (w : World) :
  liveListeners (listeners w) = [] →
  topLevelOwned (newMainThreadDocumentAndEditorState w).
Proof.
  intros Hnone l. unfold newMainThreadDocumentAndEditorState, subscribe.
  cbn. rewrite Hnone. cbn. intros Hl _.
  repeat (apply elem_of_cons in Hl as [->|Hl];
          [eexists (mkDisposable [_]); split; [|apply list_elem_of_here];
           rewrite !elem_of_cons; tauto|]).
  by apply elem_of_nil in Hl.
Qed.

Lemma handlerOf_topLevelOwned (svc : Services) (s : Signal)
    (st : MainThreadDocumentAndEditorState * World) :
  topLevelOwned st → topLevelOwned (handlerOf svc s st).
Proof.
  intros Hst. destruct st as [this w].
  assert (topLevelOwned (_updateState svc this w)) as Hupd.
  { intros l. destruct (_updateState_frame svc this w) as (-> & -> & _). apply Hst. }
  destruct s; try exact Hupd; cbn [handlerOf fst snd].
  - intros l. destruct (_onDidAddEditor_effect svc e this w) as (-> & -> & _).
    cbn [liveListeners]. rewrite elem_of_app. intros [Hl|Hl]; [by apply Hst|].
    intros Htop. exfalso.
    repeat (apply elem_of_cons in Hl as [->|Hl]; [done|]). by apply elem_of_nil in Hl.
  - destruct (_toDisposeOnEditorRemove this !! getId e) as [sub|] eqn:Hsub.
    + intros l. destruct (_onDidRemoveEditor_effect svc e this w sub Hsub)
        as (-> & -> & _).
      rewrite elem_of_disposeOne. intros [Hl _]. by apply Hst.
    + unfold _onDidRemoveEditor. by rewrite Hsub.
Qed.

Lemma raise_topLevelOwned (svc : Services) (s : Signal)
    (st : MainThreadDocumentAndEditorState * World) :
  topLevelOwned st → topLevelOwned (raise svc s st).
Proof.
  intros Hst. unfold raise.
  induction (length _) as [|n IH]; [done|].
  cbn [Nat.iter]. by apply handlerOf_topLevelOwned.
Qed.

Lemma raiseAll_topLevelOwned (sigs : list (Services * Signal))
    (st : MainThreadDocumentAndEditorState * World) :
  topLevelOwned st → topLevelOwned (raiseAll sigs st).
Proof.
  revert st. induction sigs as [|[svc s] sigs IH]; intros st Hst; [done|].
  cbn [raiseAll fold_left]. apply IH. by apply raise_topLevelOwned.
Qed.

(** After [dispose] no signal of the model service or of the code editor
    service reaches the tracker any more, whatever signals it has seen
    since its construction: raising one changes nothing and fires
    nothing. *)
Theorem disposed_tracker_ignores_top_level_signals (w : World)
    (sigs : list (Services * Signal)) (svc : Services) (s : Signal) :
  liveListeners (listeners w) = [] →
  isTopLevel (sourceOf s) = true →
  let st := raiseAll sigs (newMainThreadDocumentAndEditorState w) in
  let r := dispose st.1 st.2 in
  raise svc s r = r.
Proof.
  intros Hnone Htop st r.
  assert (topLevelOwned st) as Hst
    by by apply raiseAll_topLevelOwned, constructor_topLevelOwned.
  unfold raise.
  destruct (filter (λ l, l.2 = sourceOf s) (liveListeners (listeners r.2)))
    as [|l rest] eqn:Hfilter; [done|]. exfalso.
  assert (l ∈ filter (λ l, l.2 = sourceOf s) (liveListeners (listeners r.2))) as Hin
    by (rewrite Hfilter; apply list_elem_of_here).
  apply list_elem_of_filter in Hin as [Heq Hl].
  pose proof (dispose_releases_top_level st.1 st.2) as Hrel.
  destruct (Hst l) as (d & Hd & Hld).
  - subst r. unfold dispose in Hl.
    destruct (Lifecycle.dispose _ _) as [ds t] eqn:Hdis. cbn [snd listeners] in Hl.
    assert (t = (Lifecycle.dispose (_toDispose st.1) (listeners st.2)).2) as ->
      by by rewrite Hdis.
    by apply elem_of_dispose_all in Hl as [Hl _].
  - by rewrite Heq.
  - by apply (Hrel d l Hd Hld).
Qed.

End tracker_dispose.

Lemma disposed_tracker_ignores_top_level_signals_witness :
  let st := mainThreadDocumentsAndEditors.raiseAll
              [(sampleServices, mainThreadDocumentsAndEditors.CodeEditorAdd sampleEditor1)]
              (mainThreadDocumentsAndEditors.newMainThreadDocumentAndEditorState
                 emptyWorld) in
  let r := mainThreadDocumentsAndEditors.dispose st.1 st.2 in
  mainThreadDocumentsAndEditors.raise noServices
    mainThreadDocumentsAndEditors.ModelRemoved r = r.
Proof.
  apply (disposed_tracker_ignores_top_level_signals emptyWorld
           [(sampleServices, mainThreadDocumentsAndEditors.CodeEditorAdd sampleEditor1)]
           noServices mainThreadDocumentsAndEditors.ModelRemoved);
    reflexivity.
Defined.

(** ** The state tracker without active-editor tracking *)

Section without_active.
Import mainThreadDocumentAndEditorState.

Lemma collectEditor_apiEditorOf (es : list ICommonCodeEditor) (acc : list ApiEditor) :
  fold_left collectEditor es acc = acc ++ omap apiEditorOf es.
Proof.
  revert acc. induction es as [|e es IH]; intros acc.
  { simpl. by rewrite app_nil_r. }
  cbn [fold_left omap list_omap]. rewrite IH.
  unfold collectEditor, apiEditorOf.
  destruct (getModel e) as [m|]; [|done].
  destruct (isTooLargeForHavingARichMode m); [done|].
  cbn [negb]. by rewrite <- app_assoc.
Qed.

Lemma newStateOf_without_active_eq (svc : Services) :
  newStateOf svc =
    newDocumentAndEditorState
      (filter (λ m, isTooLargeForHavingARichMode m = false) (getModels svc))
      (omap apiEditorOf (listCodeEditors svc)).
Proof.
  unfold newStateOf. by rewrite spliceTooLarge_filter, collectEditor_apiEditorOf.
Qed.

Lemma Array_sort_nil_iff {T : Type} (cmp : T → T → Z) (l : list T) :
  Array_sort cmp l = [] ↔ l = [].
Proof.
  split; [|by intros ->].
  intros Hnil. apply Permutation_nil_r. by rewrite <- Hnil, Array_sort_perm.
Qed.

Lemma filter_not_large_nil_iff (models : list IModel) :
  filter (λ m, isTooLargeForHavingARichMode m = false) models = [] ↔
  Forall (λ m, isTooLargeForHavingARichMode m = true) models.
Proof.
  induction models as [|m models IH]; [by split; [constructor|]|].
  rewrite filter_cons, Forall_cons.
  destruct (isTooLargeForHavingARichMode m) eqn:Hm.
  - rewrite decide_False by done. rewrite IH. tauto.
  - rewrite decide_True by done. split; [done|]. by intros [? _].
Qed.

Lemma omap_apiEditorOf_nil_iff (es : list ICommonCodeEditor) :
  omap apiEditorOf es = [] ↔
  Forall (λ e, ∀ m, getModel e = Some m → isTooLargeForHavingARichMode m = true) es.
Proof.
  induction es as [|e es IH]; [by split; [constructor|]|].
  cbn [omap list_omap]. rewrite Forall_cons. unfold apiEditorOf at 1.
  destruct (getModel e) as [m|] eqn:Hm.
  - destruct (isTooLargeForHavingARichMode m) eqn:Hl.
    + rewrite IH. split; [|tauto]. intros Hes. split; [|done]. by intros m' [= <-].
    + split; [done|]. intros [He _]. specialize (He m eq_refl). congruence.
  - rewrite IH. split; [|tauto]. intros Hes. by split.
Qed.

(** Without a stored snapshot, the tracker without active-editor tracking
    stays silent and stores nothing exactly when every listed model is too
    large and no listed editor shows a model that is not too large; in
    every other case it fires and stores the snapshot. *)
Theorem first_recomputation_without_active_silent_iff (svc : Services)
    (fs : list DocumentAndEditorStateDelta) :
  _updateState svc (None, fs) = (None, fs)
  ↔ Forall (λ m, isTooLargeForHavingARichMode m = true) (getModels svc)
    ∧ Forall (λ e, ∀ m, getModel e = Some m → isTooLargeForHavingARichMode m = true)
        (listCodeEditors svc).
Proof.
  rewrite <- filter_not_large_nil_iff, <- omap_apiEditorOf_nil_iff.
  unfold _updateState. rewrite newStateOf_without_active_eq.
  cbn [fst snd compute newDocumentAndEditorState documents editors
       newDocumentAndEditorStateDelta isEmpty length Nat.eqb andb].
  rewrite andb_true_r.
  destruct (Nat.eqb_spec (length (Array_sort cmp.compareModels
              (filter (λ m, isTooLargeForHavingARichMode m = false) (getModels svc)))) 0)
    as [Hd|Hd]; rewrite length_zero_iff_nil, Array_sort_nil_iff in Hd.
  - destruct (Nat.eqb_spec (length (Array_sort cmp.compareEditors
                (omap apiEditorOf (listCodeEditors svc)))) 0)
      as [He|He]; rewrite length_zero_iff_nil, Array_sort_nil_iff in He;
      cbn [andb negb].
    + tauto.
    + split; [done|tauto].
  - cbn [andb negb]. split; [done|tauto].
Qed.

End without_active.

(** ** The dispatcher: the registry of handles *)

Section dispatcher_registry.
Import mainThreadDocumentsAndEditors.

(** The registry after [_onDelta]: an id of a removed binding has no
    handle; any other id has the handle of the last added binding with
    this id, or the handle it had before when no such binding is added. *)
Theorem _onDelta_registry (svc : Services) (delta : DocumentAndEditorStateDelta)
    (this : MainThreadDocumentsAndEditors) (k : string) :
  _editors (_onDelta svc delta this).1 !! k =
    if decide (k ∈ id <$> removedEditors delta) then None
    else match last (filter (λ a, id a = k) (addedEditors delta)) with
         | Some a => Some (handleOf a)
         | None => _editors this !! k
         end.
Proof.
  unfold _onDelta. cbn [fst _editors].
  destruct (removeEditor_fold_ids (removedEditors delta)
              (fold_left addEditor (addedEditors delta)
                 (mkDeltaRun (_editors this) [] [] [])))
    as (ids & _ & _ & _ & _ & Hlookup).
  cbn zeta in Hlookup. rewrite Hlookup.
  destruct (decide _); [done|]. by rewrite addEditor_fold_lookup.
Qed.

End dispatcher_registry.

Section dispatcher_disposal.
Import mainThreadDocumentsAndEditors.

Lemma disposedIn_app (t1 t2 : list Effect) :
  disposedIn (t1 ++ t2) = disposedIn t1 ++ disposedIn t2.
Proof. apply omap_app. Qed.

Lemma disposedIn_construct (l : list EditorAndModel) :
  disposedIn (ConstructEditor ∘ id <$> l) = [].
Proof. induction l as [|a l IH]; [done|]. by rewrite fmap_cons. Qed.

Lemma disposedIn_dispose (ids : list string) :
  disposedIn (DisposeEditor <$> ids) = ids.
Proof.
  induction ids as [|k ids IH]; [done|].
  rewrite fmap_cons. unfold disposedIn in *. cbn [omap list_omap]. by rewrite IH.
Qed.

Lemma reportedRemovedIn_app (t1 t2 : list Effect) :
  reportedRemovedIn (t1 ++ t2) = reportedRemovedIn t1 ++ reportedRemovedIn t2.
Proof. unfold reportedRemovedIn. by rewrite omap_app, join_app. Qed.

Lemma reportedRemovedIn_construct (l : list EditorAndModel) :
  reportedRemovedIn (ConstructEditor ∘ id <$> l) = [].
Proof. induction l as [|a l IH]; [done|]. by rewrite fmap_cons. Qed.

Lemma reportedRemovedIn_dispose (ids : list string) :
  reportedRemovedIn (DisposeEditor <$> ids) = [].
Proof. induction ids as [|k ids IH]; [done|]. by rewrite fmap_cons. Qed.

(** The trace of [_onDelta] with the ids of the disposed handles made
    explicit. *)
Lemma _onDelta_disposed (svc : Services) (delta : DocumentAndEditorStateDelta)
    (this : MainThreadDocumentsAndEditors) :
  let trace := (_onDelta svc delta this).2 in
  NoDup (disposedIn trace)
  ∧ reportedRemovedIn trace = disposedIn trace
  ∧ ∀ k, k ∈ disposedIn trace ↔
         k ∈ id <$> removedEditors delta
         ∧ (is_Some (_editors this !! k) ∨ k ∈ id <$> addedEditors delta).
Proof.
  cbn zeta. unfold _onDelta. cbn [snd].
  destruct (addEditor_fold (addedEditors delta) (mkDeltaRun (_editors this) [] [] []))
    as (_ & Ha2 & Ha3 & _).
  destruct (removeEditor_fold_ids (removedEditors delta)
              (fold_left addEditor (addedEditors delta)
                 (mkDeltaRun (_editors this) [] [] [])))
    as (ids & Hr1 & Hr2 & Hnd & Hids & _).
  cbn zeta in *. cbn [runRemovedEditors runTrace] in *.
  rewrite Hr1, Hr2, Ha2, Ha3. cbn [app].
  rewrite !disposedIn_app, !reportedRemovedIn_app, disposedIn_construct,
    disposedIn_dispose, reportedRemovedIn_construct, reportedRemovedIn_dispose.
  cbn. rewrite !app_nil_r.
  split; [done|]. split; [done|].
  intros k. rewrite Hids, addEditor_fold_lookup. cbn [runEditors].
  pose proof (added_ids_last (addedEditors delta) k) as Hadded.
  destruct (last (filter _ (addedEditors delta))) as [a|].
  - split; intros [? _]; (split; [done|]); [right; apply Hadded|]; by eexists.
  - split; [tauto|]. intros [? [?|Hin]]; [done|].
    apply Hadded in Hin as [? ?]. done.
Qed.

(** Within one delta no handle is disposed twice, also when the removed
    bindings name an id more than once; the ids the wire payload reports
    as removed are exactly the ids of the disposed handles; and a handle is
    disposed exactly for the ids of removed bindings that were registered
    before or are added by the same delta. *)
Theorem _onDelta_disposes_once (svc : Services) (delta : DocumentAndEditorStateDelta)
    (this : MainThreadDocumentsAndEditors) :
  let trace := (_onDelta svc delta this).2 in
  NoDup (disposedIn trace)
  ∧ reportedRemovedIn trace = disposedIn trace
  ∧ ∀ k, k ∈ disposedIn trace ↔
         k ∈ id <$> removedEditors delta
         ∧ (is_Some (_editors this !! k) ∨ k ∈ id <$> addedEditors delta).
Proof. apply _onDelta_disposed. Qed.

Lemma constructedIn_app (t1 t2 : list Effect) :
  constructedIn (t1 ++ t2) = constructedIn t1 ++ constructedIn t2.
Proof. apply omap_app. Qed.

Lemma constructedIn_construct (l : list EditorAndModel) :
  constructedIn (ConstructEditor ∘ id <$> l) = id <$> l.
Proof.
  induction l as [|a l IH]; [done|].
  rewrite !fmap_cons. unfold constructedIn in *. cbn [omap list_omap compose].
  by rewrite IH.
Qed.

Lemma NoDup_fmap_elem_inj {A B : Type} (f : A → B) (l : list A) (x y : A) :
  NoDup (f <$> l) → x ∈ l → y ∈ l → f x = f y → x = y.
Proof.
  induction l as [|z l IH]; intros Hnd Hx Hy Heq; [by apply elem_of_nil in Hx|].
  rewrite fmap_cons in Hnd. apply NoDup_cons in Hnd as [Hz Hnd].
  apply elem_of_cons in Hx as [->|Hx]; apply elem_of_cons in Hy as [->|Hy].
  - done.
  - exfalso. apply Hz. rewrite Heq. apply list_elem_of_fmap. eauto.
  - exfalso. apply Hz. rewrite <- Heq. apply list_elem_of_fmap. eauto.
  - by apply IH.
Qed.

(** The registry after a delta that only adds bindings with pairwise
    different ids: every one of them has its handle. *)
Lemma addingDelta_registers (svc : Services) (l : list EditorAndModel)
    (this : MainThreadDocumentsAndEditors) (a : EditorAndModel) :
  NoDup (id <$> l) → a ∈ l →
  _editors (_onDelta svc (addingDelta l) this).1 !! id a = Some (handleOf a).
Proof.
  intros Hnd Ha. unfold _onDelta. cbn [fst _editors addingDelta
    newDocumentAndEditorStateDelta removedEditors addedEditors fold_left].
  rewrite addEditor_fold_lookup. cbn [runEditors].
  destruct (last (filter _ l)) as [a'|] eqn:Hlast.
  - apply last_Some_elem_of, list_elem_of_filter in Hlast as [Heq Ha'].
    by rewrite (NoDup_fmap_elem_inj id l a' a Hnd Ha' Ha Heq).
  - exfalso. apply last_None in Hlast.
    assert (a ∈ filter (λ a', id a' = id a) l) as Hin by by apply list_elem_of_filter.
    rewrite Hlast in Hin. by apply elem_of_nil in Hin.
Qed.

(** A delta that adds bindings with pairwise different ids that have no
    handle, followed by a delta that removes the same bindings: the first
    constructs one handle for each binding and registers it under the
    binding's id; the second disposes exactly these handles, each once and
    in the same order, and brings the registry back to what it was. *)
Theorem add_then_remove_restores_registry (svc1 svc2 : Services)
    (l : list EditorAndModel) (this : MainThreadDocumentsAndEditors) :
  NoDup (id <$> l) →
  (∀ a, a ∈ l → _editors this !! id a = None) →
  let r1 := _onDelta svc1 (addingDelta l) this in
  let r2 := _onDelta svc2 (removingDelta l) r1.1 in
  constructedIn r1.2 = id <$> l
  ∧ (∀ a, a ∈ l → _editors r1.1 !! id a = Some (handleOf a))
  ∧ disposedIn r2.2 = id <$> l
  ∧ r2.1 = this.
Proof.
  intros Hnd Hfresh. cbn zeta. split; [|split; [|split]].
  - unfold _onDelta. cbn [snd addingDelta newDocumentAndEditorStateDelta
      removedEditors addedEditors fold_left].
    destruct (addEditor_fold l (mkDeltaRun (_editors this) [] [] []))
      as (_ & _ & Ha3 & _).
    cbn zeta in Ha3. rewrite Ha3. cbn [runTrace app].
    rewrite constructedIn_app, constructedIn_construct. cbn. by rewrite app_nil_r.
  - intros a Ha. by apply addingDelta_registers.
  - unfold _onDelta at 1. cbn [snd removingDelta newDocumentAndEditorStateDelta
      removedEditors addedEditors fold_left].
    destruct (removeEditor_fold_all l
                (mkDeltaRun (_editors (_onDelta svc1 (addingDelta l) this).1) [] [] [])
                Hnd) as [_ Htrace].
    { intros a Ha. cbn [runEditors]. rewrite addingDelta_registers by done. by eexists. }
    rewrite Htrace. cbn [runTrace app].
    rewrite disposedIn_app, disposedIn_dispose. cbn. by rewrite app_nil_r.
  - destruct this as [R]. unfold _onDelta at 1. cbn [fst]. f_equal.
    apply map_eq. intros k.
    destruct (removeEditor_fold_ids (removedEditors (removingDelta l))
                (fold_left addEditor (addedEditors (removingDelta l))
                   (mkDeltaRun (_editors (_onDelta svc1 (addingDelta l)
                                            (mkDispatcher R)).1) [] [] [])))
      as (ids & _ & _ & _ & _ & Hlookup).
    cbn zeta in Hlookup. rewrite Hlookup. cbn [removingDelta
      newDocumentAndEditorStateDelta removedEditors addedEditors fold_left runEditors].
    destruct (decide (k ∈ id <$> l)) as [Hin|Hnin].
    + apply list_elem_of_fmap in Hin as (a & -> & Ha). symmetry. by apply (Hfresh a).
    + unfold _onDelta. cbn [fst _editors addingDelta newDocumentAndEditorStateDelta
        removedEditors addedEditors fold_left].
      rewrite addEditor_fold_lookup. cbn [runEditors].
      destruct (last (filter _ l)) as [a|] eqn:Hlast; [|done].
      exfalso. apply Hnin, added_ids_last. by eexists.
Qed.

End dispatcher_disposal.

Lemma add_then_remove_restores_registry_witness :
  let l := [mainThreadDocumentsAndEditors.newEditorAndModel sampleEditor2 sampleDocA;
            mainThreadDocumentsAndEditors.newEditorAndModel sampleEditor2 sampleDocB] in
  let r1 := mainThreadDocumentsAndEditors._onDelta sampleServices (addingDelta l)
              sampleDispatcher in
  let r2 := mainThreadDocumentsAndEditors._onDelta noServices (removingDelta l) r1.1 in
  constructedIn r1.2 = mainThreadDocumentsAndEditors.id <$> l
  ∧ (∀ a, a ∈ l →
       mainThreadDocumentsAndEditors._editors r1.1
         !! mainThreadDocumentsAndEditors.id a = Some (handleOf a))
  ∧ disposedIn r2.2 = mainThreadDocumentsAndEditors.id <$> l
  ∧ r2.1 = sampleDispatcher.
Proof.
  apply (add_then_remove_restores_registry sampleServices noServices
           [mainThreadDocumentsAndEditors.newEditorAndModel sampleEditor2 sampleDocA;
            mainThreadDocumentsAndEditors.newEditorAndModel sampleEditor2 sampleDocB]
           sampleDispatcher).
  - apply (bool_decide_unpack
             (NoDup (mainThreadDocumentsAndEditors.id
                       <$> [mainThreadDocumentsAndEditors.newEditorAndModel
                              sampleEditor2 sampleDocA;
                            mainThreadDocumentsAndEditors.newEditorAndModel
                              sampleEditor2 sampleDocB]))).
    by vm_compute.
  - intros a Ha. apply elem_of_cons in Ha as [->|Ha]; [reflexivity|].
    apply list_elem_of_singleton in Ha as ->. reflexivity.
Defined.

(** ** The accepting side: more about documents *)

(** A document that is added under a new URL can be looked up, cannot be
    added a second time, and is gone after its removal, which brings the
    map back to what it was before the add. *)
Theorem add_then_remove_document (this : ExtHostDocuments.ExtHostDocuments)
    (initData other : ExtHostDocuments.IModelAddedData) :
  ExtHostDocuments._documentData this !! ExtHostDocuments.url initData = None →
  ExtHostDocuments.url other = ExtHostDocuments.url initData →
  let data := ExtHostDocuments.newExtHostDocumentData initData in
  ∃ this1,
    ExtHostDocuments.acceptModelAdd initData this =
      Returned this1 [ExtHostDocuments.FireDidAddDocument data]
    ∧ ExtHostDocumentsCalls.getDocumentData
        (Some (ExtHostDocuments.url initData)) this1 = Some data
    ∧ threw (ExtHostDocuments.acceptModelAdd other this1) = true
    ∧ stateOf (ExtHostDocuments.acceptModelAdd other this1) = this1
    ∧ ExtHostDocuments.acceptModelRemoved (ExtHostDocuments.url initData) this1 =
        Returned this [ExtHostDocuments.FireDidRemoveDocument data;
                       ExtHostDocuments.DisposeDocumentData data].
Proof.
  intros Hfresh Hother data. eexists. split; [by apply acceptModelAdd_fresh|].
  cbn [ExtHostDocumentsCalls.getDocumentData ExtHostDocuments._documentData].
  split; [apply lookup_insert_eq|].
  unfold ExtHostDocuments.acceptModelAdd, ExtHostDocuments.acceptModelRemoved.
  cbn [ExtHostDocuments.newExtHostDocumentData ExtHostDocuments.documentUri
       ExtHostDocuments._documentData].
  rewrite Hother, lookup_insert_eq, bool_decide_eq_true_2 by by eexists.
  split; [done|]. split; [done|].
  destruct this as [m]. cbn [ExtHostDocuments._documentData] in *.
  by rewrite delete_insert_id.
Qed.

Lemma add_then_remove_document_witness :
  let initData :=
    ExtHostDocuments.mkModelAddedData "file:///b.txt" ["beta"] "\n" "plaintext" 1 false in
  let data := ExtHostDocuments.newExtHostDocumentData initData in
  ∃ this1,
    ExtHostDocuments.acceptModelAdd initData sampleExtHostDocuments =
      Returned this1 [ExtHostDocuments.FireDidAddDocument data]
    ∧ ExtHostDocumentsCalls.getDocumentData
        (Some (ExtHostDocuments.url initData)) this1 = Some data
    ∧ threw (ExtHostDocuments.acceptModelAdd initData this1) = true
    ∧ stateOf (ExtHostDocuments.acceptModelAdd initData this1) = this1
    ∧ ExtHostDocuments.acceptModelRemoved (ExtHostDocuments.url initData) this1 =
        Returned sampleExtHostDocuments
          [ExtHostDocuments.FireDidRemoveDocument data;
           ExtHostDocuments.DisposeDocumentData data].
Proof.
  apply (add_then_remove_document sampleExtHostDocuments
           (ExtHostDocuments.mkModelAddedData "file:///b.txt" ["beta"] "\n"
              "plaintext" 1 false)
           (ExtHostDocuments.mkModelAddedData "file:///b.txt" ["beta"] "\n"
              "plaintext" 1 false));
    reflexivity.
Defined.

Section accept_calls.
Import ExtHostDocuments ExtHostDocumentsCalls.
Context (_acceptLanguageId : string → ExtHostDocumentData → ExtHostDocumentData).
Context (_acceptIsDirty : bool → ExtHostDocumentData → ExtHostDocumentData).
Context (onEvents : list ChangeEvent → ExtHostDocumentData → ExtHostDocumentData).
Context (toRange : IRange → IRange).

(** The calls that update a tracked document throw exactly when the URL is
    not tracked, before any event is fired and with the map as it was; and
    whether they throw or return, the set of tracked URLs stays the
    same. *)
Theorem update_calls_keep_tracked_urls (strURL oldModeId newModeId : string)
    (events : list ChangeEvent) (isDirty : bool) (this : ExtHostDocuments) :
  Forall
    (λ o : Outcome ExtHostDocuments ExtHostDocumentsCalls.Effect,
       dom (_documentData (stateOf o)) = dom (_documentData this)
       ∧ (threw o = true ↔ _documentData this !! strURL = None)
       ∧ (threw o = true → stateOf o = this ∧ traceOf o = []))
    [acceptModelModeChanged _acceptLanguageId strURL oldModeId newModeId this;
     acceptModelSaved _acceptIsDirty strURL this;
     acceptModelDirty _acceptIsDirty strURL this;
     acceptModelReverted _acceptIsDirty strURL this;
     acceptModelChanged _acceptIsDirty onEvents toRange strURL events isDirty this].
Proof.
  unfold acceptModelModeChanged, acceptModelSaved, acceptModelDirty,
    acceptModelReverted, acceptModelChanged.
  destruct (_documentData this !! strURL) as [data|] eqn:Hdata.
  - assert (∀ d, dom (<[strURL := d]> (_documentData this)) = dom (_documentData this))
      as Hdom.
    { intros d. apply dom_insert_lookup_L. by eexists. }
    repeat constructor; cbn [stateOf threw traceOf store _documentData];
      try apply Hdom; done.
  - repeat constructor; done.
Qed.

(** None of the accepting calls changes what is tracked under another
    URL. *)
Theorem accept_calls_keep_other_documents (strURL otherURL oldModeId newModeId : string)
    (initData : IModelAddedData) (events : list ChangeEvent) (isDirty : bool)
    (this : ExtHostDocuments) :
  otherURL ≠ strURL →
  url initData = strURL →
  Forall (λ this', getDocumentData (Some otherURL) this' =
                   getDocumentData (Some otherURL) this)
    [stateOf (acceptModelAdd initData this);
     stateOf (acceptModelRemoved strURL this);
     stateOf (acceptModelModeChanged _acceptLanguageId strURL oldModeId newModeId this);
     stateOf (acceptModelSaved _acceptIsDirty strURL this);
     stateOf (acceptModelDirty _acceptIsDirty strURL this);
     stateOf (acceptModelReverted _acceptIsDirty strURL this);
     stateOf (acceptModelChanged _acceptIsDirty onEvents toRange strURL events
                isDirty this)].
Proof.
  intros Hne Hurl.
  unfold acceptModelAdd, acceptModelRemoved, acceptModelModeChanged, acceptModelSaved,
    acceptModelDirty, acceptModelReverted, acceptModelChanged.
  cbn [newExtHostDocumentData documentUri]. rewrite Hurl.
  destruct (_documentData this !! strURL) as [data|] eqn:Hdata.
  - rewrite bool_decide_eq_true_2 by by eexists.
    repeat constructor; cbn [stateOf store getDocumentData _documentData];
      try done; try (by apply lookup_insert_ne); by apply lookup_delete_ne.
  - rewrite bool_decide_eq_false_2 by by intros [? ?].
    repeat constructor; cbn [stateOf store getDocumentData _documentData];
      try done; by apply lookup_insert_ne.
Qed.

End accept_calls.

Lemma accept_calls_keep_other_documents_witness :
  Forall (λ this', ExtHostDocumentsCalls.getDocumentData (Some "file:///a.txt") this' =
                   ExtHostDocumentsCalls.getDocumentData (Some "file:///a.txt")
                     sampleExtHostDocuments)
    [stateOf (ExtHostDocuments.acceptModelAdd
                (ExtHostDocuments.mkModelAddedData "file:///b.txt" [] "\n" "plaintext"
                   1 false) sampleExtHostDocuments);
     stateOf (ExtHostDocuments.acceptModelRemoved "file:///b.txt" sampleExtHostDocuments);
     stateOf (ExtHostDocumentsCalls.acceptModelModeChanged (λ _ d, d) "file:///b.txt"
                "plaintext" "markdown" sampleExtHostDocuments);
     stateOf (ExtHostDocumentsCalls.acceptModelSaved (λ _ d, d) "file:///b.txt"
                sampleExtHostDocuments);
     stateOf (ExtHostDocumentsCalls.acceptModelDirty (λ _ d, d) "file:///b.txt"
                sampleExtHostDocuments);
     stateOf (ExtHostDocumentsCalls.acceptModelReverted (λ _ d, d) "file:///b.txt"
                sampleExtHostDocuments);
     stateOf (ExtHostDocumentsCalls.acceptModelChanged (λ _ d, d) (λ _ d, d) (λ r, r)
                "file:///b.txt" [] true sampleExtHostDocuments)].
Proof.
  apply (accept_calls_keep_other_documents (λ _ d, d) (λ _ d, d) (λ _ d, d) (λ r, r)
           "file:///b.txt" "file:///a.txt" "plaintext" "markdown"
           (ExtHostDocuments.mkModelAddedData "file:///b.txt" [] "\n" "plaintext" 1 false)
           [] true sampleExtHostDocuments).
  - discriminate.
  - reflexivity.
Defined.

(** ** Text document content providers *)

Section providers.
Import ExtHostDocumentsCalls.

(** The schemes [file] and [untitled] are refused, and only they: the
    call throws without taking a handle from the pool, without
    registering the provider and without calling the main thread. *)
Theorem register_refuses_reserved_schemes (scheme : string) (provider : Provider)
    (this : Providers) :
  (scheme = "file" ∨ scheme = "untitled" →
   registerTextDocumentContentProvider scheme provider this =
     Err ("scheme '" +:+ scheme +:+ "' already registered") this [])
  ∧ (scheme ≠ "file" → scheme ≠ "untitled" →
     ∃ this' trace,
       registerTextDocumentContentProvider scheme provider this =
         Ok (mkRegistration (_handlePool this) (hasOnDidChange provider)) this' trace
       ∧ _handlePool this' = S (_handlePool this)
       ∧ In (RegisterTextContentProvider (_handlePool this) scheme) trace).
Proof.
  unfold registerTextDocumentContentProvider. split.
  - intros [->| ->]; done.
  - intros Hfile Huntitled.
    rewrite (bool_decide_eq_false_2 _ Hfile), (bool_decide_eq_false_2 _ Huntitled).
    cbn [orb]. eexists _, _. split; [done|]. split; [done|]. by left.
Qed.

(** A registration takes a handle that no provider is registered under:
    the providers registered before stay reachable under their handles,
    the new provider answers under the new handle, and the handles in use
    stay below the pool. *)
Theorem register_takes_fresh_handle (scheme uri : string) (provider : Provider)
    (this : Providers) :
  providersWellFormed this →
  scheme ≠ "file" → scheme ≠ "untitled" →
  ∃ this' trace,
    registerTextDocumentContentProvider scheme provider this =
      Ok (mkRegistration (_handlePool this) (hasOnDidChange provider)) this' trace
    ∧ _documentContentProviders this !! _handlePool this = None
    ∧ (∀ h, h ≠ _handlePool this →
            _documentContentProviders this' !! h = _documentContentProviders this !! h)
    ∧ provideTextDocumentContentFor (_handlePool this) scheme uri this' =
        inr (provideTextDocumentContent provider uri)
    ∧ providersWellFormed this'.
Proof.
  intros Hwf Hfile Huntitled. unfold registerTextDocumentContentProvider.
  rewrite (bool_decide_eq_false_2 _ Hfile), (bool_decide_eq_false_2 _ Huntitled).
  cbn [orb]. eexists _, _. split; [done|].
  assert (_documentContentProviders this !! _handlePool this = None) as Hfresh.
  { destruct (_documentContentProviders this !! _handlePool this) eqn:Hh; [|done].
    assert (_handlePool this < _handlePool this)%nat; [|lia].
    apply Hwf. by eexists. }
  split; [done|]. cbn [_documentContentProviders _handlePool]. split; [|split].
  - intros h Hne. by apply lookup_insert_ne.
  - unfold provideTextDocumentContentFor. cbn [_documentContentProviders].
    by rewrite lookup_insert_eq.
  - intros h. cbn [_documentContentProviders _handlePool].
    destruct (decide (h = _handlePool this)) as [->|Hne]; [lia|].
    rewrite lookup_insert_ne by done. intros Hh. apply Hwf in Hh. lia.
Qed.

(** The callback of the returned disposable can be run twice: the first
    run unregisters the provider, at most once, and disposes the
    subscription if there is one; the second run does nothing.  After the
    first run the handle provides no content any more. *)
Theorem disposeRegistration_idempotent (reg : Registration) (this : Providers)
    (scheme uri : string) :
  let r1 := disposeRegistration reg this in
  disposeRegistration r1.1.1 r1.1.2 = (r1.1.1, r1.1.2, [])
  ∧ provideTextDocumentContentFor (handle reg) scheme uri r1.1.2 =
      inl ("unsupported uri-scheme: " +:+ scheme)
  ∧ (In (UnregisterTextContentProvider (handle reg)) r1.2 ↔
     is_Some (_documentContentProviders this !! handle reg))
  ∧ (In (DisposeSubscription (handle reg)) r1.2 ↔ subscription reg = true).
Proof.
  cbn zeta. unfold disposeRegistration, provideTextDocumentContentFor.
  cbn [fst snd handle subscription _documentContentProviders _handlePool].
  rewrite lookup_delete_eq, delete_delete_eq.
  rewrite bool_decide_eq_false_2 by by intros [? ?].
  split; [done|]. split; [done|].
  destruct (_documentContentProviders this !! handle reg) as [p|] eqn:Hp.
  - rewrite bool_decide_eq_true_2 by by eexists.
    destruct (subscription reg); cbn [app In]; split;
      intuition (try discriminate; try congruence; eauto).
  - rewrite bool_decide_eq_false_2 by by intros [? ?].
    destruct (subscription reg); cbn [app In]; split;
      intuition (try discriminate; try congruence; eauto);
      match goal with H : is_Some None |- _ => by destruct H end.
Qed.

End providers.

Lemma register_takes_fresh_handle_witness :
  ∃ this' trace,
    ExtHostDocumentsCalls.registerTextDocumentContentProvider "memfs" sampleProvider
      sampleProviders =
      ExtHostDocumentsCalls.Ok
        (ExtHostDocumentsCalls.mkRegistration
           (ExtHostDocumentsCalls._handlePool sampleProviders)
           (ExtHostDocumentsCalls.hasOnDidChange sampleProvider)) this' trace
    ∧ ExtHostDocumentsCalls._documentContentProviders sampleProviders
        !! ExtHostDocumentsCalls._handlePool sampleProviders = None
    ∧ (∀ h, h ≠ ExtHostDocumentsCalls._handlePool sampleProviders →
            ExtHostDocumentsCalls._documentContentProviders this' !! h =
            ExtHostDocumentsCalls._documentContentProviders sampleProviders !! h)
    ∧ ExtHostDocumentsCalls.provideTextDocumentContentFor
        (ExtHostDocumentsCalls._handlePool sampleProviders) "memfs" "memfs:/x" this' =
        inr (ExtHostDocumentsCalls.provideTextDocumentContent sampleProvider "memfs:/x")
    ∧ providersWellFormed this'.
Proof.
  apply (register_takes_fresh_handle "memfs" "memfs:/x" sampleProvider sampleProviders).
  - intros h [p Hp]. destruct (decide (h = 0%nat)) as [->|Hne]; [simpl; lia|].
    unfold sampleProviders in Hp.
    cbn [ExtHostDocumentsCalls._documentContentProviders] in Hp.
    by rewrite lookup_singleton_ne in Hp.
  - discriminate.
  - discriminate.
Defined.

(** ** Loading documents on demand *)

Section loaders.
Import ExtHostDocuments ExtHostDocumentsCalls.

(** For a URI that is neither tracked nor being loaded, the first
    [ensureDocumentData] asks the main thread to open the document, once;
    as long as the load is under way a further call asks nothing and
    answers the same promise.  When the load has settled the loader is
    forgotten, so that a later call for a URI that is still not tracked
    asks again. *)
Theorem ensureDocumentData_loads_once (uri : string) (this : ExtHostDocuments)
    (loaders : Loaders) :
  _documentData this !! uri = None →
  _documentLoader loaders !! uri = None →
  let r1 := ensureDocumentData uri this loaders in
  let r2 := ensureDocumentData uri this r1.1.2 in
  let settled := loadSettled uri this r2.1.2 in
  r1.2 = [TryOpenDocument uri]
  ∧ r2 = (r1.1.1, r1.1.2, [])
  ∧ settled.1 = None
  ∧ _documentLoader settled.2 = _documentLoader loaders
  ∧ (ensureDocumentData uri this settled.2).2 = [TryOpenDocument uri].
Proof.
  intros Hdoc Hload. cbn zeta. unfold ensureDocumentData, loadSettled.
  rewrite Hdoc, Hload. cbn [fst snd _documentLoader nextPromise].
  rewrite lookup_insert_eq. cbn [fst snd _documentLoader nextPromise].
  rewrite delete_insert_eq, (delete_id _ _ Hload), Hload.
  done.
Qed.

(** A tracked document is answered at once: the main thread is not
    asked and no loader is created, whether or not a load is under way. *)
Lemma ensureDocumentData_cached (uri : string) (this : ExtHostDocuments)
    (loaders : Loaders) (cached : ExtHostDocumentData) :
  _documentData this !! uri = Some cached →
  ensureDocumentData uri this loaders = (Resolved cached, loaders, []).
Proof. intros Hdoc. unfold ensureDocumentData. by rewrite Hdoc. Qed.

End loaders.

Lemma ensureDocumentData_loads_once_witness :
  let loaders := ExtHostDocumentsCalls.mkLoaders ∅ 0 in
  let r1 := ExtHostDocumentsCalls.ensureDocumentData "file:///b.txt"
              sampleExtHostDocuments loaders in
  let r2 := ExtHostDocumentsCalls.ensureDocumentData "file:///b.txt"
              sampleExtHostDocuments r1.1.2 in
  let settled := ExtHostDocumentsCalls.loadSettled "file:///b.txt"
                   sampleExtHostDocuments r2.1.2 in
  r1.2 = [ExtHostDocumentsCalls.TryOpenDocument "file:///b.txt"]
  ∧ r2 = (r1.1.1, r1.1.2, [])
  ∧ settled.1 = None
  ∧ ExtHostDocumentsCalls._documentLoader settled.2 =
      ExtHostDocumentsCalls._documentLoader loaders
  ∧ (ExtHostDocumentsCalls.ensureDocumentData "file:///b.txt" sampleExtHostDocuments
       settled.2).2 = [ExtHostDocumentsCalls.TryOpenDocument "file:///b.txt"].
Proof.
  apply (ensureDocumentData_loads_once "file:///b.txt" sampleExtHostDocuments
           (ExtHostDocumentsCalls.mkLoaders ∅ 0)); reflexivity.
Defined.

(** ** The accepting side: more about editors *)

Section editors_more.
Import ExtHostEditors.

Context (arrayEquals : list string → list string → bool).
Hypothesis arrayEquals_spec : ∀ one other, arrayEquals one other = true ↔ one = other.

Lemma arrayEquals_decide (one other : list string) :
  arrayEquals one other = bool_decide (one = other).
Proof.
  destruct (arrayEquals one other) eqn:Heq.
  - symmetry. apply bool_decide_eq_true_2. by apply arrayEquals_spec.
  - symmetry. apply bool_decide_eq_false_2. intros Hsame.
    apply arrayEquals_spec in Hsame. congruence.
Qed.

(** After [$acceptActiveEditorAndVisibleEditors] the object holds the
    given active id and visible ids.  The visible-editors event is fired
    exactly when the visible ids have changed, the active-editor event
    exactly when the active id has changed, in this order and after both
    fields are updated.  Calling it again with the same arguments fires
    nothing. *)
Theorem acceptActiveEditorAndVisibleEditors_settles (id : JsId)
    (visibleIds : list string) (this : ExtHostEditors) :
  let r := acceptActiveEditorAndVisibleEditors arrayEquals id visibleIds this in
  r.1 = mkExtHostEditors (_editors this) id visibleIds
  ∧ r.2 =
      (if decide (_visibleEditorIds this = visibleIds) then []
       else [FireDidChangeVisibleTextEditors ((λ i, _editors this !! i) <$> visibleIds)])
      ++ (if decide (_activeEditorId this = id) then []
          else [FireDidChangeActiveTextEditor
                  (editorsGet (mkExtHostEditors (_editors this) id visibleIds) id)])
  ∧ acceptActiveEditorAndVisibleEditors arrayEquals id visibleIds r.1 = (r.1, []).
Proof.
  cbn zeta. unfold acceptActiveEditorAndVisibleEditors.
  rewrite !arrayEquals_decide. unfold strictEq. destruct this as [eds act vis].
  cbn [_editors _activeEditorId _visibleEditorIds fst snd].
  repeat case_bool_decide; repeat case_decide; simplify_eq/=;
    rewrite ?arrayEquals_decide; unfold strictEq;
    repeat case_bool_decide; simplify_eq/=; done.
Qed.


End editors_more.

Lemma equalsStrict_spec (one other : list string) :
  equalsStrict one other = true ↔ one = other.
Proof. apply bool_decide_eq_true. Qed.

Lemma acceptActiveEditorAndVisibleEditors_settles_witness :
  let r := ExtHostEditors.acceptActiveEditorAndVisibleEditors equalsStrict
             (js_string "e2") ["e2"] sampleExtHostEditors in
  r.1 = ExtHostEditors.mkExtHostEditors
          (ExtHostEditors._editors sampleExtHostEditors) (js_string "e2") ["e2"]
  ∧ r.2 =
      (if decide (ExtHostEditors._visibleEditorIds sampleExtHostEditors = ["e2"]) then []
       else [ExtHostEditors.FireDidChangeVisibleTextEditors
               ((λ i, ExtHostEditors._editors sampleExtHostEditors !! i) <$> ["e2"])])
      ++ (if decide (ExtHostEditors._activeEditorId sampleExtHostEditors = js_string "e2")
          then []
          else [ExtHostEditors.FireDidChangeActiveTextEditor
                  (ExtHostEditors.editorsGet
                     (ExtHostEditors.mkExtHostEditors
                        (ExtHostEditors._editors sampleExtHostEditors)
                        (js_string "e2") ["e2"]) (js_string "e2"))])
  ∧ ExtHostEditors.acceptActiveEditorAndVisibleEditors equalsStrict
      (js_string "e2") ["e2"] r.1 = (r.1, []).
Proof.
  exact (acceptActiveEditorAndVisibleEditors_settles equalsStrict equalsStrict_spec
           (js_string "e2") ["e2"] sampleExtHostEditors).
Defined.


Section editors_add.
Import ExtHostEditors ExtHostEditorsCalls.

Context (arrayEquals : list string → list string → bool).
Hypothesis arrayEquals_spec : ∀ one other, arrayEquals one other = true ↔ one = other.
Context (newExtHostTextEditor :
           string → option ExtHostDocuments.ExtHostDocumentData →
           list ISelection → Z → option Z → ExtHostTextEditor).
Context (toSelection : ISelection → ISelection).
Context (toViewColumn : option Z → option Z).

Lemma filter_ne_id (id : string) (ids : list string) :
  id ∉ ids → filter (λ visibleEditorId, visibleEditorId ≠ id) ids = ids.
Proof.
  induction ids as [|x ids IH]; [done|].
  rewrite not_elem_of_cons. intros [Hne Hnot].
  rewrite filter_cons, decide_True by done. by rewrite IH.
Qed.

(** An editor that is added under an id that is neither tracked, visible
    nor active, and is then removed, leaves the object exactly as it was:
    the add fires nothing, the removal only disposes the editor that the
    add has constructed. *)
Theorem add_then_remove_editor
    (data : mainThreadDocumentsAndEditors.ITextEditorAddData)
    (documents : ExtHostDocuments.ExtHostDocuments) (this : ExtHostEditors) :
  let id := mainThreadDocumentsAndEditors.teaId data in
  _editors this !! id = None →
  id ∉ _visibleEditorIds this →
  _activeEditorId this ≠ js_string id →
  ∃ newEditor,
    _editors (acceptTextEditorAdd newExtHostTextEditor toSelection toViewColumn
                data documents this) !! id = Some newEditor
    ∧ acceptTextEditorRemove arrayEquals id
        (acceptTextEditorAdd newExtHostTextEditor toSelection toViewColumn
           data documents this)
      = Returned this [DisposeTextEditor newEditor].
Proof.
  intros id Hnone Hvis Hact. eexists. split.
  { unfold acceptTextEditorAdd, store. cbn [_editors]. apply lookup_insert_eq. }
  unfold acceptTextEditorRemove, acceptTextEditorAdd, store.
  cbn [_editors _activeEditorId _visibleEditorIds].
  fold id. rewrite (filter_ne_id id _ Hvis).
  assert (strictEq (_activeEditorId this) (js_string id) = false) as ->
    by by apply bool_decide_eq_false_2.
  unfold acceptActiveEditorAndVisibleEditors.
  cbn [_editors _activeEditorId _visibleEditorIds].
  assert (arrayEquals (_visibleEditorIds this) (_visibleEditorIds this) = true) as ->
    by by apply arrayEquals_spec.
  cbn [negb _editors _activeEditorId _visibleEditorIds].
  rewrite strictEq_refl. cbn [negb app _editors _activeEditorId _visibleEditorIds].
  rewrite lookup_insert_eq, delete_insert_id by done.
  destruct this; done.
Qed.

End editors_add.

Lemma add_then_remove_editor_witness :
  let data := mainThreadDocumentsAndEditors.mkTextEditorAddData
                "e3" "file:///a.txt" 4 [] (Some 1) in
  ∃ newEditor,
    ExtHostEditors._editors
      (ExtHostEditorsCalls.acceptTextEditorAdd sampleNewEditor (λ s, s) (λ c, c)
         data sampleExtHostDocuments sampleExtHostEditors) !! "e3" = Some newEditor
    ∧ ExtHostEditors.acceptTextEditorRemove equalsStrict "e3"
        (ExtHostEditorsCalls.acceptTextEditorAdd sampleNewEditor (λ s, s) (λ c, c)
           data sampleExtHostDocuments sampleExtHostEditors)
      = Returned sampleExtHostEditors [ExtHostEditors.DisposeTextEditor newEditor].
Proof.
  apply (add_then_remove_editor equalsStrict equalsStrict_spec sampleNewEditor
           (λ s, s) (λ c, c)
           (mainThreadDocumentsAndEditors.mkTextEditorAddData
              "e3" "file:///a.txt" 4 [] (Some 1))
           sampleExtHostDocuments sampleExtHostEditors).
  - reflexivity.
  - apply (bool_decide_unpack ("e3" ∉ ["e1"; "e2"])). by vm_compute.
  - discriminate.
Defined.

(** ** View columns *)

Section position_data.
Import ExtHostEditors ExtHostEditorsCalls.

Context (_acceptViewColumn : option Z → ExtHostTextEditor → ExtHostTextEditor).
Context (toViewColumn : option Z → option Z).

Lemma after_nil {S E : Type} (o : Outcome S E) : after [] o = o.
Proof. by destruct o. Qed.

Lemma after_after {S E : Type} (t1 t2 : list E) (o : Outcome S E) :
  after t1 (after t2 o) = after (t1 ++ t2) o.
Proof. destruct o; simpl; by rewrite app_assoc. Qed.

(** Position data for two lists of editors, one after the other: the
    second list is processed in the state the first one leaves, unless the
    first one throws. *)
Lemma acceptEditorPositionData_app (pre post : list (string * Z)) (this : ExtHostEditors) :
  acceptEditorPositionData _acceptViewColumn toViewColumn (pre ++ post) this =
    match acceptEditorPositionData _acceptViewColumn toViewColumn pre this with
    | Returned s t => after t (acceptEditorPositionData _acceptViewColumn toViewColumn post s)
    | Threw e s t => Threw e s t
    end.
Proof.
  revert this. induction pre as [|[id position] pre IH]; intros this.
  { cbn. by rewrite after_nil. }
  cbn [app acceptEditorPositionData].
  destruct (_editors this !! id) as [textEditor|]; [|done].
  destruct (bool_decide _); rewrite IH; [|done].
  destruct (acceptEditorPositionData _ _ pre _) as [s t|e s t]; cbn [after]; [|done].
  by rewrite after_after.
Qed.

(** The call only ever writes editors back under ids of the data that are
    tracked: no id is added to or removed from the map, the other editors
    are untouched, and the active id and the visible ids stay as they
    are. *)
Lemma acceptEditorPositionData_frame (data : list (string * Z)) (this : ExtHostEditors) :
  let s := stateOf (acceptEditorPositionData _acceptViewColumn toViewColumn data this) in
  dom (_editors s) = dom (_editors this)
  ∧ _activeEditorId s = _activeEditorId this
  ∧ _visibleEditorIds s = _visibleEditorIds this
  ∧ ∀ k, k ∉ data.*1 → _editors s !! k = _editors this !! k.
Proof.
  revert this. induction data as [|[id position] data IH]; intros this; [done|].
  cbn [acceptEditorPositionData fmap list_fmap fst].
  destruct (_editors this !! id) as [textEditor|] eqn:Hid; [|done].
  destruct (bool_decide _).
  - specialize (IH (store id (_acceptViewColumn (toViewColumn (Some position))
                                 textEditor) this)).
    destruct (acceptEditorPositionData _ _ data _) as [s t|e s t];
      cbn [after stateOf store _editors _activeEditorId _visibleEditorIds] in *;
      destruct IH as (Hdom & Hact & Hvis & Hk);
      (split; [rewrite Hdom; apply dom_insert_lookup_L; by eexists|]);
      (split; [done|]); (split; [done|]);
      intros k Hnot; apply not_elem_of_cons in Hnot as [Hne Hnot];
      rewrite Hk by done; by apply lookup_insert_ne.
  - destruct (IH this) as (Hdom & Hact & Hvis & Hk). cbn zeta.
    split; [done|]. split; [done|]. split; [done|].
    intros k Hnot. apply not_elem_of_cons in Hnot as [Hne Hnot]. by apply Hk.
Qed.

End position_data.

Section position_data_more.
Import ExtHostEditors ExtHostEditorsCalls.

Context (_acceptViewColumn : option Z → ExtHostTextEditor → ExtHostTextEditor).
Context (toViewColumn : option Z → option Z).

(** The loop stops at the first id that is not tracked: the call throws
    there, the editors listed before it have their view columns updated
    and their events fired, the entries after it are not looked at. *)
Theorem acceptEditorPositionData_stops_at_untracked (pre post : list (string * Z))
    (id : string) (position : Z) (this s : ExtHostEditors) (t : list Effect) :
  acceptEditorPositionData _acceptViewColumn toViewColumn pre this = Returned s t →
  _editors this !! id = None →
  acceptEditorPositionData _acceptViewColumn toViewColumn
    (pre ++ (id, position) :: post) this =
    Threw "TypeError: Cannot read property 'viewColumn' of undefined" s t.
Proof.
  intros Hpre Hnone. rewrite acceptEditorPositionData_app, Hpre.
  destruct (acceptEditorPositionData_frame _acceptViewColumn toViewColumn pre this)
    as (Hdom & _). rewrite Hpre in Hdom. cbn [stateOf] in Hdom.
  assert (_editors s !! id = None) as Hs.
  { apply not_elem_of_dom. rewrite Hdom. by apply not_elem_of_dom. }
  cbn [acceptEditorPositionData]. rewrite Hs. cbn [after]. by rewrite app_nil_r.
Qed.

Hypothesis _acceptViewColumn_spec :
  ∀ v e, viewColumn (_acceptViewColumn v e) = v.

Lemma acceptEditorPositionData_columns (data : list (string * Z))
    (this s : ExtHostEditors) (t : list Effect) :
  NoDup data.*1 →
  acceptEditorPositionData _acceptViewColumn toViewColumn data this = Returned s t →
  ∀ id position, (id, position) ∈ data →
    ∃ e, _editors s !! id = Some e ∧ viewColumn e = toViewColumn (Some position).
Proof.
  revert this s t. induction data as [|[id0 p0] data IH]; intros this s t Hnd Hret.
  { intros id position Hin. by apply elem_of_nil in Hin. }
  rewrite fmap_cons in Hnd. apply NoDup_cons in Hnd as [Hfresh Hnd].
  cbn [fst] in Hfresh. cbn [acceptEditorPositionData] in Hret.
  destruct (_editors this !! id0) as [e0|] eqn:Hid0; [|done].
  destruct (bool_decide (viewColumn e0 ≠ toViewColumn (Some p0))) eqn:Hchanged.
  - set (this1 := store id0 (_acceptViewColumn (toViewColumn (Some p0)) e0) this) in *.
    destruct (acceptEditorPositionData _ _ data this1) as [s1 t1|] eqn:Hrest; [|done].
    cbn [after] in Hret. injection Hret as <- <-.
    intros id position Hin. apply elem_of_cons in Hin as [[= -> ->]|Hin].
    + destruct (acceptEditorPositionData_frame _acceptViewColumn toViewColumn data this1)
        as (_ & _ & _ & Hk). rewrite Hrest in Hk. cbn [stateOf] in Hk.
      rewrite (Hk id0 Hfresh). subst this1. cbn [store _editors].
      rewrite lookup_insert_eq. eauto.
    + by apply (IH this1 s1 t1 Hnd Hrest).
  - apply bool_decide_eq_false_1 in Hchanged. apply dec_stable in Hchanged.
    intros id position Hin. apply elem_of_cons in Hin as [[= -> ->]|Hin].
    + destruct (acceptEditorPositionData_frame _acceptViewColumn toViewColumn data this)
        as (_ & _ & _ & Hk). rewrite Hret in Hk. cbn [stateOf] in Hk.
      rewrite (Hk id0 Hfresh). eauto.
    + by apply (IH this s t Hnd Hret).
Qed.

Lemma acceptEditorPositionData_unchanged (data : list (string * Z)) (s : ExtHostEditors) :
  (∀ id position, (id, position) ∈ data →
     ∃ e, _editors s !! id = Some e ∧ viewColumn e = toViewColumn (Some position)) →
  acceptEditorPositionData _acceptViewColumn toViewColumn data s = Returned s [].
Proof.
  induction data as [|[id0 p0] data IH]; intros Hall; [done|].
  cbn [acceptEditorPositionData].
  destruct (Hall id0 p0) as (e & -> & Hcol); [apply list_elem_of_here|].
  rewrite bool_decide_eq_false_2 by (intros Hne; by apply Hne).
  apply IH. intros id position Hin. apply Hall. by right.
Qed.

(** When the call has returned, the editors have the view columns of the
    data, and delivering the same position data again fires nothing and
    changes nothing: an event is fired only for an editor whose view
    column differs from the one in the data. *)
Theorem acceptEditorPositionData_idempotent (data : list (string * Z))
    (this s : ExtHostEditors) (t : list Effect) :
  NoDup data.*1 →
  acceptEditorPositionData _acceptViewColumn toViewColumn data this = Returned s t →
  (∀ id position, (id, position) ∈ data →
     ∃ e, _editors s !! id = Some e ∧ viewColumn e = toViewColumn (Some position))
  ∧ acceptEditorPositionData _acceptViewColumn toViewColumn data s = Returned s [].
Proof.
  intros Hnd Hret.
  pose proof (acceptEditorPositionData_columns data this s t Hnd Hret) as Hcols.
  split; [done|]. by apply acceptEditorPositionData_unchanged.
Qed.

End position_data_more.

Lemma acceptEditorPositionData_stops_at_untracked_witness :
  ExtHostEditorsCalls.acceptEditorPositionData sampleAcceptViewColumn (λ c, c)
    ([("e1", 3)] ++ ("e3", 1) :: [("e2", 3)]) sampleExtHostEditors =
    Threw "TypeError: Cannot read property 'viewColumn' of undefined"
      (ExtHostEditorsCalls.store "e1"
         (ExtHostEditors.mkExtHostTextEditor "e1" "file:///a.txt" (Some 3))
         sampleExtHostEditors)
      [ExtHostEditorsCalls.FireDidChangeTextEditorViewColumn
         (ExtHostEditors.mkExtHostTextEditor "e1" "file:///a.txt" (Some 3)) (Some 3)].
Proof.
  apply (acceptEditorPositionData_stops_at_untracked sampleAcceptViewColumn (λ c, c)
           [("e1", 3)] [("e2", 3)] "e3" 1 sampleExtHostEditors); reflexivity.
Defined.

Lemma acceptEditorPositionData_idempotent_witness :
  let data := [("e1", 3); ("e2", 2)] in
  let s := ExtHostEditorsCalls.store "e1"
             (ExtHostEditors.mkExtHostTextEditor "e1" "file:///a.txt" (Some 3))
             sampleExtHostEditors in
  (∀ id position, (id, position) ∈ data →
     ∃ e, ExtHostEditors._editors s !! id = Some e
          ∧ ExtHostEditors.viewColumn e = Some position)
  ∧ ExtHostEditorsCalls.acceptEditorPositionData sampleAcceptViewColumn (λ c, c) data s
    = Returned s [].
Proof.
  apply (acceptEditorPositionData_idempotent sampleAcceptViewColumn (λ c, c)
           (λ _ _, eq_refl) [("e1", 3); ("e2", 2)] sampleExtHostEditors _
           [ExtHostEditorsCalls.FireDidChangeTextEditorViewColumn
              (ExtHostEditors.mkExtHostTextEditor "e1" "file:///a.txt" (Some 3))
              (Some 3)]).
  - apply (bool_decide_unpack (NoDup ["e1"; "e2"])). by vm_compute.
  - reflexivity.
Defined.

(** ** The state tracker wired to the dispatcher *)

Lemma append_comma_inj (e1 : string) :
  ∀ e2 u1 u2, noComma e1 = true → noComma e2 = true →
    e1 +:+ "," +:+ u1 = e2 +:+ "," +:+ u2 → e1 = e2 ∧ u1 = u2.
Proof.
  induction e1 as [|c e1 IH]; intros [|c' e2] u1 u2 H1 H2 Heq; simpl in *.
  - injection Heq as Heq. by subst.
  - injection Heq as Hc _. subst c'. done.
  - injection Heq as Hc _. subst c. done.
  - injection Heq as -> Heq.
    apply andb_true_iff in H1 as [_ H1]. apply andb_true_iff in H2 as [_ H2].
    destruct (IH e2 u1 u2 H1 H2 Heq) as [-> ->]. done.
Qed.

Lemma wellFormedBinding_id (b : mainThreadDocumentsAndEditors.EditorAndModel) :
  wellFormedBinding b →
  mainThreadDocumentsAndEditors.id b = (bindingKey b).1 +:+ "," +:+ (bindingKey b).2.
Proof. intros [Hb _]. by rewrite Hb at 1. Qed.

Lemma wellFormedBinding_key_id (a b : mainThreadDocumentsAndEditors.EditorAndModel) :
  wellFormedBinding a → wellFormedBinding b →
  (bindingKey a = bindingKey b ↔
   mainThreadDocumentsAndEditors.id a = mainThreadDocumentsAndEditors.id b).
Proof.
  intros Ha Hb. rewrite (wellFormedBinding_id a Ha), (wellFormedBinding_id b Hb).
  split; [by intros ->|]. intros Heq.
  destruct Ha as [_ Ha], Hb as [_ Hb].
  destruct (append_comma_inj _ _ _ _ Ha Hb Heq) as [H1 H2].
  unfold bindingKey in *. simpl in *. by rewrite H1, H2.
Qed.

Lemma delta_elements {T : Type} (cmp : T → T → Z) (b : list T) :
  ∀ a x, (x ∈ BaseArrays.removed (BaseArrays.delta cmp b a) → x ∈ b)
         ∧ (x ∈ BaseArrays.added (BaseArrays.delta cmp b a) → x ∈ a).
Proof.
  induction b as [|y b IHb]; intros a x.
  { rewrite delta_nil_l. simpl. split; [|done]. intros Hx. by apply elem_of_nil in Hx. }
  induction a as [|z a IHa].
  { rewrite delta_nil_r. simpl. split; [done|]. intros Hx. by apply elem_of_nil in Hx. }
  rewrite delta_cons_cons.
  destruct (cmp y z =? 0).
  - destruct (IHb a x) as [H1 H2]. split; intros Hx; right; auto.
  - destruct (cmp y z <? 0); cbn [BaseArrays.removed BaseArrays.added].
    + destruct (IHb (z :: a) x) as [H1 H2]. split; [|done].
      intros Hx. apply elem_of_cons in Hx as [->|Hx]; [by left|right; auto].
    + destruct IHa as [H1 H2]. split; [done|].
      intros Hx. apply elem_of_cons in Hx as [->|Hx]; [by left|right; auto].
Qed.

Lemma newStateOf_editors_wellFormed (svc : Services) :
  editorIdsDistinct svc →
  Forall wellFormedBinding
    (mainThreadDocumentsAndEditors.editors
       (mainThreadDocumentsAndEditors.newStateOf svc))
  ∧ BaseArrays.strictlySorted mainThreadDocumentsAndEditors.cmp.compareEditors
      (mainThreadDocumentsAndEditors.editors
         (mainThreadDocumentsAndEditors.newStateOf svc)) = true.
Proof.
  intros [Hnd Hcomma]. rewrite newStateOf_eq.
  cbn [mainThreadDocumentsAndEditors.newDocumentAndEditorState
       mainThreadDocumentsAndEditors.editors].
  split.
  - apply Forall_forall. intros b Hb. apply elem_of_Array_sort in Hb.
    apply elem_of_filteredBindings in Hb as (e & m & He & _ & _ & ->).
    split; [done|]. rewrite Forall_forall in Hcomma. by apply Hcomma.
  - apply (Array_sort_strictlySorted bindingKey comparePairs);
      [done|apply comparePairs_eq|apply comparePairs_gt_lt|].
    by apply filteredBindings_keys_NoDup.
Qed.

(** What [recompute] does: nothing when the delta is empty, otherwise
    the snapshot is stored and the delta dispatched. *)
Lemma recompute_cases (svc : Services)
    (this : mainThreadDocumentsAndEditors.MainThreadDocumentAndEditorState)
    (w : mainThreadDocumentsAndEditors.World)
    (dispatcher : mainThreadDocumentsAndEditors.MainThreadDocumentsAndEditors) :
  let s := mainThreadDocumentsAndEditors.newStateOf svc in
  let d := mainThreadDocumentsAndEditors.compute
             (mainThreadDocumentsAndEditors._currentState this) s in
  let r := recompute svc (this, w, dispatcher) in
  (mainThreadDocumentsAndEditors.isEmpty d = true ∧ r = (this, w, dispatcher, []))
  ∨ (mainThreadDocumentsAndEditors.isEmpty d = false
     ∧ mainThreadDocumentsAndEditors._currentState r.1.1.1 = Some s
     ∧ r.1.2 = (mainThreadDocumentsAndEditors._onDelta svc d dispatcher).1
     ∧ r.2 = (mainThreadDocumentsAndEditors._onDelta svc d dispatcher).2).
Proof.
  cbn zeta. unfold recompute, mainThreadDocumentsAndEditors._updateState.
  cbn [fst snd].
  destruct (mainThreadDocumentsAndEditors.isEmpty _) eqn:He; cbn [negb fst snd].
  - left. split; [done|]. by rewrite drop_all.
  - right. split; [done|].
    cbn [mainThreadDocumentsAndEditors.fired mainThreadDocumentsAndEditors._currentState].
    rewrite drop_app_length. cbn [fold_left fst snd app]. done.
Qed.

Section wired.
Import mainThreadDocumentsAndEditors.

Lemma _onDelta_dom (svc : Services) (delta : DocumentAndEditorStateDelta)
    (this : MainThreadDocumentsAndEditors) (k : string) :
  k ∈ dom (_editors (_onDelta svc delta this).1) ↔
  (k ∉ id <$> removedEditors delta)
  ∧ (k ∈ id <$> addedEditors delta ∨ k ∈ dom (_editors this)).
Proof.
  rewrite !elem_of_dom. unfold _onDelta. cbn [fst _editors].
  destruct (removeEditor_fold_ids (removedEditors delta)
              (fold_left addEditor (addedEditors delta)
                 (mkDeltaRun (_editors this) [] [] [])))
    as (ids & _ & _ & _ & _ & Hlookup).
  cbn zeta in Hlookup. rewrite Hlookup, addEditor_fold_lookup. cbn [runEditors].
  pose proof (added_ids_last (addedEditors delta) k) as Hadded.
  destruct (decide (k ∈ id <$> removedEditors delta)) as [Hrem|Hrem].
  - split; [by intros [? ?]|tauto].
  - destruct (last (filter _ (addedEditors delta))) as [a|].
    + split; [intros _; split; [done|left; apply Hadded; by eexists]|by eexists].
    + split; [tauto|]. intros [_ [Hin|?]]; [|done].
      apply Hadded in Hin as [? ?]. done.
Qed.

Lemma elem_of_keys (l : list EditorAndModel) (key : string * string) :
  key ∈ bindingKey <$> l ↔ ∃ b, b ∈ l ∧ bindingKey b = key.
Proof.
  rewrite list_elem_of_fmap. split; intros (b & H1 & H2); eauto.
Qed.

(** The ids after a delta between two snapshots of well-formed,
    strictly ascending bindings. *)
Lemma delta_ids (E0 E1 : list EditorAndModel) (k : string) :
  Forall wellFormedBinding E0 → Forall wellFormedBinding E1 →
  BaseArrays.strictlySorted cmp.compareEditors E0 = true →
  BaseArrays.strictlySorted cmp.compareEditors E1 = true →
  let d := BaseArrays.delta cmp.compareEditors E0 E1 in
  k ∈ id <$> E1 ↔
  (k ∉ id <$> BaseArrays.removed d)
  ∧ (k ∈ id <$> BaseArrays.added d ∨ k ∈ id <$> E0).
Proof.
  intros Hwf0 Hwf1 Hs0 Hs1 d. rewrite Forall_forall in Hwf0, Hwf1.
  pose proof (delta_removed_keys bindingKey comparePairs cmp.compareEditors
                (λ _ _, eq_refl) comparePairs_eq comparePairs_gt_lt
                comparePairs_lt_trans E0 E1 Hs0 Hs1) as Hrem.
  pose proof (delta_added_keys bindingKey comparePairs cmp.compareEditors
                (λ _ _, eq_refl) comparePairs_eq comparePairs_gt_lt
                comparePairs_lt_trans E0 E1 Hs0 Hs1) as Hadd.
  fold d in Hrem, Hadd.
  assert (∀ x, x ∈ BaseArrays.removed d → x ∈ E0) as Hr0
    by (intros x; apply delta_elements).
  assert (∀ x, x ∈ BaseArrays.added d → x ∈ E1) as Ha1
    by (intros x; apply delta_elements).
  rewrite !list_elem_of_fmap. split.
  - intros (b1 & -> & Hb1). split.
    + intros (r & Hid & Hr).
      assert (bindingKey b1 = bindingKey r) as Hkey
        by (apply wellFormedBinding_key_id; auto).
      assert (bindingKey r ∈ bindingKey <$> BaseArrays.removed d) as Hin
        by (apply elem_of_keys; eauto).
      apply Hrem in Hin as [_ Hin]. apply Hin. apply elem_of_keys. eauto.
    + destruct (decide (bindingKey b1 ∈ bindingKey <$> E0)) as [Hin|Hnin].
      * right. apply elem_of_keys in Hin as (b0 & Hb0 & Hkey).
        exists b0. split; [|done]. symmetry. apply wellFormedBinding_key_id; auto.
      * left.
        assert (bindingKey b1 ∈ bindingKey <$> BaseArrays.added d) as Hin.
        { apply Hadd. split; [apply elem_of_keys; eauto|done]. }
        apply elem_of_keys in Hin as (a & Ha & Hkey).
        exists a. split; [|done]. symmetry. apply wellFormedBinding_key_id; auto.
  - intros [Hnot [(a & -> & Ha)|(b0 & -> & Hb0)]]; [eauto|].
    destruct (decide (bindingKey b0 ∈ bindingKey <$> E1)) as [Hin|Hnin].
    + apply elem_of_keys in Hin as (b1 & Hb1 & Hkey).
      exists b1. split; [|done]. symmetry. apply wellFormedBinding_key_id; auto.
    + exfalso. apply Hnot.
      assert (bindingKey b0 ∈ bindingKey <$> BaseArrays.removed d) as Hin.
      { apply Hrem. split; [apply elem_of_keys; eauto|done]. }
      apply elem_of_keys in Hin as (r & Hr & Hkey).
      exists r. split; [|done]. symmetry. apply wellFormedBinding_key_id; auto.
Qed.

Lemma recompute_registryMatches (svc : Services)
    (this : MainThreadDocumentAndEditorState) (w : World)
    (dispatcher : MainThreadDocumentsAndEditors) :
  editorIdsDistinct svc →
  registryMatches this dispatcher →
  registryMatches (recompute svc (this, w, dispatcher)).1.1.1
                  (recompute svc (this, w, dispatcher)).1.2.
Proof.
  intros Hsvc [Hdom Hstored].
  destruct (recompute_cases svc this w dispatcher)
    as [[_ ->]|(_ & Hcur & Hdisp & _)]; [done|].
  destruct (newStateOf_editors_wellFormed svc Hsvc) as [Hwf1 Hs1].
  unfold registryMatches, storedIds. rewrite Hcur, Hdisp. split; [|done].
  apply set_eq. intros k. rewrite _onDelta_dom, Hdom, elem_of_list_to_set.
  unfold storedIds, compute.
  destruct (_currentState this) as [s0|].
  - destruct Hstored as [Hwf0 Hs0].
    cbn [newDocumentAndEditorStateDelta removedEditors addedEditors].
    rewrite elem_of_list_to_set. symmetry. by apply delta_ids.
  - cbn [newDocumentAndEditorStateDelta removedEditors addedEditors fmap list_fmap].
    rewrite elem_of_nil, elem_of_empty. tauto.
Qed.

(** From a tracker without a snapshot and a dispatcher without handles,
    and through any run of recomputations in which the listed editors
    have pairwise different ids without commas, the dispatcher holds a
    handle for exactly the ids of the bindings of the stored snapshot:
    one handle for every open binding and none besides. *)
Theorem recomputeAll_registry_matches (svcs : list Services) (w : World) :
  Forall editorIdsDistinct svcs →
  let sys := recomputeAll svcs w in
  dom (_editors sys.2) = storedIds sys.1.1.
Proof.
  intros Hsvcs sys. subst sys. unfold recomputeAll.
  enough (∀ t w' disp, registryMatches t disp →
            registryMatches
              (fold_left (λ sys svc, (recompute svc sys).1) svcs (t, w', disp)).1.1
              (fold_left (λ sys svc, (recompute svc sys).1) svcs (t, w', disp)).2)
    as Hrun.
  { by destruct (Hrun (mkTracker [] ∅ None) w (mkDispatcher ∅)) as [Hdom _]. }
  induction Hsvcs as [|svc svcs Hsvc Hsvcs IH]; intros t w' disp Hinv; [done|].
  cbn [fold_left].
  pose proof (recompute_registryMatches svc t w' disp Hsvc Hinv) as Hstep.
  destruct (recompute svc (t, w', disp)) as [[[t1 w1] disp1] tr].
  by apply IH.
Qed.

End wired.

Lemma recomputeAll_registry_matches_witness :
  let sys := recomputeAll [sampleServices; noServices] emptyWorld in
  dom (mainThreadDocumentsAndEditors._editors sys.2) = storedIds sys.1.1.
Proof.
  apply (recomputeAll_registry_matches [sampleServices; noServices] emptyWorld).
  apply Forall_cons. split.
  - split.
    + apply (bool_decide_unpack (NoDup (getId <$> listCodeEditors sampleServices))).
      by vm_compute.
    + by repeat apply Forall_cons_2.
  - apply Forall_cons. split; [|apply Forall_nil_2].
    split; [apply NoDup_nil_2|apply Forall_nil_2].
Defined.
